(** * Dead Frontier auto trader: the two userscripts, embedded and checked

  Shallow embedding of
    - [src/step1_marketplace_searcher.js] (module [Step1]): inventory
      check, search-result analysis, the buying loop;
    - [src/js/step2_auto_seller.js] (module [Step2]): sales statistics,
      humanised pacing, sell-price computation.

  Conventions.
    - JavaScript numbers are modelled exactly: integers as [Z], other
      numbers as [Q].  Rounding of IEEE doubles, [NaN] and the infinities
      are outside the model; where the source guards against [NaN]
      ([parseFloat(..) || 0]) the unparsable case is an [option].
      The one place where rounding decides what the script does is the
      price test of [analyzeSearchResults]: module [Step1_Rounded] has
      that function with the rounding of the division explicit.
    - The DOM is a record of what the queries of the source return.
    - [Math.random()] and [Date.now()] are explicit arguments.
    - [console.log] output is not modelled, except the one line that marks
      the start of a purchase attempt, which is kept as a trace event. *)

From Stdlib Require Import ZArith QArith Qround Lqa String Ascii List Lia Bool.
From Stdlib Require Import Sorted Qabs.
From stdpp Require Import gmap strings.
Import ListNotations.

Open Scope Z_scope.

(** ** JavaScript helpers shared by both scripts *)

Module JS.

(** [\d] of a JavaScript regular expression. *)
Definition is_digit (c : ascii) : bool :=
  let n := nat_of_ascii c in (48 <=? n)%nat && (n <=? 57)%nat.

(** [\s], restricted to the code units below 256: TAB, LF, VT, FF, CR,
    SPACE and NBSP. *)
Definition is_space (c : ascii) : bool :=
  let n := nat_of_ascii c in
  ((9 <=? n)%nat && (n <=? 13)%nat) || (n =? 32)%nat || (n =? 160)%nat.

(** Longest prefix of digits, and what follows it. *)
Fixpoint span_digits (s : string) : list ascii * string :=
  match s with
  | EmptyString => ([], EmptyString)
  | String c rest =>
      if is_digit c
      then let '(ds, r) := span_digits rest in (c :: ds, r)
      else ([], s)
  end.

Fixpoint skip_spaces (s : string) : string :=
  match s with
  | EmptyString => EmptyString
  | String c rest => if is_space c then skip_spaces rest else s
  end.

Definition digit_value (c : ascii) : Z := Z.of_nat (nat_of_ascii c) - 48.

(** [parseInt] on a string of decimal digits (a capture of [\d+]). *)
Definition parseInt_digits (ds : list ascii) : Z :=
  fold_left (fun acc c => 10 * acc + digit_value c) ds 0.

(** [/(\d+)\s*\/\s*(\d+)/] anchored at the start of [s].  Every
    quantifier is followed by something its own class excludes, so the
    greedy choice is the only one that can succeed and no backtracking
    is needed. *)
Definition slots_match_here (s : string) : option (list ascii * list ascii) :=
  let '(d1, r1) := span_digits s in
  match d1 with
  | [] => None
  | _ :: _ =>
      match skip_spaces r1 with
      | String "/"%char r2 =>
          let '(d2, _) := span_digits (skip_spaces r2) in
          match d2 with
          | [] => None
          | _ :: _ => Some (d1, d2)
          end
      | _ => None
      end
  end.

(** [text.match(/(\d+)\s*\/\s*(\d+)/)]: the leftmost match, with its two
    capture groups. *)
Fixpoint slots_match (s : string) : option (list ascii * list ascii) :=
  match slots_match_here s with
  | Some m => Some m
  | None =>
      match s with
      | EmptyString => None
      | String _ rest => slots_match rest
      end
  end.

(** [Math.floor] on an exact number. *)
Definition floor (x : Q) : Z := Qfloor x.

(** [num / den] rounded to the nearest integer, ties to the even one
    ([0 < den]). *)
Definition round_half_even (num den : Z) : Z :=
  let q := num / den in
  let r := num mod den in
  match 2 * r ?= den with
  | Lt => q
  | Gt => q + 1
  | Eq => if Z.even q then q else q + 1
  end.

(** The exponent of the leading bit of [a / d] ([0 < a], [0 < d]): the
    floor of its binary logarithm. *)
Definition leading_bit (a d : Z) : Z :=
  let l := Z.log2 a - Z.log2 d in
  if (if 0 <=? l then d * 2 ^ l <=? a else d <=? a * 2 ^ (- l))
  then l else l - 1.

(** The double nearest to [a / d] ([0 < a], [0 < d]): 53 significant bits,
    round to nearest, ties to even. *)
Definition nearest (a d : Z) : Q :=
  let e := leading_bit a d - 52 in
  let m := if 0 <=? e
           then round_half_even a (d * 2 ^ e)
           else round_half_even (a * 2 ^ (- e)) d in
  if 0 <=? e
  then inject_Z (m * 2 ^ e)
  else Qmake m (Z.to_pos (2 ^ (- e))).

(** The double nearest to [x].  The exponent is not bounded: overflow to
    infinity and the subnormal numbers are not modelled. *)
Definition binary64 (x : Q) : Q :=
  let a := Z.abs (Qnum x) in
  let d := Zpos (Qden x) in
  if a =? 0 then 0%Q
  else if Qnum x <? 0 then (- nearest a d)%Q else nearest a d.

End JS.

(** ** Step 1: marketplace searcher *)

Module Step1.

(** [CONFIG] of step1_marketplace_searcher.js (the fields the logic
    reads). *)
Record Config := {
  maxPricePerUnit : Q;
  maxRows : Z;
  autoBuy : bool;
  checkInventory : bool
}.

Definition CONFIG : Config := {|
  maxPricePerUnit := 116 # 10;
  maxRows := 10;
  autoBuy := false;
  checkInventory := true
|}.

(** Text of an element: [textContent] is always a string; [innerText]
    is [undefined] on elements that are not HTML elements. *)
Record ElementText := {
  textContent : string;
  innerText : option string
}.

(** [el.textContent || el.innerText]: [None] is [undefined]. *)
Definition text_of (el : ElementText) : option string :=
  if String.eqb (textContent el) EmptyString then innerText el
  else Some (textContent el).

(** A [.fakeItem] row.  [dataset_price] is [parseFloat(dataset.price)],
    [dataset_quantity] is [parseInt(dataset.quantity)]; [None] is [NaN].
    [has_click] is [typeof element.click === 'function']. *)
Record FakeItem := {
  dataset_price : option Q;
  dataset_quantity : option Z;
  has_click : bool
}.

(** The page, as the queries of the script see it. *)
Record Document := {
  (* getElementById('itemDisplay'): its childNodes.length *)
  itemDisplay : option nat;
  (* querySelectorAll('.fakeItem') *)
  fakeItems : list FakeItem;
  (* querySelectorAll('#invController .item, ...').length *)
  inventoryItems_length : nat;
  (* querySelector('#inventoryInfo, .inventoryInfo, ...') *)
  inventoryInfo : option ElementText;
  (* getElementById('invController') *)
  invController : option ElementText;
  (* querySelector('[data-action="buyItem"]') is not null *)
  buyButton : bool;
  (* querySelector('#gamecontent button, #gamecontent input[value="Yes"]'):
     its innerHTML *)
  yesButton : option string;
  (* querySelectorAll('button, input[type="button"]'): textContent of each *)
  confirmButtons : list string
}.

(** *** analyzeSearchResults *)

(** An entry of [goodDeals].  The display string [pricePerUnit]
    ([toFixed(2)]) is left out. *)
Record Deal := {
  index : nat;
  price : Q;
  quantity : Z;
  element : FakeItem;
  actualPrice : Q;
  actualPricePerUnit : Q
}.

Record SearchResults := {
  items : list Deal;
  count : nat
}.

(** [parseFloat(item.dataset.price) || 0] *)
Definition price_of (item : FakeItem) : Q :=
  match dataset_price item with
  | Some p => if Qeq_bool p 0 then 0%Q else p
  | None => 0%Q
  end.

(** [parseInt(item.dataset.quantity) || 1] *)
Definition quantity_of (item : FakeItem) : Z :=
  match dataset_quantity item with
  | Some q => if q =? 0 then 1 else q
  | None => 1
  end.

(** The body of the [for] loop, from row [idx] on; the [else] branch is
    the [break].  The quotient is exact here; [Step1_Rounded.scan] is the
    same loop with the rounding of the division explicit. *)
Fixpoint scan (cfg : Config) (idx : nat) (rows : list FakeItem) : list Deal :=
  match rows with
  | [] => []
  | item :: rest =>
      let price := price_of item in
      let quantity := quantity_of item in
      let pricePerUnit := (price / inject_Z quantity)%Q in
      if Qle_bool pricePerUnit (maxPricePerUnit cfg)
      then {| index := idx + 1;
              price := price;
              quantity := quantity;
              element := item;
              actualPrice := price;
              actualPricePerUnit := pricePerUnit |}
           :: scan cfg (S idx) rest
      else []
  end.

Definition analyzeSearchResults (cfg : Config) (doc : Document) : SearchResults :=
  match itemDisplay doc with
  | None => {| items := []; count := 0 |}
  | Some childNodes =>
      if (childNodes <=? 0)%nat then {| items := []; count := 0 |}
      else
        let rows := fakeItems doc in
        let itemsToCheck := Z.min (Z.of_nat (length rows)) (maxRows cfg) in
        let goodDeals := scan cfg 0 (firstn (Z.to_nat itemsToCheck) rows) in
        {| items := goodDeals; count := length goodDeals |}
  end.

(** [results.items.reduce((sum, item) => sum + item.quantity, 0)], the
    total quantity that [printResults] reports for the selection. *)
Definition totalQuantity (results : SearchResults) : Z :=
  fold_left (fun sum item => sum + quantity item) (items results) 0.

(** *** checkInventoryStatus *)

Record InventoryStatus := {
  totalSlots : Z;
  usedSlots : Z;
  availableSlots : Z;
  isFull : bool;
  isNearFull : bool;
  error : bool
}.

(** The three [let] variables of [checkInventoryStatus]. *)
Record Slots := {
  total : Z;
  used : Z;
  available : Z
}.

(** [usedSlots = parseInt(match[1]); totalSlots = parseInt(match[2]);
    availableSlots = totalSlots - usedSlots] *)
Definition slots_of_match (m : list ascii * list ascii) : Slots :=
  let usedSlots := JS.parseInt_digits (fst m) in
  let totalSlots := JS.parseInt_digits (snd m) in
  {| total := totalSlots; used := usedSlots;
     available := totalSlots - usedSlots |}.

(** The [try] block up to the construction of the result; [None] is a
    [TypeError] ([undefined.match]) taken by the [catch]. *)
Definition read_slots (doc : Document) : option Slots :=
  let n := Z.of_nat (inventoryItems_length doc) in
  let s0 := {| total := 0; used := 0; available := 0 |} in
  (* method 1: explicit inventory information *)
  s1 ← match inventoryInfo doc with
       | Some el =>
           infoText ← text_of el;
           Some match JS.slots_match infoText with
                | Some m => slots_of_match m
                | None => s0
                end
       | None => Some s0
       end;
  (* method 2: count the inventory items *)
  let s2 := if (total s1 =? 0) && (0 <? n)
            then {| total := 40; used := n; available := available s1 |}
            else s1 in
  (* method 3: the inventory controller *)
  s3 ← match invController doc with
       | Some el =>
           allText ← text_of el;
           Some match JS.slots_match allText with
                | Some m => if total s2 =? 0 then slots_of_match m else s2
                | None => s2
                end
       | None => Some s2
       end;
  (* fall back on the item count *)
  Some (if total s3 =? 0
        then {| total := 40; used := n; available := 40 - n |}
        else {| total := total s3; used := used s3;
                available := total s3 - used s3 |}).

(** The display field [usagePercentage] ([toFixed(1)]) is left out. *)
Definition checkInventoryStatus (doc : Document) : InventoryStatus :=
  match read_slots doc with
  | Some s =>
      {| totalSlots := total s;
         usedSlots := used s;
         availableSlots := available s;
         isFull := available s <=? 0;
         isNearFull := available s <=? 3;
         error := false |}
  | None =>
      {| totalSlots := 0;
         usedSlots := 0;
         availableSlots := 0;
         isFull := false;
         isNearFull := false;
         error := true |}
  end.

(** *** The buying loop: effects *)

(** What the script does to the page, in order. *)
Inductive Event :=
| EvAttempt (idx : nat)     (* console.log of buyItem: attempt on item #idx *)
| EvClickItem (idx : nat)   (* item.element.click() *)
| EvClickBuy                (* buyButton.click() *)
| EvClickYes                (* the confirmation button .click() *)
| EvSleep (ms : Z).         (* await sleep(ms) *)

(** DOM calls of a purchase attempt that may raise. *)
Inductive DomOp := OpItemClick | OpBuyClick | OpYesClick.

(** A page during one purchase attempt: the document, and which DOM
    calls raise an exception on it. *)
Record Page := {
  document : Document;
  raises : DomOp -> bool
}.

Inductive Outcome (A : Type) :=
| Return (a : A)
| Throw.
Arguments Return {A} a.
Arguments Throw {A}.

(** An [async] body: the events it causes, then its value or an
    exception. *)
Definition Eff (A : Type) : Type := list Event * Outcome A.

Definition ret {A} (a : A) : Eff A := ([], Return a).

Definition bind {A B} (m : Eff A) (k : A -> Eff B) : Eff B :=
  match m with
  | (t, Return a) => let '(t', r) := k a in (t ++ t', r)
  | (t, Throw) => (t, Throw)
  end.

Definition emit (e : Event) : Eff unit := ([e], Return tt).

Definition throw {A} : Eff A := ([], Throw).

(** [try { m } catch (error) { h }] *)
Definition try_catch {A} (m : Eff A) (h : Eff A) : Eff A :=
  match m with
  | (t, Return a) => (t, Return a)
  | (t, Throw) => let '(t', r) := h in (t ++ t', r)
  end.

#[global] Instance Eff_ret : MRet Eff := @ret.
#[global] Instance Eff_bind : MBind Eff := fun A B k m => bind m k.

Definition sleep (ms : Z) : Eff unit := emit (EvSleep ms).

(** A DOM call: it raises when the page says so, else it happens. *)
Definition dom_call (pg : Page) (op : DomOp) (e : Event) : Eff unit :=
  if raises pg op then throw else emit e.

(** [text.includes(sub)] *)
Definition includes (text sub : string) : bool :=
  match String.index 0 sub text with
  | Some _ => true
  | None => false
  end.

(** The [for (let button of confirmButtons)] loop of
    [handleConfirmDialog]. *)
Fixpoint confirm_loop (pg : Page) (buttons : list string) : Eff bool :=
  match buttons with
  | [] => ret false
  | textContent :: rest =>
      if negb (String.eqb textContent EmptyString) && includes textContent "Yes"
      then dom_call pg OpYesClick EvClickYes;;
           sleep 2000;;
           ret true
      else confirm_loop pg rest
  end.

Definition handleConfirmDialog (pg : Page) : Eff bool :=
  let doc := document pg in
  try_catch
    (match yesButton doc with
     | Some innerHTML =>
         if negb (String.eqb innerHTML EmptyString) && includes innerHTML "Yes"
         then dom_call pg OpYesClick EvClickYes;;
              sleep 2000;;
              ret true
         else confirm_loop pg (confirmButtons doc)
     | None => confirm_loop pg (confirmButtons doc)
     end)
    (ret false).

Definition buyItem (pg : Page) (item : Deal) : Eff bool :=
  try_catch
    (emit (EvAttempt (index item));;
     if has_click (element item)
     then
       dom_call pg OpItemClick (EvClickItem (index item));;
       sleep 1000;;
       if buyButton (document pg)
       then
         dom_call pg OpBuyClick EvClickBuy;;
         sleep 1500;;
         handleConfirmDialog pg;;
         ret true
       else ret false
     else ret false)
    (ret false).

Record BuyResults := {
  success : nat;
  failed : nat
}.

(** The [for] loop of [autoBuyItems] from position [i] on; [world i] is
    the page as it is during the attempt on [results.items[i]]. *)
Fixpoint buy_loop (world : nat -> Page) (i : nat) (rest : list Deal)
    (successCount failedCount : nat) : Eff BuyResults :=
  match rest with
  | [] => ret {| success := successCount; failed := failedCount |}
  | item :: rest' =>
      ok ← buyItem (world i) item;
      sleep 2000;;
      if ok : bool
      then buy_loop world (S i) rest' (S successCount) failedCount
      else buy_loop world (S i) rest' successCount (S failedCount)
  end.

Definition autoBuyItems (cfg : Config) (world : nat -> Page)
    (results : SearchResults) : Eff BuyResults :=
  if negb (autoBuy cfg) || (count results =? 0)%nat
  then ret {| success := 0; failed := 0 |}
  else buy_loop world 0 (items results) 0 0.

(** Step 8 of [executeStep1]: [inventoryStatus] is [None] when
    [CONFIG.checkInventory] is off ([null]).  The result is [None] when
    no purchase run was started. *)
Definition executeStep1_autoBuy (cfg : Config)
    (inventoryStatus : option InventoryStatus) (results : SearchResults)
    (world : nat -> Page) : Eff (option BuyResults) :=
  if autoBuy cfg && (0 <? count results)%nat
  then
    match inventoryStatus with
    | Some st =>
        if isFull st then ret None
        else if isNearFull st
        then (buyResults ← autoBuyItems cfg world results; ret (Some buyResults))
        else (buyResults ← autoBuyItems cfg world results; ret (Some buyResults))
    | None =>
        (buyResults ← autoBuyItems cfg world results; ret (Some buyResults))
    end
  else ret None.

(** Steps 3, 6 and 8 of [executeStep1], on the page [before] the search
    and the page [after] it; navigation, tab switching, the search
    request and printing are left out. *)
Definition executeStep1 (cfg : Config) (before after : Document)
    (world : nat -> Page) : Eff (option BuyResults) :=
  let inventoryStatus :=
    if checkInventory cfg then Some (checkInventoryStatus before) else None in
  let results := analyzeSearchResults cfg after in
  try_catch (executeStep1_autoBuy cfg inventoryStatus results world) (ret None).

End Step1.

(** ** Step 2: auto seller *)

Module Step2.

(** [CONFIG.humanBehavior.progressiveDelay] *)
Record ProgressiveDelay := {
  enabled : bool;
  multiplier : Q;
  maxMultiplier : Q;
  resetAfter : Z
}.

(** [CONFIG.humanBehavior.itemDelay] *)
Record ItemDelay := {
  min : Q;
  max : Q
}.

Record HumanBehavior := {
  itemDelay : ItemDelay;
  progressiveDelay : ProgressiveDelay
}.

(** [CONFIG] of step2_auto_seller.js (the fields the logic reads). *)
Record Config := {
  sellPrice : Q;
  removeDecimalFromTotal : bool;
  autoSell : bool;
  humanBehavior : HumanBehavior
}.

Definition CONFIG : Config := {|
  sellPrice := 1166 # 100;
  removeDecimalFromTotal := true;
  autoSell := true;
  humanBehavior := {|
    itemDelay := {| min := 3000; max := 6000 |};
    progressiveDelay := {|
      enabled := false;
      multiplier := 12 # 10;
      maxMultiplier := 2;
      resetAfter := 180000
    |}
  |}
|}.

(** *** Sales statistics in localStorage *)

Record SalesStats := {
  totalSuccess : Z;
  totalFailed : Z;
  totalQuantity : Z;
  totalValue : Q;
  lastSaleTime : Z
}.

(** [localStorage]: each key holds the object its JSON text denotes. *)
Abbreviation LocalStorage := (gmap string SalesStats).

Definition stats_key : string := "df_auto_seller_stats".

Definition getSalesStats (localStorage : LocalStorage) : SalesStats :=
  match localStorage !! stats_key with
  | Some stats => stats
  | None =>
      {| totalSuccess := 0;
         totalFailed := 0;
         totalQuantity := 0;
         totalValue := 0;
         lastSaleTime := 0 |}
  end.

(** [updateSalesStats(success, quantity = 0, value = 0)]; [now] is
    [Date.now()].  Returns the statistics and the updated store. *)
Definition updateSalesStats (localStorage : LocalStorage) (now : Z)
    (success : bool) (quantity : Z) (value : Q) : SalesStats * LocalStorage :=
  let stats := getSalesStats localStorage in
  let stats :=
    if success
    then {| totalSuccess := totalSuccess stats + 1;
            totalFailed := totalFailed stats;
            totalQuantity := totalQuantity stats + quantity;
            totalValue := totalValue stats + value;
            lastSaleTime := lastSaleTime stats |}
    else {| totalSuccess := totalSuccess stats;
            totalFailed := totalFailed stats + 1;
            totalQuantity := totalQuantity stats;
            totalValue := totalValue stats;
            lastSaleTime := lastSaleTime stats |} in
  let stats :=
    {| totalSuccess := totalSuccess stats;
       totalFailed := totalFailed stats;
       totalQuantity := totalQuantity stats;
       totalValue := totalValue stats;
       lastSaleTime := now |} in
  (stats, <[stats_key := stats]> localStorage).

(** *** Pacing *)

(** The three module-level variables behind the progressive delay. *)
Record Pacing := {
  operationCount : Z;
  lastOperationTime : Z;
  currentDelayMultiplier : Q
}.

Definition initial : Pacing := {|
  operationCount := 0;
  lastOperationTime := 0;
  currentDelayMultiplier := 1
|}.

(** [humanDelay(baseMs, variationMs)]; [rnd] is [Math.random()]. *)
Definition humanDelay (baseMs variationMs rnd : Q) : Z :=
  let randomDelay := (baseMs + (rnd * variationMs * 2 - variationMs))%Q in
  Z.max 500 (JS.floor randomDelay).

(** [humanWait(baseMs, variationMs)]: the duration handed to [sleep].  It
    reads the pacing state and leaves it as it is. *)
Definition humanWait (cfg : Config) (st : Pacing) (baseMs variationMs rnd : Q) : Z :=
  let delay := humanDelay baseMs variationMs rnd in
  if enabled (progressiveDelay (humanBehavior cfg))
  then JS.floor (inject_Z delay * currentDelayMultiplier st)
  else delay.

(** [enhancedItemWait()]: the duration slept and the state afterwards;
    [now] is [Date.now()] after the sleep. *)
Definition enhancedItemWait (cfg : Config) (st : Pacing) (rnd : Q) (now : Z)
    : Z * Pacing :=
  let config := humanBehavior cfg in
  let baseDelay :=
    (min (itemDelay config)
     + rnd * (max (itemDelay config) - min (itemDelay config)))%Q in
  (JS.floor baseDelay,
   {| operationCount := operationCount st + 1;
      lastOperationTime := now;
      currentDelayMultiplier := currentDelayMultiplier st |}).

(** The pacing calls of the script, as a small machine over [Pacing]. *)
Inductive PacingOp :=
| OpHumanWait (baseMs variationMs rnd : Q)
| OpEnhancedItemWait (rnd : Q) (now : Z).

Definition pacing_step (cfg : Config) (st : Pacing) (op : PacingOp) : Pacing :=
  match op with
  | OpHumanWait _ _ _ => st
  | OpEnhancedItemWait rnd now => snd (enhancedItemWait cfg st rnd now)
  end.

Definition pacing_run (cfg : Config) (ops : list PacingOp) : Pacing :=
  fold_left (pacing_step cfg) ops initial.

(** The [while (attempts < maxAttempts)] loop of [sellItem] that waits for
    the Yes button: [yesEnabled k] says whether attempt [k] finds it,
    [rnd k] is the random draw of the wait after attempt [k].  Returns
    whether the button was found and the [humanWait(400, 150)] durations
    of the failed attempts (the fixed [sleep(200)] and [sleep(100)] are
    left out). *)
Fixpoint yes_button_loop (cfg : Config) (st : Pacing)
    (yesEnabled : nat -> bool) (rnd : nat -> Q)
    (attempts remaining : nat) : bool * list Z :=
  match remaining with
  | O => (false, [])
  | S remaining' =>
      let attempts := S attempts in
      if yesEnabled attempts then (true, [])
      else
        let '(found, waits) :=
          yes_button_loop cfg st yesEnabled rnd attempts remaining' in
        (found, humanWait cfg st 400 150 (rnd attempts) :: waits)
  end.

Definition maxAttempts : nat := 5.

Definition waitForYesButton (cfg : Config) (st : Pacing)
    (yesEnabled : nat -> bool) (rnd : nat -> Q) : bool * list Z :=
  yes_button_loop cfg st yesEnabled rnd 0 maxAttempts.

(** *** calculateSellPrice *)

Record PriceInfo := {
  unitPrice : Q;
  totalPrice : Q;
  quantity : Z
}.

Definition calculateSellPrice (cfg : Config) (quantity : Z) : PriceInfo :=
  let totalPrice := (sellPrice cfg * inject_Z quantity)%Q in
  let totalPrice :=
    if removeDecimalFromTotal cfg
    then inject_Z (JS.floor totalPrice)
    else totalPrice in
  {| unitPrice := sellPrice cfg;
     totalPrice := totalPrice;
     quantity := quantity |}.

End Step2.

(** ** src/trading_config.json: the settings the claims refer to *)

Module TradingConfig.

Record Buying := {
  max_purchases_per_cycle : Z
}.

Record Selling := {
  markup_percentage : Q;
  min_markup_percentage : Q;
  max_markup_percentage : Q
}.

Definition buying : Buying := {| max_purchases_per_cycle := 10 |}.

(** The beginner preset of docs/trading_config_guide.md. *)
Definition buying_beginner : Buying := {| max_purchases_per_cycle := 3 |}.

Definition selling : Selling := {|
  markup_percentage := 2 # 10;
  min_markup_percentage := 1 # 10;
  max_markup_percentage := 5 # 10
|}.

End TradingConfig.

(** ** The specification's own wording, for comparison with the code *)

Module Spec.

(** ResourceSnapshot of the specification (section 3). *)
Record ResourceSnapshot := {
  cashOnHand : Z;
  bankBalance : Z;
  inventoryUsed : Z;
  inventoryCapacity : Z;
  storageUsed : Z;
  storageCapacity : Z;
  activeListings : Z;
  listingCapacity : Z
}.

(** The full-block condition as the specification words it. *)
Definition fullBlock (s : ResourceSnapshot) : Prop :=
  cashOnHand s = 0 /\ bankBalance s = 0
  /\ inventoryUsed s >= inventoryCapacity s
  /\ storageUsed s >= storageCapacity s
  /\ activeListings s >= listingCapacity s.

(** [freeInventorySlots] as the specification words it: clamped at 0. *)
Definition freeInventorySlots (s : ResourceSnapshot) : Z :=
  Z.max 0 (inventoryCapacity s - inventoryUsed s).

(** The page [doc] displays the inventory occupancy of snapshot [s]. *)
Definition page_shows (doc : Step1.Document) (s : ResourceSnapshot) : Prop :=
  let st := Step1.checkInventoryStatus doc in
  Step1.error st = false
  /\ Step1.usedSlots st = inventoryUsed s
  /\ Step1.totalSlots st = inventoryCapacity s.

(** HoldingLot of the specification (the fields pricing needs). *)
Record HoldingLot := {
  lot_quantity : Z;
  acquisitionUnitPrice : Q
}.

(** The ask price as the specification words it:
    [acquisitionUnitPrice * (1 + markup)] with the markup between the
    configured bounds. *)
Definition is_markup_price (sel : TradingConfig.Selling) (lot : HoldingLot)
    (ask : Q) : Prop :=
  exists markup : Q,
    (TradingConfig.min_markup_percentage sel <= markup)%Q
    /\ (markup <= TradingConfig.max_markup_percentage sel)%Q
    /\ (ask == acquisitionUnitPrice lot * (1 + markup))%Q.

End Spec.

(** ** Observations on traces, and the concrete pages used below *)

Module Inputs.

Import Step1.

(** The item numbers of the purchase attempts in a trace, in order. *)
Definition attempts (t : list Event) : list nat :=
  flat_map (fun e => match e with EvAttempt idx => [idx] | _ => [] end) t.

(** The number of clicks on the buy button in a trace. *)
Definition buy_clicks (t : list Event) : nat :=
  length (List.filter (fun e => match e with EvClickBuy => true | _ => false end) t).

(** An [async] body that ends normally. *)
Definition returns {A} (m : Eff A) : Prop :=
  exists t a, m = (t, Return a).

Definition text (s : string) : ElementText :=
  {| textContent := s; innerText := Some s |}.

Definition offer (price : Q) (quantity : Z) : FakeItem :=
  {| dataset_price := Some price;
     dataset_quantity := Some quantity;
     has_click := true |}.

(** A marketplace page showing the inventory counter [inv] and the
    search rows [rows], with the buy and confirmation buttons present. *)
Definition market_page (inv : string) (rows : list FakeItem) : Document :=
  {| itemDisplay := Some (length rows);
     fakeItems := rows;
     inventoryItems_length := 0;
     inventoryInfo := Some (text inv);
     invController := None;
     buyButton := true;
     yesButton := Some "Yes"%string;
     confirmButtons := [] |}.

(** A page on which no DOM call raises. *)
Definition quiet (doc : Document) : Page :=
  {| document := doc; raises := fun _ => false |}.

(** The shipped configuration with auto-buy switched on. *)
Definition CONFIG_autoBuy : Config :=
  {| maxPricePerUnit := maxPricePerUnit CONFIG;
     maxRows := maxRows CONFIG;
     autoBuy := true;
     checkInventory := checkInventory CONFIG |}.

(** One free slot, and one cheap stack of a hundred rounds on offer. *)
Definition c2_page : Document :=
  market_page "39/40" [offer 1000 100].

Definition c2_snapshot : Spec.ResourceSnapshot :=
  {| Spec.cashOnHand := 5000;
     Spec.bankBalance := 0;
     Spec.inventoryUsed := 39;
     Spec.inventoryCapacity := 40;
     Spec.storageUsed := 0;
     Spec.storageCapacity := 50;
     Spec.activeListings := 0;
     Spec.listingCapacity := 30 |}.

(** A full inventory, with cash in hand and free storage and listings. *)
Definition c3_page : Document :=
  market_page "40/40" [].

Definition c3_snapshot : Spec.ResourceSnapshot :=
  {| Spec.cashOnHand := 5000;
     Spec.bankBalance := 0;
     Spec.inventoryUsed := 40;
     Spec.inventoryCapacity := 40;
     Spec.storageUsed := 10;
     Spec.storageCapacity := 50;
     Spec.activeListings := 0;
     Spec.listingCapacity := 30 |}.

Definition c6_page : Document :=
  market_page "25/40" [offer 10 1; offer 10 1; offer 11 1; offer 11 1].

(** More items than slots. *)
Definition c7_page : Document :=
  market_page "45/40" [].

(** Two cheap offers found with one slot free; by the second attempt the
    page shows a full inventory. *)
Definition c8_search_page : Document :=
  market_page "39/40" [offer 10 1; offer 10 1].

Definition c8_world (i : nat) : Page :=
  match i with
  | O => quiet (market_page "39/40" [])
  | S _ => quiet (market_page "40/40" [])
  end.

Definition gone_deal : Deal :=
  {| index := 1;
     price := 10;
     quantity := 1;
     element := offer 10 1;
     actualPrice := 10;
     actualPricePerUnit := 10 / inject_Z 1 |}.

(** An offer that is gone at purchase time: the buy button is missing. *)
Definition gone_page : Page :=
  quiet {| itemDisplay := Some 0%nat;
           fakeItems := [];
           inventoryItems_length := 0;
           inventoryInfo := None;
           invController := None;
           buyButton := false;
           yesButton := None;
           confirmButtons := [] |}.

(** A page whose inventory line reads [Inventory: 25 / 40 slots]. *)
Definition counter_page : Document :=
  market_page "Inventory: 25 / 40 slots" [].

(** A page without any slot counter and with 38 inventory items. *)
Definition uncounted_page : Document :=
  {| itemDisplay := None;
     fakeItems := [];
     inventoryItems_length := 38;
     inventoryInfo := Some (text "Inventory");
     invController := None;
     buyButton := false;
     yesButton := None;
     confirmButtons := [] |}.

(** A page whose inventory line has no text at all: reading it raises. *)
Definition unread_page : Document :=
  {| itemDisplay := None;
     fakeItems := [];
     inventoryItems_length := 40;
     inventoryInfo := Some {| textContent := ""; innerText := None |};
     invController := None;
     buyButton := false;
     yesButton := None;
     confirmButtons := [] |}.

End Inputs.

Module Step2_Inputs.

Import Step2.

(** The shipped configuration with the progressive delay switched on. *)
Definition CONFIG_progressive : Config :=
  {| sellPrice := sellPrice CONFIG;
     removeDecimalFromTotal := removeDecimalFromTotal CONFIG;
     autoSell := autoSell CONFIG;
     humanBehavior :=
       {| itemDelay := itemDelay (humanBehavior CONFIG);
          progressiveDelay :=
            {| enabled := true;
               multiplier := multiplier (progressiveDelay (humanBehavior CONFIG));
               maxMultiplier := maxMultiplier (progressiveDelay (humanBehavior CONFIG));
               resetAfter := resetAfter (progressiveDelay (humanBehavior CONFIG)) |} |} |}.

(** Three failed looks for the Yes button, found at the fourth. *)
Definition found_at_fourth (k : nat) : bool := (3 <? k)%nat.

(** Growing random draws: 0.1, 0.2, 0.3, ... *)
Definition growing_draws (k : nat) : Q := Z.of_nat k # 10.

(** The ask for a lot: [sellItem] prices [item.quantity] and nothing
    else of the item. *)
Definition ask_of_lot (cfg : Config) (lot : Spec.HoldingLot) : PriceInfo :=
  calculateSellPrice cfg (Spec.lot_quantity lot).

(** A hundred rounds bought at 5 apiece. *)
Definition cheap_lot : Spec.HoldingLot :=
  {| Spec.lot_quantity := 100; Spec.acquisitionUnitPrice := 5 |}.

End Step2_Inputs.

(** ** More of the marketplace searcher *)

Module Step1_More.

Import Step1.

(** *** printResults: the totals it reports *)

(** [results.items.reduce((sum, item) => sum + item.actualPrice, 0)] *)
Definition totalValue (results : SearchResults) : Q :=
  fold_left (fun sum item => (sum + actualPrice item)%Q) (items results) 0%Q.


(** *** analyzeSearchResults of the first version (src/unnamed/part_001)

    It visits every row with [forEach], has no row limit and no [break],
    and its entries have no [actualPrice] fields. *)

Record Deal0 := {
  index0 : nat;
  price0 : Q;
  quantity0 : Z;
  element0 : FakeItem
}.

Record SearchResults0 := {
  items0 : list Deal0;
  count0 : nat
}.

Fixpoint scan0 (maxPricePerUnit : Q) (idx : nat) (rows : list FakeItem)
    : list Deal0 :=
  match rows with
  | [] => []
  | item :: rest =>
      let price := price_of item in
      let quantity := quantity_of item in
      let pricePerUnit := (price / inject_Z quantity)%Q in
      if Qle_bool pricePerUnit maxPricePerUnit
      then {| index0 := idx + 1;
              price0 := price;
              quantity0 := quantity;
              element0 := item |}
           :: scan0 maxPricePerUnit (S idx) rest
      else scan0 maxPricePerUnit (S idx) rest
  end.

Definition analyzeSearchResults0 (maxPricePerUnit : Q) (doc : Document)
    : SearchResults0 :=
  match itemDisplay doc with
  | None => {| items0 := []; count0 := 0 |}
  | Some childNodes =>
      if (childNodes <=? 0)%nat then {| items0 := []; count0 := 0 |}
      else
        let goodDeals := scan0 maxPricePerUnit 0 (fakeItems doc) in
        {| items0 := goodDeals; count0 := length goodDeals |}
  end.

(** An entry of the current version, seen with the fields of the first. *)
Definition forget (d : Deal) : Deal0 :=
  {| index0 := index d;
     price0 := price d;
     quantity0 := quantity d;
     element0 := element d |}.

(** *** The manual trigger button

    The purchase step of the [onclick] handler of
    [addManualTriggerButton]: like step 8 of [executeStep1], without the
    near-full branch. *)
Definition manualTrigger_autoBuy (cfg : Config)
    (inventoryStatus : option InventoryStatus) (results : SearchResults)
    (world : nat -> Page) : Eff (option BuyResults) :=
  if autoBuy cfg && (0 <? count results)%nat
  then
    match inventoryStatus with
    | Some st =>
        if isFull st then ret None
        else (buyResults ← autoBuyItems cfg world results; ret (Some buyResults))
    | None =>
        (buyResults ← autoBuyItems cfg world results; ret (Some buyResults))
    end
  else ret None.

(** *** Observations on purchase traces *)

(** How many events of a trace satisfy [p]. *)
Definition count_ev (p : Event -> bool) (t : list Event) : nat :=
  length (List.filter p t).

Definition is_attempt (e : Event) : bool :=
  match e with EvAttempt _ => true | _ => false end.

Definition is_item_click (e : Event) : bool :=
  match e with EvClickItem _ => true | _ => false end.

Definition is_buy_click (e : Event) : bool :=
  match e with EvClickBuy => true | _ => false end.

Definition is_yes_click (e : Event) : bool :=
  match e with EvClickYes => true | _ => false end.

(** The time a trace spends sleeping, in ms. *)
Definition sleep_total (t : list Event) : Z :=
  fold_right (fun e acc => match e with EvSleep ms => ms + acc | _ => acc end) 0 t.

(** The trace of the buying loop, attempt by attempt. *)
Fixpoint loop_trace (world : nat -> Page) (i : nat) (rest : list Deal)
    : list Event :=
  match rest with
  | [] => []
  | item :: rest' =>
      fst (buyItem (world i) item) ++ EvSleep 2000 :: loop_trace world (S i) rest'
  end.

(** The attempt goes as far as the click on the buy button. *)
Definition attempt_ok (pg : Page) (item : Deal) : bool :=
  has_click (element item)
  && negb (raises pg OpItemClick)
  && buyButton (document pg)
  && negb (raises pg OpBuyClick).

(** How many of the attempts on [rest], made from position [i] on, go as
    far as the click on the buy button. *)
Fixpoint count_ok (world : nat -> Page) (i : nat) (rest : list Deal) : nat :=
  match rest with
  | [] => 0
  | item :: rest' =>
      (if attempt_ok (world i) item then 1 else 0) + count_ok world (S i) rest'
  end.

(** *** Texts that carry a slot counter *)

Definition all_digits (ds : list ascii) : Prop :=
  Forall (fun c => JS.is_digit c = true) ds.

Definition all_spaces (ws : list ascii) : Prop :=
  Forall (fun c => JS.is_space c = true) ws.

Definition no_digit (cs : list ascii) : Prop :=
  Forall (fun c => JS.is_digit c = false) cs.

(** The text does not begin with a digit. *)
Definition no_leading_digit (s : string) : Prop :=
  match s with
  | EmptyString => True
  | String c _ => JS.is_digit c = false
  end.

(** [pre], then [used], spaces, a slash, spaces, [total], then [suf]. *)
Definition counter_text (pre used ws1 ws2 total : list ascii) (suf : string)
    : string :=
  string_of_list_ascii pre
  +:+ string_of_list_ascii used
  +:+ string_of_list_ascii ws1
  +:+ String "/" (string_of_list_ascii ws2
                  +:+ string_of_list_ascii total
                  +:+ suf).

(** The text the script reads from an optional element is defined. *)
Definition text_defined (el : option ElementText) : Prop :=
  match el with
  | Some e => text_of e <> None
  | None => True
  end.

(** No usable slot counter can be read from an optional element: its
    text has no counter, or one whose capacity reads as 0. *)
Definition no_usable_counter (el : option ElementText) : Prop :=
  match el with
  | Some e =>
      exists s,
        text_of e = Some s
        /\ match JS.slots_match s with
           | Some m => JS.parseInt_digits (snd m) = 0
           | None => True
           end
  | None => True
  end.

End Step1_More.

(** ** More of the auto seller *)

Module Step2_More.

(** *** Statistics: clearing and accumulating *)

(** The handler of the clear-statistics button; [confirmed] is the answer
    to its [confirm] dialog. *)
Definition clearStats (localStorage : Step2.LocalStorage) (confirmed : bool)
    : Step2.LocalStorage :=
  if confirmed then delete Step2.stats_key localStorage else localStorage.

(** One call of [updateSalesStats]: when, with which outcome, and the
    quantity and value passed. *)
Record Sale := {
  sale_time : Z;
  sale_success : bool;
  sale_quantity : Z;
  sale_value : Q
}.

(** The successful ones among a sequence of calls. *)
Definition successes (sales : list Sale) : list Sale :=
  List.filter sale_success sales.

(** The store after a sequence of [updateSalesStats] calls. *)
Definition record_sales (localStorage : Step2.LocalStorage) (sales : list Sale)
    : Step2.LocalStorage :=
  fold_left
    (fun ls s =>
       snd (Step2.updateSalesStats ls (sale_time s) (sale_success s)
              (sale_quantity s) (sale_value s)))
    sales localStorage.

(** *** findInventoryItems *)

(** A descendant of the inventory table, by the attributes the script
    reads.  [data_quantity] is [parseInt] of the attribute, [None] when
    the attribute is missing or empty. *)
Record InventoryElement := {
  data_type : option string;
  data_itemtype : option string;
  data_quantity : option Z
}.

(** An entry of [targetItems]; the display name is left out. *)
Record TargetItem := {
  element : InventoryElement;
  quantity : Z;
  index : nat;
  dataType : string;
  dataItemType : string
}.

(** The value the template literal puts into the selector
    [[data-type="${CONFIG.targetDataType}"]]; [None] is a [CONFIG]
    without that key, as shipped. *)
Definition selector_value (targetDataType : option string) : string :=
  match targetDataType with
  | Some s => s
  | None => "undefined"
  end.

(** [item.getAttribute(name) || ''] *)
Definition attribute_or_empty (a : option string) : string :=
  match a with
  | Some s => s
  | None => ""
  end.

(** The second [forEach] of [findInventoryItems], from position [idx]. *)
Fixpoint collect (idx : nat) (inventoryItems : list InventoryElement)
    : list TargetItem :=
  match inventoryItems with
  | [] => []
  | item :: rest =>
      let dataType := attribute_or_empty (data_type item) in
      let dataItemType := attribute_or_empty (data_itemtype item) in
      let is127mmAmmo :=
        String.eqb dataType "127rifleammo" && String.eqb dataItemType "ammo" in
      if is127mmAmmo
      then {| element := item;
              quantity := match data_quantity item with
                          | Some q => q
                          | None => 1
                          end;
              index := idx + 1;
              dataType := dataType;
              dataItemType := dataItemType |}
           :: collect (S idx) rest
      else collect (S idx) rest
  end.

(** [inventory] is the list of descendants of the [#inventory] table, or
    [None] when the table is missing.  The attribute selector keeps the
    elements whose [data-type] is exactly the selector value (taken to be
    free of quotes and backslashes). *)
Definition findInventoryItems (targetDataType : option string)
    (inventory : option (list InventoryElement)) : list TargetItem :=
  match inventory with
  | None => []
  | Some descendants =>
      let inventoryItems :=
        List.filter
          (fun el =>
             match data_type el with
             | Some t => String.eqb t (selector_value targetDataType)
             | None => false
             end)
          descendants in
      collect 0 inventoryItems
  end.

(** The element is a stack of 12.7mm rounds: [data-type] is
    [127rifleammo] and [data-itemtype] is [ammo]. *)
Definition is_target (el : InventoryElement) : bool :=
  match data_type el, data_itemtype el with
  | Some t, Some it => String.eqb t "127rifleammo" && String.eqb it "ammo"
  | _, _ => false
  end.

(** The number is a whole number. *)
Definition is_integer (x : Q) : Prop :=
  exists z : Z, (x == inject_Z z)%Q.

(** *** autoSellItems *)

(** The object [autoSellItems] returns; the optional fields are [None]
    where the source leaves them out, [needsReload] is [false] there. *)
Record SellResults := {
  success : nat;
  failed : nat;
  totalQuantity : option Z;
  totalValue : option Q;
  needsReload : bool
}.

Definition nothing_sold : SellResults :=
  {| success := 0; failed := 0;
     totalQuantity := None; totalValue := None; needsReload := false |}.

(** [CONFIG.marketplaceUrl + '&auto_sell=continue'] *)
Definition reloadUrl (marketplaceUrl : string) : string :=
  marketplaceUrl +:+ "&auto_sell=continue".

(** [autoSellItems(items)]: [sellItem item] is the value of
    [await sellItem(item)], [now] is [Date.now()].  Returns the result
    object, the store, and the address the page is sent to, if any. *)
Definition autoSellItems (cfg : Step2.Config) (marketplaceUrl : string)
    (localStorage : Step2.LocalStorage) (now : Z)
    (sellItem : TargetItem -> bool) (items : list TargetItem)
    : SellResults * Step2.LocalStorage * option string :=
  if negb (Step2.autoSell cfg) || (length items =? 0)%nat
  then (nothing_sold, localStorage, None)
  else
    match items with
    | item :: _ =>
        if sellItem item
        then
          let priceInfo := Step2.calculateSellPrice cfg (quantity item) in
          let localStorage :=
            snd (Step2.updateSalesStats localStorage now true
                   (quantity item) (Step2.totalPrice priceInfo)) in
          ({| success := 1; failed := 0;
              totalQuantity := Some (quantity item);
              totalValue := Some (Step2.totalPrice priceInfo);
              needsReload := true |},
           localStorage, Some (reloadUrl marketplaceUrl))
        else
          let localStorage :=
            snd (Step2.updateSalesStats localStorage now false 0 0) in
          ({| success := 0; failed := 1;
              totalQuantity := None; totalValue := None;
              needsReload := false |},
           localStorage, None)
    | [] => (nothing_sold, localStorage, None)
    end.

(** Steps 4 and 7 of [executeStep2]: find the target items and sell. *)
Definition executeStep2_sell (cfg : Step2.Config)
    (targetDataType : option string) (marketplaceUrl : string)
    (inventory : option (list InventoryElement))
    (localStorage : Step2.LocalStorage) (now : Z)
    (sellItem : TargetItem -> bool)
    : option SellResults * Step2.LocalStorage * option string :=
  let inventoryItems := findInventoryItems targetDataType inventory in
  if Step2.autoSell cfg && (0 <? length inventoryItems)%nat
  then
    let '(sellResults, localStorage, href) :=
      autoSellItems cfg marketplaceUrl localStorage now sellItem inventoryItems in
    (Some sellResults, localStorage, href)
  else (None, localStorage, None).

(** *** Addresses *)

(** [CONFIG.marketplaceUrl] as shipped. *)
Definition marketplaceUrl : string :=
  "https://fairview.deadfrontier.com/onlinezombiemmo/index.php?page=35".

Definition isOnMarketplacePage (href : string) : bool :=
  Step1.includes href "page=35".

Definition isContinueSellMode (href : string) : bool :=
  Step1.includes href "auto_sell=continue".

(** [navigateToMarketplace()]: whether the page is sent away, and the
    address afterwards. *)
Definition navigateToMarketplace (marketplaceUrl href : string)
    : bool * string :=
  if negb (isOnMarketplacePage href)
  then (true, marketplaceUrl)
  else (false, href).

(** *** simulateMouseMovement *)

(** [element.getBoundingClientRect()] *)
Record Rect := {
  left : Q;
  top : Q;
  width : Q;
  height : Q
}.

(** The point the mouse events are aimed at; [mouseOffset] is
    [CONFIG.humanBehavior.mouseOffset], [rndX] and [rndY] the two random
    draws. *)
Definition simulateMouseMovement (mouseOffset : Q) (rect : Rect)
    (rndX rndY : Q) : Q * Q :=
  let centerX := (left rect + width rect / 2)%Q in
  let centerY := (top rect + height rect / 2)%Q in
  let offsetRange := mouseOffset in
  let offsetX := ((rndX - (5 # 10)) * width rect * offsetRange)%Q in
  let offsetY := ((rndY - (5 # 10)) * height rect * offsetRange)%Q in
  let targetX := (centerX + offsetX)%Q in
  let targetY := (centerY + offsetY)%Q in
  (targetX, targetY).

(** *** simulateTyping *)

Inductive Key :=
| KeyBackspace
| KeyChar (c : ascii).

(** What [simulateTyping] does to the input field, in order. *)
Inductive TypingEvent :=
| TFocus
| TSelect
| TKeyDown (k : Key)
| TKeyUp (c : ascii)
| TInput
| TChange
| TBlur
| TSleep (ms : Q).

(** [CONFIG.humanBehavior.typingSpeed] *)
Record TypingSpeed := {
  min : Q;
  max : Q
}.

(** The random draws of one call: for the three [humanWait]s, for the
    pause after the [i]-th Backspace, and for the pause after the [i]-th
    typed character. *)
Record TypingDraws := {
  wait1 : Q;
  wait2 : Q;
  wait3 : Q;
  backspaceDraw : nat -> Q;
  keyDraw : nat -> Q
}.

(** [value.slice(0, -1)] *)
Fixpoint slice_off_last (value : string) : string :=
  match value with
  | EmptyString => EmptyString
  | String c EmptyString => EmptyString
  | String c rest => String c (slice_off_last rest)
  end.

(** [for (let i = existingText.length; i > 0; i--)]: the Backspace loop. *)
Fixpoint backspace_loop (draws : TypingDraws) (i : nat) (value : string)
    : string * list TypingEvent :=
  match i with
  | O => (value, [])
  | S i' =>
      let value := slice_off_last value in
      let '(value', evs) := backspace_loop draws i' value in
      (value',
       TKeyDown KeyBackspace :: TInput
       :: TSleep (50 + backspaceDraw draws i * 50) :: evs)
  end.

(** [for (let i = 0; i < text.length; i++)]: the typing loop, from
    position [i] on the rest of the text. *)
Fixpoint typing_loop (speed : TypingSpeed) (draws : TypingDraws) (i : nat)
    (rest : string) (value : string) : string * list TypingEvent :=
  match rest with
  | EmptyString => (value, [])
  | String char rest' =>
      let value := value +:+ String char EmptyString in
      let typingDelay :=
        (min speed + keyDraw draws i * (max speed - min speed))%Q in
      let '(value', evs) := typing_loop speed draws (S i) rest' value in
      (value',
       TKeyDown (KeyChar char) :: TInput :: TKeyUp char
       :: TSleep typingDelay :: evs)
  end.

(** [simulateTyping(input, text)] on a field holding [value]: the value of
    the field afterwards and the events, assuming the page's own handlers
    leave the value alone. *)
Definition simulateTyping (cfg : Step2.Config) (st : Step2.Pacing)
    (speed : TypingSpeed) (draws : TypingDraws) (value text : string)
    : string * list TypingEvent :=
  let value := EmptyString in
  let existingText := value in
  let '(value, backspaces) :=
    backspace_loop draws (String.length existingText) value in
  let value := EmptyString in
  let '(value, typed) := typing_loop speed draws 0 text value in
  (value,
   [TFocus; TSleep (inject_Z (Step2.humanWait cfg st 200 100 (wait1 draws)));
    TSelect; TSleep 100]
   ++ backspaces
   ++ [TInput; TChange;
       TSleep (inject_Z (Step2.humanWait cfg st 300 200 (wait2 draws)))]
   ++ typed
   ++ [TChange; TBlur;
       TSleep (inject_Z (Step2.humanWait cfg st 300 200 (wait3 draws)))]).

(** The keys pressed in a trace, in order. *)
Definition keys_down (evs : list TypingEvent) : list Key :=
  flat_map (fun e => match e with TKeyDown k => [k] | _ => [] end) evs.

End Step2_More.

Module Step2_More_Inputs.

(** An inventory table holding one stack of a hundred 12.7mm rounds. *)
Definition ammo_stack : Step2_More.InventoryElement :=
  {| Step2_More.data_type := Some "127rifleammo"%string;
     Step2_More.data_itemtype := Some "ammo"%string;
     Step2_More.data_quantity := Some 100 |}.

Definition ammo_item : Step2_More.TargetItem :=
  {| Step2_More.element := ammo_stack;
     Step2_More.quantity := 100;
     Step2_More.index := 1;
     Step2_More.dataType := "127rifleammo";
     Step2_More.dataItemType := "ammo" |}.

(** Every sale goes through. *)
Definition always_sold (item : Step2_More.TargetItem) : bool := true.

(** A button of 100 by 40 pixels at (10, 20). *)
Definition button_rect : Step2_More.Rect :=
  {| Step2_More.left := 10; Step2_More.top := 20;
     Step2_More.width := 100; Step2_More.height := 40 |}.

(** [CONFIG.humanBehavior.typingSpeed] as shipped. *)
Definition typingSpeed : Step2_More.TypingSpeed :=
  {| Step2_More.min := 50; Step2_More.max := 150 |}.

Definition even_draws : Step2_More.TypingDraws :=
  {| Step2_More.wait1 := 1 # 2;
     Step2_More.wait2 := 1 # 2;
     Step2_More.wait3 := 1 # 2;
     Step2_More.backspaceDraw := fun _ => 1 # 2;
     Step2_More.keyDraw := fun _ => 1 # 2 |}.

End Step2_More_Inputs.

(** ** The search-result analysis with the division rounded

    [Step1.scan] takes the quotient [price / quantity] exactly.  In the
    script the price, the ceiling and the quotient are doubles, and the
    quotient is the exact one rounded to the nearest double.  Here the
    rounding [fl] of the division is explicit and nothing is assumed
    about it: [JS.binary64] is the rounding of the script, and without
    rounding ([exact]) the functions are those of [Step1]. *)

Module Step1_Rounded.

Import Step1 Step1_More.

Section Rounding.

Variable fl : Q -> Q.

(** [price / quantity], as the script computes it for a row. *)
Definition unit_price (item : FakeItem) : Q :=
  fl (price_of item / inject_Z (quantity_of item)).

(** The body of the [for] loop of [analyzeSearchResults], from row [idx]
    on; the [else] branch is the [break]. *)
Fixpoint scan (cfg : Config) (idx : nat) (rows : list FakeItem) : list Deal :=
  match rows with
  | [] => []
  | item :: rest =>
      let price := price_of item in
      let quantity := quantity_of item in
      let pricePerUnit := fl (price / inject_Z quantity) in
      if Qle_bool pricePerUnit (maxPricePerUnit cfg)
      then {| index := idx + 1;
              price := price;
              quantity := quantity;
              element := item;
              actualPrice := price;
              actualPricePerUnit := pricePerUnit |}
           :: scan cfg (S idx) rest
      else []
  end.

Definition analyzeSearchResults (cfg : Config) (doc : Document) : SearchResults :=
  match itemDisplay doc with
  | None => {| items := []; count := 0 |}
  | Some childNodes =>
      if (childNodes <=? 0)%nat then {| items := []; count := 0 |}
      else
        let rows := fakeItems doc in
        let itemsToCheck := Z.min (Z.of_nat (length rows)) (maxRows cfg) in
        let goodDeals := scan cfg 0 (firstn (Z.to_nat itemsToCheck) rows) in
        {| items := goodDeals; count := length goodDeals |}
  end.

(** Steps 3, 6 and 8 of [executeStep1], as in [Step1.executeStep1]. *)
Definition executeStep1 (cfg : Config) (before after : Document)
    (world : nat -> Page) : Eff (option BuyResults) :=
  let inventoryStatus :=
    if checkInventory cfg then Some (checkInventoryStatus before) else None in
  let results := analyzeSearchResults cfg after in
  try_catch (executeStep1_autoBuy cfg inventoryStatus results world) (ret None).

(** [analyzeSearchResults] of the first version (src/unnamed/part_001):
    every row is visited. *)
Fixpoint scan0 (maxPricePerUnit : Q) (idx : nat) (rows : list FakeItem)
    : list Deal0 :=
  match rows with
  | [] => []
  | item :: rest =>
      let price := price_of item in
      let quantity := quantity_of item in
      let pricePerUnit := fl (price / inject_Z quantity) in
      if Qle_bool pricePerUnit maxPricePerUnit
      then {| index0 := idx + 1;
              price0 := price;
              quantity0 := quantity;
              element0 := item |}
           :: scan0 maxPricePerUnit (S idx) rest
      else scan0 maxPricePerUnit (S idx) rest
  end.

Definition analyzeSearchResults0 (maxPricePerUnit : Q) (doc : Document)
    : SearchResults0 :=
  match itemDisplay doc with
  | None => {| items0 := []; count0 := 0 |}
  | Some childNodes =>
      if (childNodes <=? 0)%nat then {| items0 := []; count0 := 0 |}
      else
        let goodDeals := scan0 maxPricePerUnit 0 (fakeItems doc) in
        {| items0 := goodDeals; count0 := length goodDeals |}
  end.

End Rounding.

(** No rounding. *)
Definition exact (x : Q) : Q := x.

(** The relative error of [fl] is at most [u]; for the doubles of the
    script [u] is 2^-53. *)
Definition accurate (fl : Q -> Q) (u : Q) : Prop :=
  forall x : Q, (Qabs (fl x - x) <= u * Qabs x)%Q.

(** The unit roundoff of binary64. *)
Definition unit_roundoff : Q := 1 # (2 ^ 53).

(** The shipped [CONFIG], its ceiling [11.6] read as a double. *)
Definition CONFIG : Config :=
  {| maxPricePerUnit := JS.binary64 (116 # 10);
     maxRows := maxRows Step1.CONFIG;
     autoBuy := autoBuy Step1.CONFIG;
     checkInventory := checkInventory Step1.CONFIG |}.

(** The page with other result rows. *)
Definition with_rows (doc : Document) (rows : list FakeItem) : Document :=
  {| itemDisplay := itemDisplay doc;
     fakeItems := rows;
     inventoryItems_length := inventoryItems_length doc;
     inventoryInfo := inventoryInfo doc;
     invController := invController doc;
     buyButton := buyButton doc;
     yesButton := yesButton doc;
     confirmButtons := confirmButtons doc |}.

End Step1_Rounded.

(** ** Observations on the order of events *)

Module Traces.

Import Step1.

(** [inventoryStatus && inventoryStatus.isFull], the test of step 8. *)
Definition reported_full (inventoryStatus : option InventoryStatus) : bool :=
  match inventoryStatus with
  | Some st => isFull st
  | None => false
  end.

(** Two pages that agree on what a purchase attempt reads: the buy
    button, the confirmation buttons and the calls that raise.  Their
    inventory and their result rows are free. *)
Definition same_controls (pg pg' : Page) : Prop :=
  (forall op, raises pg op = raises pg' op)
  /\ buyButton (document pg) = buyButton (document pg')
  /\ yesButton (document pg) = yesButton (document pg')
  /\ confirmButtons (document pg) = confirmButtons (document pg').

(** [pre] ends with the events [last]. *)
Definition ends_with {E : Type} (last pre : list E) : Prop :=
  exists pre', pre = pre' ++ last.

(** In the trace [t], what stands before any occurrence of the event [e]
    satisfies [ok]. *)
Definition before_each {E : Type} (e : E) (ok : list E -> Prop) (t : list E)
    : Prop :=
  forall pre post, t = pre ++ e :: post -> ok pre.

(** A call into the page: a click. *)
Definition is_click (e : Event) : bool :=
  match e with
  | EvClickItem _ | EvClickBuy | EvClickYes => true
  | EvAttempt _ | EvSleep _ => false
  end.

(** The duration of a sleep, in ms. *)
Definition delay (e : Event) : option Q :=
  match e with
  | EvSleep ms => Some (inject_Z ms)
  | _ => None
  end.

Definition typing_delay (e : Step2_More.TypingEvent) : option Q :=
  match e with
  | Step2_More.TSleep ms => Some ms
  | _ => None
  end.

(** A call into the page while typing: everything but the sleeps. *)
Definition is_call (e : Step2_More.TypingEvent) : bool :=
  match e with
  | Step2_More.TSleep _ => false
  | _ => true
  end.

Section Stop.

Context {E : Type}.
Variable duration : E -> option Q.

(** The run [t] takes time only in its sleeps, and it is the same run
    whether or not somebody asks for a stop: the scripts have no such
    input.  [after_stop duration instant t] is what the run does after the
    sleep that is pending [instant] ms after its start; [None] when the
    run is over by then. *)
Fixpoint after_stop (instant : Q) (t : list E) : option (list E) :=
  match t with
  | [] => None
  | e :: rest =>
      match duration e with
      | Some ms =>
          if Qle_bool ms instant
          then after_stop (instant - ms) rest
          else Some rest
      | None => after_stop instant rest
      end
  end.

End Stop.

(** The calls into the page in a run. *)
Definition calls {E : Type} (is_call : E -> bool) (t : list E) : nat :=
  length (List.filter is_call t).

End Traces.

Module Rounded_Inputs.

Import Step1 Inputs.

(** A row whose price text reads as the double nearest to [price]. *)
Definition double_offer (price : Q) (quantity : Z) : FakeItem :=
  offer (JS.binary64 price) quantity.

(** 81.2 for 7, then 104.40 for 9: both are 11.6 apiece. *)
Definition ceiling_page : Document :=
  market_page "25/40" [double_offer (812 # 10) 7; double_offer (1044 # 10) 9].

(** The same rows in the other order. *)
Definition ceiling_page' : Document :=
  market_page "25/40" [double_offer (1044 # 10) 9; double_offer (812 # 10) 7].

Definition ceiling_deal : Deal :=
  {| index := 1;
     price := JS.binary64 (812 # 10);
     quantity := 7;
     element := double_offer (812 # 10) 7;
     actualPrice := JS.binary64 (812 # 10);
     actualPricePerUnit := JS.binary64 (JS.binary64 (812 # 10) / inject_Z 7) |}.

(** Twenty rounds at 11.5 apiece. *)
Definition twenty_page : Document :=
  market_page "25/40" [double_offer 230 20; double_offer 300 20].

Definition twenty_deal : Deal :=
  {| index := 1;
     price := JS.binary64 230;
     quantity := 20;
     element := double_offer 230 20;
     actualPrice := JS.binary64 230;
     actualPricePerUnit := JS.binary64 (JS.binary64 230 / inject_Z 20) |}.

(** A page on which the click on the confirmation button raises. *)
Definition raising_yes (doc : Document) : Page :=
  {| document := doc;
     raises := fun op => match op with OpYesClick => true | _ => false end |}.

End Rounded_Inputs.

(** * Properties of the marketplace searcher *)

Module Step1_Theory.

Import Step1 Inputs.

(** ** The slot counter pattern, on examples *)

Example slots_match_plain :
  JS.slots_match "25/40" = Some (["2"; "5"], ["4"; "0"])%char.
Proof. reflexivity. Qed.

Example slots_match_spaced :
  JS.slots_match "Inventory: 25 / 40 slots" = Some (["2"; "5"], ["4"; "0"])%char.
Proof. reflexivity. Qed.

Example slots_match_leftmost :
  JS.slots_match "12 items, page 3/7 of 9/9" = Some (["3"], ["7"])%char.
Proof. reflexivity. Qed.

Example slots_match_none :
  JS.slots_match "12 / x" = None.
Proof. reflexivity. Qed.

Example checkInventoryStatus_by_count :
  checkInventoryStatus
    {| itemDisplay := None; fakeItems := []; inventoryItems_length := 38;
       inventoryInfo := None; invController := None; buyButton := false;
       yesButton := None; confirmButtons := [] |}
  = {| totalSlots := 40; usedSlots := 38; availableSlots := 2;
       isFull := false; isNearFull := true; error := false |}.
Proof. reflexivity. Qed.

Example checkInventoryStatus_undefined_text :
  error (checkInventoryStatus
    {| itemDisplay := None; fakeItems := []; inventoryItems_length := 38;
       inventoryInfo := Some {| textContent := ""; innerText := None |};
       invController := None; buyButton := false;
       yesButton := None; confirmButtons := [] |}) = true.
Proof. reflexivity. Qed.

(** ** The price filter *)


Lemma scan_length (cfg : Config) (rows : list FakeItem) :
  forall idx, (length (scan cfg idx rows) <= length rows)%nat.
Proof.
  induction rows as [|item rest IH]; intros idx; simpl.
  - lia.
  - destruct (Qle_bool _ _); simpl; [specialize (IH (S idx)) |]; lia.
Qed.

Lemma count_is_length (cfg : Config) (doc : Document) :
  count (analyzeSearchResults cfg doc)
  = length (items (analyzeSearchResults cfg doc)).
Proof.
  unfold analyzeSearchResults.
  destruct (itemDisplay doc) as [n|]; [destruct (n <=? 0)%nat |]; reflexivity.
Qed.

(** ** The number of selected offers *)

Lemma count_le_maxRows (cfg : Config) (doc : Document) :
  Z.of_nat (count (analyzeSearchResults cfg doc)) <= Z.max 0 (maxRows cfg).
Proof.
  unfold analyzeSearchResults.
  destruct (itemDisplay doc) as [n|]; [destruct (n <=? 0)%nat |]; simpl;
    try lia.
  pose proof (scan_length cfg
    (firstn (Z.to_nat (Z.min (Z.of_nat (length (fakeItems doc))) (maxRows cfg)))
            (fakeItems doc)) 0%nat) as Hlen.
  rewrite length_firstn in Hlen.
  lia.
Qed.

(** C6 (amended). The number of offers [analyzeSearchResults] selects
    never exceeds [CONFIG.maxRows], the number of rows it inspects; as
    shipped that is 10, which is also the shipped
    [max_purchases_per_cycle]. *)
Theorem selected_count_le_maxRows (cfg : Config) (doc : Document) :
  Z.of_nat (count (analyzeSearchResults cfg doc)) <= Z.max 0 (maxRows cfg)
  /\ Z.of_nat (count (analyzeSearchResults CONFIG doc))
     <= TradingConfig.max_purchases_per_cycle TradingConfig.buying.
Proof.
  split; [apply count_le_maxRows |].
  exact (count_le_maxRows CONFIG doc).
Qed.

(** C6, as stated, fails: with the purchase cap of the beginner preset (3)
    the shipped searcher selects four offers. *)
Lemma selected_count_exceeds_purchase_cap :
  count (analyzeSearchResults CONFIG c6_page) = 4%nat
  /\ ~ (Z.of_nat (count (analyzeSearchResults CONFIG c6_page))
        <= TradingConfig.max_purchases_per_cycle TradingConfig.buying_beginner).
Proof.
  split; [reflexivity |].
  vm_compute. intros H. apply H. reflexivity.
Qed.

(** ** The inventory status *)

Lemma read_slots_available (doc : Document) (s : Slots) :
  read_slots doc = Some s -> available s = total s - used s.
Proof.
  unfold read_slots. intros H.
  apply bind_Some in H as (s1 & _ & H).
  apply bind_Some in H as (s3 & _ & H).
  injection H as <-.
  destruct (total s3 =? 0); simpl; lia.
Qed.

(** C7 (amended). The reported [availableSlots] is [totalSlots - usedSlots],
    without clamping: it is non-negative exactly when
    [usedSlots <= totalSlots] and negative when more slots are used than
    there are.  [isFull] is reported exactly when the read succeeded and
    [availableSlots <= 0]; after a failed read the three counts are 0 and
    [isFull] is [false]. *)
Theorem availableSlots_is_difference (doc : Document) :
  let st := checkInventoryStatus doc in
  availableSlots st = totalSlots st - usedSlots st
  /\ (0 <= availableSlots st <-> usedSlots st <= totalSlots st)
  /\ (availableSlots st < 0 <-> totalSlots st < usedSlots st)
  /\ (isFull st = true <-> error st = false /\ availableSlots st <= 0)
  /\ (error st = true ->
      totalSlots st = 0 /\ usedSlots st = 0 /\ availableSlots st = 0
      /\ isFull st = false).
Proof.
  unfold checkInventoryStatus.
  destruct (read_slots doc) as [s|] eqn:Hs; simpl.
  - apply read_slots_available in Hs. rewrite Z.leb_le.
    repeat split; try lia; try discriminate; tauto.
  - repeat split; try lia; try discriminate.
Qed.

Lemma availableSlots_is_difference_witness :
  error (checkInventoryStatus unread_page) = true
  /\ availableSlots (checkInventoryStatus unread_page) = 0
  /\ isFull (checkInventoryStatus unread_page) = false.
Proof.
  assert (H : error (checkInventoryStatus unread_page) = true) by reflexivity.
  split; [exact H |].
  destruct (availableSlots_is_difference unread_page)
    as (_ & _ & _ & _ & Herr).
  destruct (Herr H) as (_ & _ & Ha & Hf).
  split; [exact Ha | exact Hf].
Defined.

(** C7, as stated, fails: on a page that shows 45 items in 40 slots the
    reported free slot count is -5. *)
Lemma availableSlots_negative :
  availableSlots (checkInventoryStatus c7_page) = -5
  /\ ~ (0 <= availableSlots (checkInventoryStatus c7_page)).
Proof.
  split; [reflexivity |].
  vm_compute. intros H. apply H. reflexivity.
Qed.

(** C3 (amended). The block predicate of the script, [isFull], holds
    exactly when the inventory was read and is saturated
    ([usedSlots >= totalSlots]); nothing else enters it. *)
Theorem isFull_iff_inventory_saturated (doc : Document) :
  let st := checkInventoryStatus doc in
  isFull st = true <-> (error st = false /\ usedSlots st >= totalSlots st).
Proof.
  unfold checkInventoryStatus.
  destruct (read_slots doc) as [s|] eqn:Hs; simpl.
  - apply read_slots_available in Hs.
    rewrite Z.leb_le. split; [intros H; split; [reflexivity | lia] | lia].
  - split; [discriminate | intros [H _]; discriminate].
Qed.

(** C3, as stated, fails: with a saturated inventory the script reports
    the block although cash is in hand and storage and listings are free. *)
Lemma isFull_on_inventory_alone :
  Spec.page_shows c3_page c3_snapshot
  /\ isFull (checkInventoryStatus c3_page) = true
  /\ ~ Spec.fullBlock c3_snapshot
  /\ ~ (isFull (checkInventoryStatus c3_page) = true
        <-> Spec.fullBlock c3_snapshot).
Proof.
  assert (Hn : ~ Spec.fullBlock c3_snapshot).
  { intros [H _]. discriminate H. }
  repeat split; try reflexivity; try exact Hn.
  intros [H _]. apply Hn, H. reflexivity.
Qed.

(** ** The buying loop *)

Lemma fst_bind {A B} (m : Eff A) (k : A -> Eff B) :
  fst (m ≫= k)
  = match m with
    | (t, Return a) => t ++ fst (k a)
    | (t, Throw) => t
    end.
Proof.
  unfold mbind, Eff_bind, bind.
  destruct m as [t [a|]]; [destruct (k a) |]; reflexivity.
Qed.

Lemma try_catch_returns {A} (m : Eff A) (a : A) :
  returns (try_catch m (ret a)).
Proof.
  destruct m as [t [x|]]; simpl; unfold returns; eauto.
Qed.

Lemma fst_try_catch_ret {A} (m : Eff A) (a : A) :
  fst (try_catch m (ret a)) = fst m.
Proof.
  destruct m as [t [x|]]; simpl; [| rewrite app_nil_r]; reflexivity.
Qed.

Lemma attempts_app (t t' : list Event) :
  attempts (t ++ t') = attempts t ++ attempts t'.
Proof. apply flat_map_app. Qed.

Lemma click_yes_attempts (pg : Page) :
  attempts (fst (dom_call pg OpYesClick EvClickYes;; sleep 2000;; ret true)) = [].
Proof.
  unfold dom_call. destruct (raises pg OpYesClick); reflexivity.
Qed.

Lemma confirm_loop_attempts (pg : Page) (buttons : list string) :
  attempts (fst (confirm_loop pg buttons)) = [].
Proof.
  induction buttons as [|b rest IH]; simpl.
  - reflexivity.
  - destruct (_ && _); [apply click_yes_attempts | exact IH].
Qed.

Lemma handleConfirmDialog_attempts (pg : Page) :
  attempts (fst (handleConfirmDialog pg)) = [].
Proof.
  unfold handleConfirmDialog. rewrite fst_try_catch_ret.
  destruct (yesButton (document pg)) as [html|].
  - destruct (_ && _); [apply click_yes_attempts | apply confirm_loop_attempts].
  - apply confirm_loop_attempts.
Qed.

Lemma buyItem_returns (pg : Page) (item : Deal) :
  returns (buyItem pg item).
Proof. apply try_catch_returns. Qed.

Lemma buyItem_attempts (pg : Page) (item : Deal) :
  attempts (fst (buyItem pg item)) = [index item].
Proof.
  unfold buyItem. rewrite fst_try_catch_ret.
  pose proof (handleConfirmDialog_attempts pg) as Hc.
  unfold dom_call.
  destruct (has_click (element item)); [| reflexivity].
  destruct (raises pg OpItemClick); [reflexivity |].
  destruct (buyButton (document pg)); [| reflexivity].
  destruct (raises pg OpBuyClick); [reflexivity |].
  destruct (handleConfirmDialog pg) as [tc [b|]]; simpl in Hc |- *;
    rewrite ?app_nil_r; exact (f_equal (cons (index item)) Hc).
Qed.

(** A failed attempt is an ordinary [false]: the element cannot be
    clicked, the buy button is missing, or one of the clicks raises. *)
Lemma buyItem_false (pg : Page) (item : Deal) :
  has_click (element item) = false
  \/ buyButton (document pg) = false
  \/ raises pg OpItemClick = true
  \/ raises pg OpBuyClick = true ->
  snd (buyItem pg item) = Return false.
Proof.
  unfold buyItem, dom_call. intros H.
  destruct (has_click (element item)); [| reflexivity].
  destruct (raises pg OpItemClick); [reflexivity |].
  destruct (buyButton (document pg)); [| reflexivity].
  destruct (raises pg OpBuyClick); [reflexivity |].
  destruct H as [H | [H | [H | H]]]; discriminate H.
Qed.

Lemma handleConfirmDialog_returns (pg : Page) :
  returns (handleConfirmDialog pg).
Proof. apply try_catch_returns. Qed.

(** Once the buy button has been clicked the attempt counts as a
    success, whatever the confirmation dialog did. *)
Lemma buyItem_true (pg : Page) (item : Deal) :
  has_click (element item) = true ->
  raises pg OpItemClick = false ->
  buyButton (document pg) = true ->
  raises pg OpBuyClick = false ->
  snd (buyItem pg item) = Return true.
Proof.
  intros Hc Hi Hb Hr. unfold buyItem, dom_call.
  rewrite Hc, Hi, Hb, Hr.
  destruct (handleConfirmDialog_returns pg) as (t & b & H).
  cbn. rewrite H. reflexivity.
Qed.

Lemma buy_loop_spec (world : nat -> Page) (rest : list Deal) :
  forall i s f,
  exists t r,
    buy_loop world i rest s f = (t, Return r)
    /\ (success r + failed r = s + f + length rest)%nat
    /\ attempts t = map index rest.
Proof.
  induction rest as [|item rest IH]; intros i s f; simpl.
  - exists [], {| success := s; failed := f |}. simpl.
    repeat split. lia.
  - pose proof (buyItem_attempts (world i) item) as Ha.
    destruct (buyItem_returns (world i) item) as (tb & b & Hb).
    rewrite Hb in Ha |- *. simpl in Ha.
    destruct b.
    + destruct (IH (S i) (S s) f) as (t & r & Hr & Hsum & Hatt).
      exists (tb ++ EvSleep 2000 :: t), r.
      split; [cbn; rewrite Hr; reflexivity |].
      split; [lia |].
      rewrite attempts_app, Ha. simpl. now rewrite Hatt.
    + destruct (IH (S i) s (S f)) as (t & r & Hr & Hsum & Hatt).
      exists (tb ++ EvSleep 2000 :: t), r.
      split; [cbn; rewrite Hr; reflexivity |].
      split; [lia |].
      rewrite attempts_app, Ha. simpl. now rewrite Hatt.
Qed.

Lemma autoBuyItems_spec (cfg : Config) (world : nat -> Page)
    (results : SearchResults) :
  exists t r,
    autoBuyItems cfg world results = (t, Return r)
    /\ (success r + failed r
        = if negb (autoBuy cfg) || (count results =? 0)%nat
          then 0 else length (items results))%nat
    /\ attempts t
       = if negb (autoBuy cfg) || (count results =? 0)%nat
         then [] else map index (items results).
Proof.
  unfold autoBuyItems.
  destruct (negb (autoBuy cfg) || (count results =? 0)%nat).
  - exists [], {| success := 0; failed := 0 |}. repeat split.
  - destruct (buy_loop_spec world (items results) 0%nat 0%nat 0%nat)
      as (t & r & Hr & Hsum & Hatt).
    exists t, r. repeat split; assumption.
Qed.

(** C2, as stated, fails: with one free slot the searcher selects a stack
    of a hundred, and with auto-buy on it goes on to buy it. *)
Lemma selected_quantity_exceeds_free_slots :
  Spec.page_shows c2_page c2_snapshot
  /\ Spec.freeInventorySlots c2_snapshot = 1
  /\ totalQuantity (analyzeSearchResults CONFIG c2_page) = 100
  /\ ~ (totalQuantity (analyzeSearchResults CONFIG c2_page)
        <= Spec.freeInventorySlots c2_snapshot)
  /\ buy_clicks (fst (executeStep1 CONFIG_autoBuy c2_page c2_page
                        (fun _ => quiet c2_page))) = 1%nat.
Proof.
  repeat split; try reflexivity.
  vm_compute. intros H. apply H. reflexivity.
Qed.

(** C8, as stated, fails: nothing is read again between attempts.  The
    second attempt clicks the buy button although the page then shows a
    full inventory. *)
Lemma second_attempt_on_full_inventory :
  isFull (checkInventoryStatus (document (c8_world 1))) = true
  /\ fst (autoBuyItems CONFIG_autoBuy c8_world
            (analyzeSearchResults CONFIG_autoBuy c8_search_page))
     = [EvAttempt 1; EvClickItem 1; EvSleep 1000; EvClickBuy; EvSleep 1500;
        EvClickYes; EvSleep 2000; EvSleep 2000;
        EvAttempt 2; EvClickItem 2; EvSleep 1000; EvClickBuy; EvSleep 1500;
        EvClickYes; EvSleep 2000; EvSleep 2000].
Proof.
  split; reflexivity.
Qed.

End Step1_Theory.

(** * Properties of the auto seller *)

Module Step2_Theory.

Import Step2 Step2_Inputs.

(** ** Sales statistics *)

(** C10. [updateSalesStats(false)] adds one to [totalFailed] and keeps
    [totalSuccess], [totalQuantity] and [totalValue];
    [updateSalesStats(true, q, v)] adds one to [totalSuccess], [q] to
    [totalQuantity] and [v] to [totalValue] and keeps [totalFailed]; both
    set [lastSaleTime] to the current time, store the result under the
    statistics key and leave every other key alone. *)
Theorem updateSalesStats_frame (localStorage : LocalStorage) (now q : Z) (v : Q) :
  let old := getSalesStats localStorage in
  let lost := updateSalesStats localStorage now false q v in
  let sold := updateSalesStats localStorage now true q v in
  (totalFailed (fst lost) = totalFailed old + 1
   /\ totalSuccess (fst lost) = totalSuccess old
   /\ totalQuantity (fst lost) = totalQuantity old
   /\ totalValue (fst lost) = totalValue old
   /\ lastSaleTime (fst lost) = now)
  /\ (totalSuccess (fst sold) = totalSuccess old + 1
      /\ totalQuantity (fst sold) = totalQuantity old + q
      /\ totalValue (fst sold) = (totalValue old + v)%Q
      /\ totalFailed (fst sold) = totalFailed old
      /\ lastSaleTime (fst sold) = now)
  /\ getSalesStats (snd lost) = fst lost
  /\ getSalesStats (snd sold) = fst sold
  /\ (forall key : string,
        key <> stats_key ->
        snd lost !! key = localStorage !! key
        /\ snd sold !! key = localStorage !! key).
Proof.
  cbv zeta. unfold updateSalesStats. simpl.
  repeat split; try reflexivity.
  - unfold getSalesStats at 1. now rewrite lookup_insert_eq.
  - unfold getSalesStats at 1. now rewrite lookup_insert_eq.
  - now apply lookup_insert_ne.
  - now apply lookup_insert_ne.
Qed.

Lemma updateSalesStats_frame_witness :
  "other"%string <> stats_key
  /\ snd (updateSalesStats ∅ 1000 true 100 1166) !! "other"%string
     = (∅ : LocalStorage) !! "other"%string.
Proof.
  assert (H : "other"%string <> stats_key) by discriminate.
  split; [exact H |].
  pose proof (updateSalesStats_frame ∅ 1000 100 1166) as F.
  cbv zeta in F.
  destruct F as (_ & _ & _ & _ & F).
  exact (proj2 (F "other"%string H)).
Defined.

(** ** The sell price *)

Lemma floor_bounds (x : Q) :
  (inject_Z (Qfloor x) <= x)%Q /\ (x < inject_Z (Qfloor x) + 1)%Q.
Proof.
  split; [apply Qfloor_le |].
  pose proof (Qlt_floor x) as H.
  rewrite inject_Z_plus in H. exact H.
Qed.

(** C5 (amended). The ask unit price of a lot is the fixed
    [CONFIG.sellPrice], whatever the lot was bought for; the total is
    [sellPrice * quantity], rounded down to an integer when
    [removeDecimalFromTotal] is set. *)
Theorem ask_price_is_fixed (cfg : Config) (lot : Spec.HoldingLot) :
  let p := ask_of_lot cfg lot in
  let exact := (sellPrice cfg * inject_Z (Spec.lot_quantity lot))%Q in
  unitPrice p = sellPrice cfg
  /\ quantity p = Spec.lot_quantity lot
  /\ totalPrice p
     = (if removeDecimalFromTotal cfg then inject_Z (Qfloor exact) else exact)
  /\ (totalPrice p <= exact)%Q
  /\ (exact < totalPrice p + 1)%Q.
Proof.
  cbv zeta. unfold ask_of_lot, calculateSellPrice, JS.floor.
  cbn [unitPrice quantity totalPrice].
  split; [reflexivity |]. split; [reflexivity |]. split; [reflexivity |].
  destruct (removeDecimalFromTotal cfg).
  - apply floor_bounds.
  - split; [apply Qle_refl | lra].
Qed.

(** C5, as stated, fails: a lot bought at 5 is listed at 11.66, which no
    markup between 10% and 50% produces. *)
Lemma ask_price_not_a_markup :
  unitPrice (ask_of_lot CONFIG cheap_lot) = (1166 # 100)%Q
  /\ ~ Spec.is_markup_price TradingConfig.selling cheap_lot
         (unitPrice (ask_of_lot CONFIG cheap_lot)).
Proof.
  split; [reflexivity |].
  intros (markup & _ & Hhi & Heq).
  simpl in Hhi, Heq.
  assert (H1 : ((1166 # 100) == 5 * (1 + markup))%Q) by exact Heq.
  assert (H2 : (markup <= 5 # 10)%Q) by exact Hhi.
  lra.
Qed.

(** ** Pacing *)

Lemma pacing_step_multiplier (cfg : Config) (st : Pacing) (op : PacingOp) :
  currentDelayMultiplier (pacing_step cfg st op) = currentDelayMultiplier st.
Proof. destruct op; reflexivity. Qed.

Lemma pacing_fold_multiplier (cfg : Config) (ops : list PacingOp) :
  forall st,
    currentDelayMultiplier (fold_left (pacing_step cfg) ops st)
    = currentDelayMultiplier st.
Proof.
  induction ops as [|op ops IH]; intros st; simpl.
  - reflexivity.
  - rewrite IH. apply pacing_step_multiplier.
Qed.

(** The delay multiplier is 1 in every state the script can reach. *)
Lemma multiplier_stays_one (cfg : Config) (ops : list PacingOp) :
  currentDelayMultiplier (pacing_run cfg ops) = 1%Q.
Proof. unfold pacing_run. now rewrite pacing_fold_multiplier. Qed.

Lemma floor_times_one (d : Z) : Qfloor (inject_Z d * 1) = d.
Proof.
  transitivity (Qfloor (inject_Z d)).
  - apply Qfloor_comp, Qmult_1_r.
  - apply Qfloor_Z.
Qed.

Lemma humanDelay_upper (baseMs variationMs rnd : Q) :
  (0 <= variationMs)%Q -> (rnd < 1)%Q ->
  humanDelay baseMs variationMs rnd
  <= Z.max 500 (Qfloor (baseMs + variationMs)).
Proof.
  intros Hv Hr. unfold humanDelay, JS.floor.
  apply Z.max_le_compat_l, Qfloor_resp_le.
  assert (H : (rnd * variationMs <= 1 * variationMs)%Q).
  { apply Qmult_le_compat_r; [apply Qlt_le_weak, Hr | exact Hv]. }
  lra.
Qed.

(** C4 (amended). After any history of pacing calls the delay of
    [humanWait] is [humanDelay] of its arguments and of the random draw:
    the multiplier is still 1, so nothing grows from one wait to the
    next.  The delay is at least 500 ms and at most
    [max(500, floor(base + variation))]. *)
Theorem humanWait_ignores_history (cfg : Config) (ops : list PacingOp)
    (baseMs variationMs rnd : Q) :
  (0 <= variationMs)%Q -> (0 <= rnd < 1)%Q ->
  let delay := humanWait cfg (pacing_run cfg ops) baseMs variationMs rnd in
  delay = humanDelay baseMs variationMs rnd
  /\ 500 <= delay <= Z.max 500 (Qfloor (baseMs + variationMs)).
Proof.
  intros Hv [_ Hr]. cbv zeta.
  assert (Heq : humanWait cfg (pacing_run cfg ops) baseMs variationMs rnd
                = humanDelay baseMs variationMs rnd).
  { unfold humanWait, JS.floor.
    destruct (enabled _); [| reflexivity].
    rewrite multiplier_stays_one. apply floor_times_one. }
  rewrite Heq. split; [reflexivity |].
  split; [unfold humanDelay; lia | now apply humanDelay_upper].
Qed.

Lemma humanWait_ignores_history_witness :
  (0 <= 150)%Q /\ (0 <= 1 # 2 < 1)%Q
  /\ humanWait CONFIG_progressive
       (pacing_run CONFIG_progressive
          [OpEnhancedItemWait (1 # 2) 1000; OpHumanWait 400 150 (1 # 2)])
       400 150 (1 # 2)
     = humanDelay 400 150 (1 # 2).
Proof.
  assert (Hv : (0 <= 150)%Q) by (vm_compute; discriminate).
  assert (Hr : (0 <= 1 # 2 < 1)%Q).
  { split; [vm_compute; discriminate | reflexivity]. }
  split; [exact Hv |]. split; [exact Hr |].
  exact (proj1 (humanWait_ignores_history CONFIG_progressive
                  [OpEnhancedItemWait (1 # 2) 1000; OpHumanWait 400 150 (1 # 2)]
                  400 150 (1 # 2) Hv Hr)).
Defined.

(** C4, as stated, fails: three consecutive failed looks for the Yes
    button are followed by the same delay of 500 ms, with growing random
    draws and with the progressive delay switched on or off. *)
Lemma three_failures_same_delay :
  waitForYesButton CONFIG initial found_at_fourth growing_draws
  = (true, [500; 500; 500])
  /\ waitForYesButton CONFIG_progressive initial found_at_fourth growing_draws
     = (true, [500; 500; 500])
  /\ ~ (forall d1 d2 d3,
          snd (waitForYesButton CONFIG_progressive initial
                 found_at_fourth growing_draws) = [d1; d2; d3] ->
          d1 < d2 < d3).
Proof.
  split; [reflexivity |]. split; [reflexivity |].
  intros H. specialize (H 500 500 500 eq_refl). lia.
Qed.

End Step2_Theory.

(** * More properties of the marketplace searcher *)

Module Step1_Extra.

Import Step1 Step1_More Inputs.

(** ** The first version of the analysis *)

Lemma Qle_bool_false (x y : Q) : Qle_bool x y = false -> (y < x)%Q.
Proof.
  intros H. apply Qnot_le_lt. intros Hle.
  apply Qle_bool_iff in Hle. congruence.
Qed.

Lemma scan_scan0 (cfg : Config) (rows : list FakeItem) :
  forall idx,
    map forget (scan cfg idx rows)
    = firstn (length (scan cfg idx rows)) (scan0 (maxPricePerUnit cfg) idx rows).
Proof.
  induction rows as [|item rest IH]; intros idx; simpl.
  - reflexivity.
  - destruct (Qle_bool _ _); simpl; [now rewrite <- IH | reflexivity].
Qed.

Lemma scan_firstn (cfg : Config) (rows : list FakeItem) :
  forall k idx,
    scan cfg idx (firstn k rows) = firstn k (scan cfg idx rows).
Proof.
  induction rows as [|item rest IH]; intros k idx.
  - now rewrite !firstn_nil.
  - destruct k as [|k]; simpl; [reflexivity |].
    destruct (Qle_bool _ _); simpl; [now rewrite IH | reflexivity].
Qed.

(** X2. What the current [analyzeSearchResults] selects is an initial part
    of what the first version (no row limit, no [break]) selects under the
    same ceiling, entry by entry and with the same row numbers. *)
Theorem selection_prefix_of_first_version (cfg : Config) (doc : Document) :
  map forget (items (analyzeSearchResults cfg doc))
  = firstn (count (analyzeSearchResults cfg doc))
      (items0 (analyzeSearchResults0 (maxPricePerUnit cfg) doc)).
Proof.
  unfold analyzeSearchResults, analyzeSearchResults0.
  destruct (itemDisplay doc) as [n|]; [destruct (n <=? 0)%nat |]; simpl;
    try reflexivity.
  set (k := Z.to_nat (Z.min (Z.of_nat (length (fakeItems doc))) (maxRows cfg))).
  rewrite scan_firstn.
  rewrite <- (firstn_map forget), scan_scan0, firstn_firstn.
  f_equal. rewrite length_firstn. lia.
Qed.

(** ** The reported totals *)


Lemma totals_fold (ceiling : Q) (l : list Deal) :
  forall (v : Q) (q : Z),
    (v <= ceiling * inject_Z q)%Q ->
    Forall (fun d => (actualPrice d <= ceiling * inject_Z (quantity d))%Q) l ->
    (fold_left (fun sum item => (sum + actualPrice item)%Q) l v
     <= ceiling * inject_Z (fold_left (fun sum item => (sum + quantity item)%Z) l q))%Q.
Proof.
  induction l as [|d l IH]; intros v q Hv Hall; simpl.
  - exact Hv.
  - inversion Hall as [|? ? Hd Hl]; subst.
    apply IH; [| exact Hl].
    rewrite inject_Z_plus. lra.
Qed.




(** ** The shape of a purchase attempt *)

Lemma count_ev_app (p : Event -> bool) (t t' : list Event) :
  count_ev p (t ++ t') = (count_ev p t + count_ev p t')%nat.
Proof. unfold count_ev. now rewrite List.filter_app, length_app. Qed.

Lemma sleep_total_app (t t' : list Event) :
  sleep_total (t ++ t') = sleep_total t + sleep_total t'.
Proof.
  induction t as [|e t IH]; simpl; [reflexivity |].
  destruct e; rewrite IH; lia.
Qed.

Lemma click_yes_trace (pg : Page) :
  let t := fst (dom_call pg OpYesClick EvClickYes;; sleep 2000;; ret true) in
  t = [] \/ t = [EvClickYes; EvSleep 2000].
Proof.
  unfold dom_call. destruct (raises pg OpYesClick); [left | right]; reflexivity.
Qed.

Lemma confirm_loop_trace (pg : Page) (buttons : list string) :
  let t := fst (confirm_loop pg buttons) in
  t = [] \/ t = [EvClickYes; EvSleep 2000].
Proof.
  induction buttons as [|b rest IH]; simpl.
  - now left.
  - destruct (_ && _); [apply click_yes_trace | exact IH].
Qed.

Lemma handleConfirmDialog_trace (pg : Page) :
  let t := fst (handleConfirmDialog pg) in
  t = [] \/ t = [EvClickYes; EvSleep 2000].
Proof.
  cbv zeta. unfold handleConfirmDialog.
  rewrite Step1_Theory.fst_try_catch_ret.
  destruct (yesButton (document pg)) as [html|].
  - destruct (_ && _); [apply click_yes_trace | apply confirm_loop_trace].
  - apply confirm_loop_trace.
Qed.

Lemma buyItem_trace (pg : Page) (item : Deal) :
  fst (buyItem pg item)
  = EvAttempt (index item)
    :: (if has_click (element item) && negb (raises pg OpItemClick)
        then EvClickItem (index item) :: EvSleep 1000
             :: (if buyButton (document pg) && negb (raises pg OpBuyClick)
                 then EvClickBuy :: EvSleep 1500 :: fst (handleConfirmDialog pg)
                 else [])
        else []).
Proof.
  unfold buyItem. rewrite Step1_Theory.fst_try_catch_ret.
  unfold dom_call.
  destruct (has_click (element item)); [| reflexivity].
  destruct (raises pg OpItemClick); [reflexivity |].
  destruct (buyButton (document pg)); [| reflexivity].
  destruct (raises pg OpBuyClick); [reflexivity |].
  destruct (handleConfirmDialog pg) as [tc [b|]]; simpl;
    rewrite ?app_nil_r; reflexivity.
Qed.

Lemma buyItem_result (pg : Page) (item : Deal) :
  snd (buyItem pg item) = Return (attempt_ok pg item).
Proof.
  unfold attempt_ok.
  destruct (has_click (element item)) eqn:Hc;
    [| apply Step1_Theory.buyItem_false; now left].
  destruct (raises pg OpItemClick) eqn:Hi;
    [apply Step1_Theory.buyItem_false; now right; right; left |].
  destruct (buyButton (document pg)) eqn:Hb;
    [| apply Step1_Theory.buyItem_false; now right; left].
  destruct (raises pg OpBuyClick) eqn:Hr;
    [apply Step1_Theory.buyItem_false; now right; right; right |].
  now apply Step1_Theory.buyItem_true.
Qed.

Lemma buy_loop_unfold (world : nat -> Page) (i : nat) (item : Deal)
    (rest : list Deal) (s f : nat) :
  buy_loop world i (item :: rest) s f
  = let b := attempt_ok (world i) item in
    let '(t, r) := buy_loop world (S i) rest
                     (if b then S s else s) (if b then f else S f) in
    (fst (buyItem (world i) item) ++ EvSleep 2000 :: t, r).
Proof.
  pose proof (buyItem_result (world i) item) as Hr.
  simpl. destruct (buyItem (world i) item) as [tb ob]. simpl in Hr. subst ob.
  cbn. destruct (attempt_ok (world i) item);
    destruct (buy_loop world (S i) rest _ _); reflexivity.
Qed.

Lemma fst_buy_loop (world : nat -> Page) (rest : list Deal) :
  forall i s f, fst (buy_loop world i rest s f) = loop_trace world i rest.
Proof.
  induction rest as [|item rest IH]; intros i s f.
  - reflexivity.
  - rewrite buy_loop_unfold. cbv zeta.
    specialize (IH (S i) (if attempt_ok (world i) item then S s else s)
                   (if attempt_ok (world i) item then f else S f)).
    destruct (buy_loop world (S i) rest _ _) as [t r].
    simpl in IH |- *. now rewrite IH.
Qed.

Lemma count_ok_le (world : nat -> Page) (rest : list Deal) :
  forall i, (count_ok world i rest <= length rest)%nat.
Proof.
  induction rest as [|d rest IH]; intros i; simpl; [lia |].
  specialize (IH (S i)). destruct (attempt_ok _ _); lia.
Qed.

Lemma snd_buy_loop (world : nat -> Page) (rest : list Deal) :
  forall i s f,
    snd (buy_loop world i rest s f)
    = Return {| success := s + count_ok world i rest;
                failed := f + (length rest - count_ok world i rest) |}.
Proof.
  induction rest as [|item rest IH]; intros i s f.
  - simpl. do 2 f_equal; lia.
  - rewrite buy_loop_unfold. cbv zeta.
    specialize (IH (S i) (if attempt_ok (world i) item then S s else s)
                   (if attempt_ok (world i) item then f else S f)).
    destruct (buy_loop world (S i) rest _ _) as [t r].
    simpl in IH |- *. rewrite IH.
    pose proof (count_ok_le world rest (S i)) as Hle.
    destruct (attempt_ok (world i) item); do 2 f_equal; lia.
Qed.

Lemma attempt_counts (pg : Page) (item : Deal) :
  let t := fst (buyItem pg item) in
  count_ev is_attempt t = 1%nat
  /\ (count_ev is_yes_click t <= count_ev is_buy_click t)%nat
  /\ (count_ev is_buy_click t <= count_ev is_item_click t)%nat
  /\ (count_ev is_item_click t <= 1)%nat
  /\ count_ev is_buy_click t = (if attempt_ok pg item then 1 else 0)%nat
  /\ 0 <= sleep_total t <= 4500.
Proof.
  cbv zeta. rewrite buyItem_trace. unfold attempt_ok, count_ev.
  destruct (has_click (element item)); simpl; [| repeat split; lia].
  destruct (raises pg OpItemClick); simpl; [repeat split; lia |].
  destruct (buyButton (document pg)); simpl; [| repeat split; lia].
  destruct (raises pg OpBuyClick); simpl; [repeat split; lia |].
  destruct (handleConfirmDialog_trace pg) as [-> | ->]; simpl;
    repeat split; lia.
Qed.

Lemma loop_counts (world : nat -> Page) (rest : list Deal) :
  forall i,
    let t := loop_trace world i rest in
    count_ev is_attempt t = length rest
    /\ (count_ev is_yes_click t <= count_ev is_buy_click t)%nat
    /\ (count_ev is_buy_click t <= count_ev is_item_click t)%nat
    /\ (count_ev is_item_click t <= length rest)%nat
    /\ count_ev is_buy_click t = count_ok world i rest
    /\ 2000 * Z.of_nat (length rest) <= sleep_total t
       <= 6500 * Z.of_nat (length rest).
Proof.
  induction rest as [|item rest IH]; intros i; cbv zeta.
  - unfold count_ev. simpl. repeat split; lia.
  - destruct (IH (S i)) as (Ha & Hy & Hb & Hi & Hok & Hs).
    destruct (attempt_counts (world i) item) as (Ha' & Hy' & Hb' & Hi' & Hok' & Hs').
    cbv zeta in Ha', Hy', Hb', Hi', Hok', Hs'.
    change (loop_trace world i (item :: rest))
      with (fst (buyItem (world i) item)
            ++ [EvSleep 2000] ++ loop_trace world (S i) rest).
    rewrite !count_ev_app, !sleep_total_app.
    change (count_ok world i (item :: rest))
      with ((if attempt_ok (world i) item then 1 else 0)
            + count_ok world (S i) rest)%nat.
    change (length (item :: rest)) with (S (length rest)).
    change (count_ev is_attempt [EvSleep 2000]) with 0%nat.
    change (count_ev is_yes_click [EvSleep 2000]) with 0%nat.
    change (count_ev is_buy_click [EvSleep 2000]) with 0%nat.
    change (count_ev is_item_click [EvSleep 2000]) with 0%nat.
    change (sleep_total [EvSleep 2000]) with 2000.
    repeat split; lia.
Qed.

Lemma autoBuyItems_trace (cfg : Config) (world : nat -> Page)
    (results : SearchResults) :
  autoBuyItems cfg world results
  = if negb (autoBuy cfg) || (count results =? 0)%nat
    then ([], Return {| success := 0; failed := 0 |})
    else (loop_trace world 0 (items results),
          Return {| success := count_ok world 0 (items results);
                    failed := length (items results)
                              - count_ok world 0 (items results) |}).
Proof.
  unfold autoBuyItems.
  destruct (negb (autoBuy cfg) || (count results =? 0)%nat); [reflexivity |].
  pose proof (fst_buy_loop world (items results) 0%nat 0%nat 0%nat) as Hf.
  pose proof (snd_buy_loop world (items results) 0%nat 0%nat 0%nat) as Hs.
  destruct (buy_loop world 0 (items results) 0 0) as [t r].
  simpl in Hf, Hs. now subst.
Qed.

(** X7. [autoBuyItems] reports as successes exactly the attempts that got
    as far as clicking the buy button (the element could be clicked, the
    button was there and no click raised), whatever the confirmation
    dialog did; the others are the failures, and the two add up to the
    number of selected offers. *)
Theorem success_counts_buy_clicks (cfg : Config) (world : nat -> Page)
    (results : SearchResults) :
  exists r,
    snd (autoBuyItems cfg world results) = Return r
    /\ success r = count_ev is_buy_click (fst (autoBuyItems cfg world results))
    /\ success r
       = (if negb (autoBuy cfg) || (count results =? 0)%nat
          then 0 else count_ok world 0 (items results))%nat
    /\ (success r + failed r
        = if negb (autoBuy cfg) || (count results =? 0)%nat
          then 0 else length (items results))%nat.
Proof.
  rewrite autoBuyItems_trace.
  destruct (negb (autoBuy cfg) || (count results =? 0)%nat); simpl.
  - eexists. split; [reflexivity |]. repeat split.
  - eexists. split; [reflexivity |]. simpl.
    destruct (loop_counts world (items results) 0%nat)
      as (_ & _ & _ & _ & Hok & _).
    cbv zeta in Hok.
    pose proof (count_ok_le world (items results) 0%nat) as Hle.
    repeat split; [now rewrite Hok | lia].
Qed.

(** ** The two ways into the buying loop *)

(** X8. The manual trigger button takes the same purchase decision and
    performs the same steps as step 8 of [executeStep1]: the near-full
    warning of the automatic path changes nothing. *)
Theorem manual_trigger_agrees (cfg : Config)
    (inventoryStatus : option InventoryStatus) (results : SearchResults)
    (world : nat -> Page) :
  manualTrigger_autoBuy cfg inventoryStatus results world
  = executeStep1_autoBuy cfg inventoryStatus results world.
Proof.
  unfold manualTrigger_autoBuy, executeStep1_autoBuy.
  destruct (autoBuy cfg && (0 <? count results)%nat); [| reflexivity].
  destruct inventoryStatus as [st|]; [| reflexivity].
  destruct (isFull st); [reflexivity |].
  destruct (isNearFull st); reflexivity.
Qed.

Lemma attempts_are_count_ev (t : list Event) :
  length (attempts t) = count_ev is_attempt t.
Proof.
  unfold attempts, count_ev.
  induction t as [|e t IH]; simpl; [reflexivity |].
  destruct e; simpl; now rewrite ?IH.
Qed.

(** X9. A failed inventory read does not hold back the purchases: when
    auto-buy is on and the inventory check is switched off or ended in its
    [catch] branch, [executeStep1] attempts every selected offer. *)
Theorem failed_read_does_not_block (cfg : Config) (before after : Document)
    (world : nat -> Page) :
  autoBuy cfg = true ->
  checkInventory cfg = false \/ error (checkInventoryStatus before) = true ->
  attempts (fst (executeStep1 cfg before after world))
  = map index (items (analyzeSearchResults cfg after)).
Proof.
  intros Hauto Hread.
  unfold executeStep1. rewrite Step1_Theory.fst_try_catch_ret.
  set (results := analyzeSearchResults cfg after).
  assert (Hrun : attempts (fst (buyResults ← autoBuyItems cfg world results;
                                Step1.ret (Some buyResults)))
                 = map index (items results)
                 \/ (0 <? count results)%nat = false).
  { destruct (Step1_Theory.autoBuyItems_spec cfg world results)
      as (t & r & Hr & _ & Hatt).
    rewrite Hr, Step1_Theory.fst_bind. unfold Step1.ret. cbn [fst].
    rewrite app_nil_r, Hatt, Hauto. simpl.
    destruct (count results =? 0)%nat eqn:Hc; [right | now left].
    apply Nat.eqb_eq in Hc. rewrite Hc. reflexivity. }
  assert (Hempty : (0 <? count results)%nat = false ->
                   map index (items results) = []).
  { intros Hc. apply Nat.ltb_ge in Hc.
    unfold results in *. rewrite Step1_Theory.count_is_length in Hc.
    destruct (items (analyzeSearchResults cfg after)); [reflexivity |].
    simpl in Hc. lia. }
  unfold executeStep1_autoBuy. rewrite Hauto. simpl.
  destruct (0 <? count results)%nat eqn:Hc;
    [| now rewrite Hempty].
  destruct Hrun as [Hrun | Hrun]; [| discriminate].
  destruct (checkInventory cfg) eqn:Hci.
  - destruct Hread as [Hread | Hread]; [discriminate |].
    unfold checkInventoryStatus in Hread |- *.
    destruct (read_slots before); [discriminate |]. simpl. exact Hrun.
  - exact Hrun.
Qed.

Lemma failed_read_does_not_block_witness :
  attempts (fst (executeStep1 CONFIG_autoBuy
                   {| itemDisplay := None; fakeItems := [];
                      inventoryItems_length := 40;
                      inventoryInfo := Some {| textContent := "";
                                               innerText := None |};
                      invController := None; buyButton := false;
                      yesButton := None; confirmButtons := [] |}
                   c8_search_page c8_world))
  = [1; 2]%nat.
Proof.
  apply (failed_read_does_not_block CONFIG_autoBuy _ c8_search_page c8_world).
  - reflexivity.
  - right. reflexivity.
Defined.

(** ** Reading the slot counter *)

Lemma digit_not_space (c : ascii) :
  JS.is_digit c = true -> JS.is_space c = false.
Proof.
  destruct c as [[] [] [] [] [] [] [] []]; vm_compute; congruence.
Qed.

Lemma space_not_digit (c : ascii) :
  JS.is_space c = true -> JS.is_digit c = false.
Proof.
  destruct c as [[] [] [] [] [] [] [] []]; vm_compute; congruence.
Qed.

Lemma span_digits_app (ds : list ascii) (rest : string) :
  all_digits ds -> no_leading_digit rest ->
  JS.span_digits (string_of_list_ascii ds +:+ rest) = (ds, rest).
Proof.
  intros Hds Hrest. induction Hds as [|c ds Hc _ IH]; simpl.
  - destruct rest as [|c rest]; simpl in *; [reflexivity | now rewrite Hrest].
  - now rewrite Hc, IH.
Qed.

Lemma skip_spaces_app (ws : list ascii) (rest : string) :
  all_spaces ws ->
  match rest with
  | EmptyString => True
  | String c _ => JS.is_space c = false
  end ->
  JS.skip_spaces (string_of_list_ascii ws +:+ rest) = rest.
Proof.
  intros Hws Hrest. induction Hws as [|c ws Hc _ IH]; simpl.
  - destruct rest as [|c rest]; simpl in *; [reflexivity | now rewrite Hrest].
  - now rewrite Hc, IH.
Qed.

Lemma slots_match_here_counter (used ws1 ws2 total : list ascii) (suf : string) :
  all_digits used -> used <> [] ->
  all_spaces ws1 -> all_spaces ws2 ->
  all_digits total -> total <> [] ->
  no_leading_digit suf ->
  JS.slots_match_here (counter_text [] used ws1 ws2 total suf)
  = Some (used, total).
Proof.
  intros Hu Hune Hw1 Hw2 Ht Htne Hsuf.
  unfold counter_text, JS.slots_match_here. simpl string_of_list_ascii.
  change ("" +:+ ?x)%string with x.
  rewrite span_digits_app; [| exact Hu |].
  - destruct used as [|u used]; [congruence |].
    rewrite skip_spaces_app; [| exact Hw1 | reflexivity].
    rewrite skip_spaces_app; [| exact Hw2 |].
    + rewrite span_digits_app by assumption.
      destruct total; [congruence | reflexivity].
    + destruct Ht as [|c total Hc _]; [congruence |].
      simpl. now apply digit_not_space.
  - destruct Hw1 as [|c ws1 Hc _]; simpl; [reflexivity |].
    now apply space_not_digit.
Qed.

Lemma slots_match_unfold (s : string) :
  JS.slots_match s
  = match JS.slots_match_here s with
    | Some m => Some m
    | None =>
        match s with
        | EmptyString => None
        | String _ rest => JS.slots_match rest
        end
    end.
Proof. destruct s; reflexivity. Qed.

Lemma slots_match_counter (pre used ws1 ws2 total : list ascii) (suf : string) :
  no_digit pre ->
  all_digits used -> used <> [] ->
  all_spaces ws1 -> all_spaces ws2 ->
  all_digits total -> total <> [] ->
  no_leading_digit suf ->
  JS.slots_match (counter_text pre used ws1 ws2 total suf) = Some (used, total).
Proof.
  intros Hpre Hu Hune Hw1 Hw2 Ht Htne Hsuf.
  pose proof (slots_match_here_counter used ws1 ws2 total suf
                Hu Hune Hw1 Hw2 Ht Htne Hsuf) as Hhere.
  induction Hpre as [|c pre Hc _ IH].
  - now rewrite slots_match_unfold, Hhere.
  - change (counter_text (c :: pre) used ws1 ws2 total suf)
      with (String c (counter_text pre used ws1 ws2 total suf)).
    rewrite slots_match_unfold.
    unfold JS.slots_match_here. simpl JS.span_digits. rewrite Hc. exact IH.
Qed.

Lemma span_digits_all_digits (s : string) :
  all_digits (fst (JS.span_digits s)).
Proof.
  induction s as [|c s IH]; simpl.
  - constructor.
  - destruct (JS.is_digit c) eqn:Hc; [| constructor].
    destruct (JS.span_digits s) as [ds r]. simpl in *. now constructor.
Qed.

Lemma slots_match_here_digits (s : string) (m : list ascii * list ascii) :
  JS.slots_match_here s = Some m -> all_digits (fst m) /\ all_digits (snd m).
Proof.
  unfold JS.slots_match_here.
  pose proof (span_digits_all_digits s) as H1.
  destruct (JS.span_digits s) as [d1 r1]. simpl in H1.
  destruct d1 as [|c d1]; [discriminate |].
  destruct (JS.skip_spaces r1) as [|c' r2]; [discriminate |].
  destruct (Ascii.eqb_spec c' "/"%char) as [-> | Hne].
  - pose proof (span_digits_all_digits (JS.skip_spaces r2)) as H2.
    destruct (JS.span_digits (JS.skip_spaces r2)) as [d2 r3]. simpl in H2.
    destruct d2 as [|c2 d2]; [discriminate |].
    intros [= <-]. now split.
  - intros H. exfalso.
    destruct c' as [[] [] [] [] [] [] [] []]; try discriminate H.
    now apply Hne.
Qed.

Lemma slots_match_digits (s : string) (m : list ascii * list ascii) :
  JS.slots_match s = Some m -> all_digits (fst m) /\ all_digits (snd m).
Proof.
  induction s as [|c s IH]; rewrite slots_match_unfold.
  - destruct (JS.slots_match_here "") eqn:E; [| discriminate].
    intros [= <-]. now apply slots_match_here_digits in E.
  - destruct (JS.slots_match_here (String c s)) eqn:E; [| exact IH].
    intros [= <-]. now apply slots_match_here_digits in E.
Qed.

Lemma parseInt_digits_nonneg (ds : list ascii) :
  all_digits ds -> 0 <= JS.parseInt_digits ds.
Proof.
  intros Hds. unfold JS.parseInt_digits.
  assert (H : forall acc, 0 <= acc ->
            0 <= fold_left (fun a c => 10 * a + JS.digit_value c) ds acc).
  { induction Hds as [|c ds Hc _ IH]; intros acc Hacc; simpl; [exact Hacc |].
    apply IH. unfold JS.digit_value, JS.is_digit in *.
    apply andb_prop in Hc as [Hlo _]. apply Nat.leb_le in Hlo. lia. }
  apply H. lia.
Qed.

(** X10. A slot counter written as [used/total], with optional spaces
    around the slash, after text without digits, is read back as those two
    numbers (provided the capacity is not 0 and the inventory controller,
    if present, has a text): the explicit counter takes precedence over
    the controller and over the item count. *)
Theorem reads_counter_text (doc : Document) (el : ElementText)
    (pre used ws1 ws2 total : list ascii) (suf : string) :
  inventoryInfo doc = Some el ->
  text_of el = Some (counter_text pre used ws1 ws2 total suf) ->
  no_digit pre ->
  all_digits used -> used <> [] ->
  all_spaces ws1 -> all_spaces ws2 ->
  all_digits total -> total <> [] ->
  no_leading_digit suf ->
  JS.parseInt_digits total <> 0 ->
  text_defined (invController doc) ->
  let st := checkInventoryStatus doc in
  error st = false
  /\ usedSlots st = JS.parseInt_digits used
  /\ totalSlots st = JS.parseInt_digits total
  /\ availableSlots st = JS.parseInt_digits total - JS.parseInt_digits used.
Proof.
  intros Hinfo Htext Hpre Hu Hune Hw1 Hw2 Ht Htne Hsuf Hnz Hctrl. cbv zeta.
  apply Z.eqb_neq in Hnz.
  unfold checkInventoryStatus, read_slots.
  rewrite Hinfo, Htext. simpl.
  rewrite slots_match_counter by assumption.
  unfold slots_of_match. simpl. rewrite Hnz. simpl.
  destruct (invController doc) as [el2|]; simpl in Hctrl |- *.
  - destruct (text_of el2) as [allText|]; [| contradiction]. simpl.
    destruct (JS.slots_match allText); rewrite ?Hnz; simpl; rewrite Hnz;
      simpl; repeat split.
  - rewrite Hnz. simpl. repeat split.
Qed.

Lemma reads_counter_text_witness :
  usedSlots (checkInventoryStatus counter_page) = 25
  /\ totalSlots (checkInventoryStatus counter_page) = 40.
Proof.
  pose proof (reads_counter_text counter_page (text "Inventory: 25 / 40 slots")
                (list_ascii_of_string "Inventory: ")
                ["2"; "5"]%char [" "]%char [" "]%char ["4"; "0"]%char
                " slots"%string) as H.
  cbv zeta in H.
  specialize (H eq_refl eq_refl).
  specialize (H ltac:(repeat constructor) ltac:(repeat constructor)
                ltac:(discriminate)).
  specialize (H ltac:(repeat constructor) ltac:(repeat constructor)
                ltac:(repeat constructor) ltac:(discriminate)).
  specialize (H eq_refl ltac:(discriminate) I).
  destruct H as (_ & Hu & Ht & _).
  split; [exact Hu | exact Ht].
Defined.

Lemma read_slots_bounds (doc : Document) (s : Slots) :
  read_slots doc = Some s -> 1 <= total s /\ 0 <= used s.
Proof.
  unfold read_slots. intros H.
  apply bind_Some in H as (s1 & H1 & H).
  apply bind_Some in H as (s3 & H3 & H).
  injection H as <-.
  assert (Hm : forall m, (exists txt, JS.slots_match txt = Some m) ->
                 0 <= total (slots_of_match m) /\ 0 <= used (slots_of_match m)).
  { intros m [txt Hm]. apply slots_match_digits in Hm as [Hd1 Hd2].
    unfold slots_of_match. simpl.
    split; now apply parseInt_digits_nonneg. }
  assert (B1 : 0 <= total s1 /\ 0 <= used s1).
  { destruct (inventoryInfo doc) as [el|].
    - apply bind_Some in H1 as (infoText & _ & H1). injection H1 as <-.
      destruct (JS.slots_match infoText) as [m|] eqn:E; [| simpl; lia].
      apply Hm. eauto.
    - injection H1 as <-. simpl. lia. }
  set (n := Z.of_nat (inventoryItems_length doc)) in *.
  assert (Hn : 0 <= n) by (unfold n; lia).
  set (s2 := if (total s1 =? 0) && (0 <? n)
             then {| total := 40; used := n; available := available s1 |}
             else s1) in *.
  assert (B2 : 0 <= total s2 /\ 0 <= used s2).
  { unfold s2. destruct ((total s1 =? 0) && (0 <? n)); simpl; lia. }
  assert (B3 : 0 <= total s3 /\ 0 <= used s3).
  { destruct (invController doc) as [el|].
    - apply bind_Some in H3 as (allText & _ & H3). injection H3 as <-.
      destruct (JS.slots_match allText) as [m|] eqn:E; [| exact B2].
      destruct (total s2 =? 0); [| exact B2].
      apply Hm. eauto.
    - injection H3 as <-. exact B2. }
  destruct (total s3 =? 0) eqn:Hz; simpl.
  - lia.
  - apply Z.eqb_neq in Hz. lia.
Qed.

(** X11. Whenever the inventory was read without error, the reported
    capacity is at least 1 and the used count is not negative: a capacity
    that reads as 0 is never reported, another counter or the default of
    40 slots takes its place. *)
Theorem capacity_is_positive (doc : Document) :
  let st := checkInventoryStatus doc in
  error st = false -> 1 <= totalSlots st /\ 0 <= usedSlots st.
Proof.
  cbv zeta. unfold checkInventoryStatus.
  destruct (read_slots doc) as [s|] eqn:Hs; simpl.
  - intros _. now apply read_slots_bounds in Hs.
  - discriminate.
Qed.

Lemma capacity_is_positive_witness :
  1 <= totalSlots (checkInventoryStatus c7_page)
  /\ 0 <= usedSlots (checkInventoryStatus c7_page).
Proof.
  apply (capacity_is_positive c7_page). reflexivity.
Defined.

Lemma read_slots_fails (doc : Document) :
  read_slots doc = None
  <-> ~ (text_defined (inventoryInfo doc) /\ text_defined (invController doc)).
Proof.
  unfold read_slots, text_defined.
  destruct (inventoryInfo doc) as [el1|]; simpl.
  - destruct (text_of el1) as [t1|]; simpl.
    + destruct (invController doc) as [el2|]; simpl.
      * destruct (text_of el2) as [t2|]; simpl.
        -- split; [discriminate | intros H; exfalso; apply H; now split].
        -- split; [intros _ [_ H]; now apply H | reflexivity].
      * split; [discriminate | intros H; exfalso; apply H; now split].
    + split; [intros _ [H _]; now apply H | reflexivity].
  - destruct (invController doc) as [el2|]; simpl.
    + destruct (text_of el2) as [t2|]; simpl.
      * split; [discriminate | intros H; exfalso; apply H; now split].
      * split; [intros _ [_ H]; now apply H | reflexivity].
    + split; [discriminate | intros H; exfalso; apply H; now split].
Qed.

(** X12. [checkInventoryStatus] ends in its [catch] branch exactly when
    the inventory information element or the inventory controller is
    present but has neither [textContent] nor [innerText]; the result then
    reports zero slots and is neither full nor near full, even if the
    other element carried a counter. *)
Theorem error_iff_text_undefined (doc : Document) :
  let st := checkInventoryStatus doc in
  (error st = true
   <-> ~ (text_defined (inventoryInfo doc) /\ text_defined (invController doc)))
  /\ (error st = true ->
      totalSlots st = 0 /\ usedSlots st = 0 /\ availableSlots st = 0
      /\ isFull st = false /\ isNearFull st = false).
Proof.
  cbv zeta. pose proof (read_slots_fails doc) as Hf.
  unfold checkInventoryStatus.
  destruct (read_slots doc) as [s|]; simpl.
  - split; [| discriminate].
    split; [discriminate |].
    intros H. apply Hf in H. discriminate.
  - split; [| now intros _].
    split; [intros _; now apply Hf | reflexivity].
Qed.

Lemma error_iff_text_undefined_witness :
  isFull (checkInventoryStatus
    {| itemDisplay := None; fakeItems := []; inventoryItems_length := 40;
       inventoryInfo := Some (text "40/40");
       invController := Some {| textContent := ""; innerText := None |};
       buyButton := false; yesButton := None; confirmButtons := [] |}) = false.
Proof.
  refine (proj1 (proj2 (proj2 (proj2 (proj2 (error_iff_text_undefined _) _))))).
  reflexivity.
Defined.

(** X13. When neither element carries a usable counter (no counter in the
    text, or one whose capacity reads as 0), the status falls back on the
    number of inventory items against the default capacity of 40. *)
Theorem falls_back_on_item_count (doc : Document) :
  no_usable_counter (inventoryInfo doc) ->
  no_usable_counter (invController doc) ->
  let st := checkInventoryStatus doc in
  error st = false
  /\ totalSlots st = 40
  /\ usedSlots st = Z.of_nat (inventoryItems_length doc)
  /\ availableSlots st = 40 - Z.of_nat (inventoryItems_length doc).
Proof.
  intros Hinfo Hctrl. cbv zeta.
  unfold checkInventoryStatus, read_slots.
  set (n := Z.of_nat (inventoryItems_length doc)).
  assert (H1 : exists s1,
             match inventoryInfo doc with
             | Some el =>
                 infoText ← text_of el;
                 Some match JS.slots_match infoText with
                      | Some m => slots_of_match m
                      | None => {| total := 0; used := 0; available := 0 |}
                      end
             | None => Some {| total := 0; used := 0; available := 0 |}
             end = Some s1 /\ total s1 = 0).
  { destruct (inventoryInfo doc) as [el|]; simpl in Hinfo.
    - destruct Hinfo as (txt & -> & Hm). simpl.
      destruct (JS.slots_match txt) as [m|].
      + exists (slots_of_match m). split; [reflexivity | exact Hm].
      + eexists. split; reflexivity.
    - eexists. split; reflexivity. }
  destruct H1 as (s1 & -> & Hz1). simpl. rewrite Hz1. simpl.
  destruct (0 <? n) eqn:Hn; simpl.
  - destruct (invController doc) as [el|]; simpl in Hctrl |- *.
    + destruct Hctrl as (txt & -> & Hm). simpl.
      destruct (JS.slots_match txt) as [m|]; simpl; repeat split.
    + repeat split.
  - assert (Hn0 : n = 0) by (apply Z.ltb_ge in Hn; unfold n in *; lia).
    destruct (invController doc) as [el|]; simpl in Hctrl |- *.
    + destruct Hctrl as (txt & -> & Hm). simpl.
      destruct (JS.slots_match txt) as [m|]; simpl; rewrite ?Hz1; simpl.
      * unfold slots_of_match. simpl. rewrite Hm. simpl.
        rewrite Hn0. repeat split.
      * rewrite Hn0. repeat split.
    + rewrite Hz1. simpl. rewrite Hn0. repeat split.
Qed.

Lemma falls_back_on_item_count_witness :
  totalSlots (checkInventoryStatus uncounted_page) = 40
  /\ usedSlots (checkInventoryStatus uncounted_page) = 38.
Proof.
  destruct (falls_back_on_item_count uncounted_page) as (_ & Ht & Hu & _).
  - simpl. exists "Inventory"%string. split; reflexivity.
  - exact I.
  - split; [exact Ht | exact Hu].
Defined.

End Step1_Extra.

(** * More properties of the auto seller *)

Module Step2_Extra.

Import Step2.

(** ** Pacing *)

Lemma humanWait_reachable (cfg : Config) (ops : list PacingOp)
    (baseMs variationMs rnd : Q) :
  humanWait cfg (pacing_run cfg ops) baseMs variationMs rnd
  = humanDelay baseMs variationMs rnd.
Proof.
  unfold humanWait, JS.floor.
  destruct (enabled _); [| reflexivity].
  rewrite Step2_Theory.multiplier_stays_one.
  apply Step2_Theory.floor_times_one.
Qed.

(** X14. When [base + variation <= 500] the jitter has no effect: the
    delay is exactly 500 ms for every random draw, in every state the
    script can reach.  This is the case for the calls
    [humanWait(200, 100)], [humanWait(150, 50)] and [humanWait(300, 200)]. *)
Theorem short_waits_are_constant (cfg : Config) (ops : list PacingOp)
    (baseMs variationMs rnd : Q) :
  (0 <= variationMs)%Q -> (rnd < 1)%Q -> (baseMs + variationMs <= 500)%Q ->
  humanDelay baseMs variationMs rnd = 500
  /\ humanWait cfg (pacing_run cfg ops) baseMs variationMs rnd = 500.
Proof.
  intros Hv Hr Hsum.
  assert (H : humanDelay baseMs variationMs rnd = 500).
  { pose proof (Step2_Theory.humanDelay_upper baseMs variationMs rnd Hv Hr) as Hup.
    apply Qfloor_resp_le in Hsum.
    change (Qfloor 500) with 500 in Hsum.
    unfold humanDelay in *. lia. }
  split; [exact H |]. now rewrite humanWait_reachable.
Qed.

Lemma short_waits_are_constant_witness :
  humanDelay 300 200 (999 # 1000) = 500.
Proof.
  refine (proj1 (short_waits_are_constant CONFIG [] 300 200 (999 # 1000) _ _ _)).
  - vm_compute. discriminate.
  - reflexivity.
  - vm_compute. discriminate.
Defined.

(** X15. [humanDelay] grows with the random draw and never falls below
    [max(500, floor(base - variation))]. *)
Theorem humanDelay_monotone (baseMs variationMs r1 r2 : Q) :
  (0 <= variationMs)%Q -> (0 <= r1)%Q -> (r1 <= r2)%Q ->
  Z.max 500 (Qfloor (baseMs - variationMs)) <= humanDelay baseMs variationMs r1
  /\ humanDelay baseMs variationMs r1 <= humanDelay baseMs variationMs r2.
Proof.
  intros Hv H0 Hle. unfold humanDelay, JS.floor.
  assert (Ha : (0 <= r1 * variationMs)%Q) by now apply Qmult_le_0_compat.
  assert (Hb : (r1 * variationMs <= r2 * variationMs)%Q)
    by now apply Qmult_le_compat_r.
  split; apply Z.max_le_compat_l, Qfloor_resp_le; lra.
Qed.

Lemma humanDelay_monotone_witness :
  humanDelay 2000 500 (1 # 4) <= humanDelay 2000 500 (3 # 4).
Proof.
  refine (proj2 (humanDelay_monotone 2000 500 (1 # 4) (3 # 4) _ _ _));
    vm_compute; discriminate.
Defined.

(** X16. [enhancedItemWait] sleeps between [floor(min)] and [floor(max)]
    of the configured item delay, counts the operation and records the
    time, and leaves the delay multiplier alone. *)
Theorem itemWait_within_range (cfg : Config) (st : Pacing) (rnd : Q) (now : Z) :
  (min (itemDelay (humanBehavior cfg)) <= max (itemDelay (humanBehavior cfg)))%Q ->
  (0 <= rnd < 1)%Q ->
  let '(delay, st') := enhancedItemWait cfg st rnd now in
  Qfloor (min (itemDelay (humanBehavior cfg))) <= delay
  /\ delay <= Qfloor (max (itemDelay (humanBehavior cfg)))
  /\ operationCount st' = operationCount st + 1
  /\ lastOperationTime st' = now
  /\ currentDelayMultiplier st' = currentDelayMultiplier st.
Proof.
  intros Hmm [H0 H1]. unfold enhancedItemWait, JS.floor.
  set (lo := min (itemDelay (humanBehavior cfg))) in *.
  set (hi := max (itemDelay (humanBehavior cfg))) in *.
  assert (Ha : (0 <= rnd * (hi - lo))%Q) by (apply Qmult_le_0_compat; lra).
  assert (Hb : (rnd * (hi - lo) <= 1 * (hi - lo))%Q)
    by (apply Qmult_le_compat_r; lra).
  cbv beta iota zeta.
  cbn [operationCount lastOperationTime currentDelayMultiplier].
  split; [apply Qfloor_resp_le; lra |].
  split; [apply Qfloor_resp_le; lra |].
  repeat split.
Qed.

Lemma itemWait_within_range_witness :
  3000 <= fst (enhancedItemWait CONFIG initial (1 # 2) 1000) <= 6000.
Proof.
  pose proof (itemWait_within_range CONFIG initial (1 # 2) 1000) as H.
  destruct (enhancedItemWait CONFIG initial (1 # 2) 1000) as [delay st'].
  destruct H as (Hlo & Hhi & _).
  - vm_compute. discriminate.
  - split; [vm_compute; discriminate | reflexivity].
  - simpl. split; [exact Hlo | exact Hhi].
Defined.

(** ** The wait for the Yes button *)






(** ** The sell price *)




(** ** Statistics over many sales *)

Lemma record_sales_cons (localStorage : LocalStorage) (s : Step2_More.Sale)
    (sales : list Step2_More.Sale) :
  Step2_More.record_sales localStorage (s :: sales)
  = Step2_More.record_sales
      (snd (updateSalesStats localStorage (Step2_More.sale_time s)
              (Step2_More.sale_success s) (Step2_More.sale_quantity s)
              (Step2_More.sale_value s)))
      sales.
Proof. reflexivity. Qed.

Lemma stats_after_update (localStorage : LocalStorage) (now : Z)
    (success : bool) (quantity : Z) (value : Q) :
  let old := getSalesStats localStorage in
  getSalesStats (snd (updateSalesStats localStorage now success quantity value))
  = {| totalSuccess := if success then totalSuccess old + 1 else totalSuccess old;
       totalFailed := if success then totalFailed old else totalFailed old + 1;
       totalQuantity :=
         if success then totalQuantity old + quantity else totalQuantity old;
       totalValue :=
         if success then (totalValue old + value)%Q else totalValue old;
       lastSaleTime := now |}.
Proof.
  cbv zeta. unfold updateSalesStats. cbn [snd].
  unfold getSalesStats at 1. rewrite lookup_insert_eq.
  destruct success; reflexivity.
Qed.

Lemma record_sales_counts (sales : list Step2_More.Sale) :
  forall localStorage : LocalStorage,
    let before := getSalesStats localStorage in
    let after := getSalesStats (Step2_More.record_sales localStorage sales) in
    totalSuccess after
    = totalSuccess before + Z.of_nat (length (Step2_More.successes sales))
    /\ totalFailed after
       = totalFailed before
         + Z.of_nat (length sales - length (Step2_More.successes sales))
    /\ totalQuantity after
       = totalQuantity before
         + fold_right Z.add 0 (map Step2_More.sale_quantity (Step2_More.successes sales))
    /\ (totalValue after
        == totalValue before
           + fold_right Qplus 0 (map Step2_More.sale_value (Step2_More.successes sales)))%Q.
Proof.
  induction sales as [|s sales IH]; intros localStorage; cbv zeta.
  - simpl. repeat split; try lia. lra.
  - pose proof (List.filter_length_le Step2_More.sale_success sales) as Hlen.
    rewrite record_sales_cons.
    destruct (IH (snd (updateSalesStats localStorage (Step2_More.sale_time s)
                         (Step2_More.sale_success s)
                         (Step2_More.sale_quantity s)
                         (Step2_More.sale_value s))))
      as (H1 & H2 & H3 & H4).
    cbv zeta in H1, H2, H3, H4.
    rewrite H1, H2, H3, H4. clear H1 H2 H3 H4 IH.
    rewrite stats_after_update. cbv zeta.
    unfold Step2_More.successes in *. simpl List.filter.
    destruct (Step2_More.sale_success s);
      cbn [totalSuccess totalFailed totalQuantity totalValue
           length map fold_right];
      repeat split; try lia; try lra.
Qed.

(** X19. Statistics add up over any sequence of [updateSalesStats] calls:
    [totalSuccess] grows by the number of successful calls, [totalFailed]
    by the number of failed ones, [totalQuantity] and [totalValue] by the
    quantities and values of the successful ones only.  Clearing the
    statistics resets them to zero and touches no other key. *)
Theorem statistics_accumulate (localStorage : LocalStorage)
    (sales : list Step2_More.Sale) :
  let before := getSalesStats localStorage in
  let after := getSalesStats (Step2_More.record_sales localStorage sales) in
  let cleared := Step2_More.clearStats localStorage true in
  (totalSuccess after
   = totalSuccess before + Z.of_nat (length (Step2_More.successes sales))
   /\ totalFailed after
      = totalFailed before + Z.of_nat (length sales - length (Step2_More.successes sales))
   /\ totalQuantity after
      = totalQuantity before
        + fold_right Z.add 0 (map Step2_More.sale_quantity (Step2_More.successes sales))
   /\ (totalValue after
       == totalValue before
          + fold_right Qplus 0 (map Step2_More.sale_value (Step2_More.successes sales)))%Q)
  /\ getSalesStats cleared
     = {| totalSuccess := 0; totalFailed := 0; totalQuantity := 0;
          totalValue := 0; lastSaleTime := 0 |}
  /\ (forall key : string,
        key <> stats_key -> cleared !! key = localStorage !! key)
  /\ Step2_More.clearStats localStorage false = localStorage.
Proof.
  cbv zeta. split; [apply record_sales_counts |].
  unfold Step2_More.clearStats, getSalesStats.
  rewrite lookup_delete_eq.
  repeat split. intros key Hkey. now apply lookup_delete_ne.
Qed.

Lemma statistics_accumulate_witness :
  "other"%string <> stats_key
  /\ Step2_More.clearStats (<["other"%string := getSalesStats ∅]> ∅) true
     !! "other"%string
     = (<["other"%string := getSalesStats ∅]> ∅ : LocalStorage) !! "other"%string.
Proof.
  assert (H : "other"%string <> stats_key) by discriminate.
  split; [exact H |].
  pose proof (statistics_accumulate
                (<["other"%string := getSalesStats ∅]> ∅) []) as F.
  cbv zeta in F. destruct F as (_ & _ & F & _).
  exact (F "other"%string H).
Defined.

(** ** Finding and selling the target items *)

Lemma collect_no_target (items : list Step2_More.InventoryElement) :
  forall idx,
    Forall (fun el => Step2_More.is_target el = false) items ->
    Step2_More.collect idx items = [].
Proof.
  induction items as [|el items IH]; intros idx Hall; simpl.
  - reflexivity.
  - inversion Hall as [|? ? Hel Hrest]; subst.
    unfold Step2_More.is_target, Step2_More.attribute_or_empty in *.
    destruct (Step2_More.data_type el) as [t|];
      [destruct (Step2_More.data_itemtype el) as [it|] |]; simpl in *.
    + rewrite Hel. now apply IH.
    + rewrite andb_false_r. now apply IH.
    + now apply IH.
Qed.

Lemma collect_elements (items : list Step2_More.InventoryElement) :
  forall idx,
    map Step2_More.element (Step2_More.collect idx items)
    = List.filter Step2_More.is_target items
    /\ Forall (fun t => Step2_More.quantity t
                        = match Step2_More.data_quantity (Step2_More.element t) with
                          | Some q => q
                          | None => 1
                          end)
         (Step2_More.collect idx items).
Proof.
  induction items as [|el items IH]; intros idx; simpl.
  - split; [reflexivity | constructor].
  - destruct (IH (S idx)) as [Hm Hq].
    unfold Step2_More.is_target, Step2_More.attribute_or_empty.
    destruct (Step2_More.data_type el) as [t|];
      [destruct (Step2_More.data_itemtype el) as [it|] |]; simpl.
    + destruct (_ && _); simpl; [| now split].
      split; [now rewrite Hm | now constructor].
    + rewrite andb_false_r. now split.
    + now split.
Qed.

Lemma filter_filter_target (sel : string)
    (descendants : list Step2_More.InventoryElement) :
  List.filter Step2_More.is_target
    (List.filter
       (fun el => match Step2_More.data_type el with
                  | Some t => String.eqb t sel
                  | None => false
                  end) descendants)
  = if String.eqb sel "127rifleammo"
    then List.filter Step2_More.is_target descendants
    else [].
Proof.
  induction descendants as [|el l IH]; simpl.
  - now destruct (String.eqb sel "127rifleammo").
  - unfold Step2_More.is_target at 2 3.
    destruct (Step2_More.data_type el) as [t|] eqn:Ht; simpl.
    + destruct (String.eqb_spec t sel) as [-> | Hne]; simpl.
      * unfold Step2_More.is_target at 1. rewrite Ht.
        destruct (String.eqb_spec sel "127rifleammo") as [-> | Hs]; simpl.
        -- destruct (Step2_More.data_itemtype el) as [it|];
             [destruct (String.eqb it "ammo") |]; simpl; now rewrite IH.
        -- destruct (Step2_More.data_itemtype el); simpl; exact IH.
      * rewrite IH.
        destruct (String.eqb_spec sel "127rifleammo") as [-> | Hs];
          [| reflexivity].
        destruct (String.eqb_spec t "127rifleammo") as [-> | Ht'];
          [congruence |].
        now destruct (Step2_More.data_itemtype el).
    + exact IH.
Qed.

Lemma findInventoryItems_nil (targetDataType : option string)
    (inventory : option (list Step2_More.InventoryElement)) :
  Step2_More.selector_value targetDataType <> "127rifleammo"%string ->
  Step2_More.findInventoryItems targetDataType inventory = [].
Proof.
  intros Hsel. apply String.eqb_neq in Hsel.
  unfold Step2_More.findInventoryItems.
  destruct inventory as [descendants|]; [| reflexivity].
  apply collect_no_target.
  apply List.Forall_forall. intros el Hel.
  destruct (Step2_More.is_target el) eqn:Ht; [| reflexivity].
  pose proof (filter_filter_target
                (Step2_More.selector_value targetDataType) descendants) as Hf.
  rewrite Hsel in Hf.
  assert (Hin : In el (@nil Step2_More.InventoryElement)); [| contradiction].
  rewrite <- Hf. apply List.filter_In. now split.
Qed.

(** X20. [findInventoryItems] returns the stacks of 12.7mm rounds of the
    inventory table, with quantity 1 where none is given, only when
    [CONFIG.targetDataType] is ["127rifleammo"].  For every other value,
    and for a [CONFIG] without that key as shipped (the selector then asks
    for [data-type="undefined"]), it returns nothing, whatever the
    inventory holds. *)
Theorem findInventoryItems_needs_targetDataType
    (targetDataType : option string)
    (inventory : option (list Step2_More.InventoryElement)) :
  let found := Step2_More.findInventoryItems targetDataType inventory in
  (if String.eqb (Step2_More.selector_value targetDataType) "127rifleammo"
   then map Step2_More.element found
        = List.filter Step2_More.is_target
            (match inventory with Some l => l | None => [] end)
   else found = [])
  /\ Forall (fun t => Step2_More.quantity t
                      = match Step2_More.data_quantity (Step2_More.element t) with
                        | Some q => q
                        | None => 1
                        end) found.
Proof.
  cbv zeta.
  destruct (String.eqb_spec (Step2_More.selector_value targetDataType)
              "127rifleammo") as [Hsel | Hsel].
  - unfold Step2_More.findInventoryItems.
    destruct inventory as [descendants|]; [| split; [reflexivity | constructor]].
    destruct (collect_elements
                (List.filter
                   (fun el => match Step2_More.data_type el with
                              | Some t => String.eqb t
                                            (Step2_More.selector_value targetDataType)
                              | None => false
                              end) descendants) 0%nat) as [Hm Hq].
    split; [| exact Hq].
    rewrite Hm, filter_filter_target, Hsel. reflexivity.
  - rewrite (findInventoryItems_nil targetDataType inventory Hsel).
    split; [reflexivity | constructor].
Qed.

(** X21. When auto-sell is on and the inventory list is not empty,
    [autoSellItems] deals with the first item only: the rest of the list
    does not matter.  It records exactly one outcome in the statistics,
    and sends the page to the reload address exactly when the sale
    succeeded.  With auto-sell off or an empty list it changes nothing. *)
Theorem autoSellItems_sells_first_only (cfg : Config) (url : string)
    (localStorage : LocalStorage) (now : Z)
    (sellItem : Step2_More.TargetItem -> bool)
    (item : Step2_More.TargetItem) (rest : list Step2_More.TargetItem) :
  Step2_More.autoSellItems cfg url localStorage now sellItem []
  = (Step2_More.nothing_sold, localStorage, None)
  /\ (autoSell cfg = false ->
      Step2_More.autoSellItems cfg url localStorage now sellItem (item :: rest)
      = (Step2_More.nothing_sold, localStorage, None))
  /\ (autoSell cfg = true ->
      let '(r, ls, href) :=
        Step2_More.autoSellItems cfg url localStorage now sellItem
          (item :: rest) in
      (r, ls, href)
      = Step2_More.autoSellItems cfg url localStorage now sellItem [item]
      /\ (Step2_More.success r + Step2_More.failed r = 1)%nat
      /\ Step2_More.needsReload r = sellItem item
      /\ href = (if sellItem item
                 then Some (Step2_More.reloadUrl url) else None)
      /\ totalSuccess (getSalesStats ls) + totalFailed (getSalesStats ls)
         = totalSuccess (getSalesStats localStorage)
           + totalFailed (getSalesStats localStorage) + 1
      /\ lastSaleTime (getSalesStats ls) = now).
Proof.
  unfold Step2_More.autoSellItems.
  split; [| split].
  - now destruct (negb (autoSell cfg)).
  - now intros ->.
  - intros ->. cbn [negb orb length Nat.eqb].
    destruct (sellItem item); cbv beta iota zeta;
      rewrite !stats_after_update; cbv zeta;
      cbn [Step2_More.success Step2_More.failed Step2_More.needsReload
           totalSuccess totalFailed lastSaleTime];
      repeat split; lia.
Qed.

Lemma autoSellItems_sells_first_only_witness :
  autoSell CONFIG = true
  /\ Step2_More.autoSellItems CONFIG Step2_More.marketplaceUrl ∅ 1000
       Step2_More_Inputs.always_sold
       [Step2_More_Inputs.ammo_item; Step2_More_Inputs.ammo_item]
     = Step2_More.autoSellItems CONFIG Step2_More.marketplaceUrl ∅ 1000
         Step2_More_Inputs.always_sold [Step2_More_Inputs.ammo_item].
Proof.
  split; [reflexivity |].
  pose proof (autoSellItems_sells_first_only CONFIG Step2_More.marketplaceUrl
                ∅ 1000 Step2_More_Inputs.always_sold
                Step2_More_Inputs.ammo_item [Step2_More_Inputs.ammo_item]) as H.
  destruct H as (_ & _ & H). specialize (H eq_refl).
  destruct (Step2_More.autoSellItems _ _ _ _ _
              [Step2_More_Inputs.ammo_item; Step2_More_Inputs.ammo_item])
    as [[r ls] href].
  exact (proj1 H).
Defined.

(** X22. With a [CONFIG] that lacks [targetDataType], as shipped, or sets
    it to anything but ["127rifleammo"], steps 4 and 7 of [executeStep2]
    sell nothing: no result, no navigation, and the statistics stay as
    they were. *)
Theorem executeStep2_sells_nothing (cfg : Config)
    (targetDataType : option string) (url : string)
    (inventory : option (list Step2_More.InventoryElement))
    (localStorage : LocalStorage) (now : Z)
    (sellItem : Step2_More.TargetItem -> bool) :
  Step2_More.selector_value targetDataType <> "127rifleammo"%string ->
  Step2_More.executeStep2_sell cfg targetDataType url inventory
    localStorage now sellItem
  = (None, localStorage, None).
Proof.
  intros Hsel. unfold Step2_More.executeStep2_sell.
  rewrite (findInventoryItems_nil targetDataType inventory Hsel).
  simpl. now rewrite andb_false_r.
Qed.

Lemma executeStep2_sells_nothing_witness :
  Step2_More.executeStep2_sell CONFIG None Step2_More.marketplaceUrl
    (Some [Step2_More_Inputs.ammo_stack]) ∅ 1000 Step2_More_Inputs.always_sold
  = (None, ∅, None).
Proof.
  apply executeStep2_sells_nothing. discriminate.
Defined.

(** X23. With [removeDecimalFromTotal] set, [autoSellItems] keeps the
    recorded total income a whole number: if [totalValue] is an integer
    before the call, it is one afterwards. *)
Theorem total_income_stays_integer (cfg : Config) (url : string)
    (localStorage : LocalStorage) (now : Z)
    (sellItem : Step2_More.TargetItem -> bool)
    (items : list Step2_More.TargetItem) :
  removeDecimalFromTotal cfg = true ->
  Step2_More.is_integer (totalValue (getSalesStats localStorage)) ->
  Step2_More.is_integer
    (totalValue
       (getSalesStats
          (snd (fst (Step2_More.autoSellItems cfg url localStorage now
                       sellItem items))))).
Proof.
  intros Hrm [z Hz]. unfold Step2_More.autoSellItems.
  destruct (negb (autoSell cfg) || (length items =? 0)%nat);
    [exists z; exact Hz |].
  destruct items as [|item rest]; [exists z; exact Hz |].
  destruct (sellItem item); cbn [fst snd];
    rewrite stats_after_update; cbv zeta; cbn [totalValue].
  - unfold calculateSellPrice. rewrite Hrm. cbn [totalPrice].
    eexists (z + _). rewrite inject_Z_plus, Hz. reflexivity.
  - exists z. exact Hz.
Qed.

Lemma total_income_stays_integer_witness :
  Step2_More.is_integer
    (totalValue
       (getSalesStats
          (snd (fst (Step2_More.autoSellItems CONFIG Step2_More.marketplaceUrl
                       ∅ 1000 Step2_More_Inputs.always_sold
                       [Step2_More_Inputs.ammo_item]))))).
Proof.
  apply total_income_stays_integer.
  - reflexivity.
  - exists 0. reflexivity.
Defined.

(** ** The mouse target *)

(** X24. The point [simulateMouseMovement] aims at lies inside the
    element: for an offset range between 0 and 1 and draws in [0, 1) it
    is within the bounding rectangle, for every rectangle. *)
Theorem mouse_target_inside_element (mouseOffset : Q)
    (rect : Step2_More.Rect) (rndX rndY : Q) :
  (0 <= Step2_More.width rect)%Q -> (0 <= Step2_More.height rect)%Q ->
  (0 <= mouseOffset <= 1)%Q ->
  (0 <= rndX < 1)%Q -> (0 <= rndY < 1)%Q ->
  let '(x, y) := Step2_More.simulateMouseMovement mouseOffset rect rndX rndY in
  (Step2_More.left rect <= x <= Step2_More.left rect + Step2_More.width rect)%Q
  /\ (Step2_More.top rect <= y <= Step2_More.top rect + Step2_More.height rect)%Q.
Proof.
  intros Hw Hh [Ho0 Ho1] [Hx0 Hx1] [Hy0 Hy1].
  unfold Step2_More.simulateMouseMovement. cbv beta iota zeta.
  set (l := Step2_More.left rect). set (t := Step2_More.top rect).
  set (w := Step2_More.width rect) in *.
  set (h := Step2_More.height rect) in *.
  assert (Ew : (w / 2 == w * (1 # 2))%Q) by (unfold Qdiv; reflexivity).
  assert (Eh : (h / 2 == h * (1 # 2))%Q) by (unfold Qdiv; reflexivity).
  rewrite Ew, Eh.
  assert (Aw0 : (0 <= w * mouseOffset)%Q) by now apply Qmult_le_0_compat.
  assert (Ah0 : (0 <= h * mouseOffset)%Q) by now apply Qmult_le_0_compat.
  assert (Aw1 : (mouseOffset * w <= 1 * w)%Q) by now apply Qmult_le_compat_r.
  assert (Ah1 : (mouseOffset * h <= 1 * h)%Q) by now apply Qmult_le_compat_r.
  assert (Bx0 : (0 <= rndX * (w * mouseOffset))%Q)
    by now apply Qmult_le_0_compat.
  assert (By0 : (0 <= rndY * (h * mouseOffset))%Q)
    by now apply Qmult_le_0_compat.
  assert (Bx1 : (rndX * (w * mouseOffset) <= 1 * (w * mouseOffset))%Q)
    by (apply Qmult_le_compat_r; [now apply Qlt_le_weak | exact Aw0]).
  assert (By1 : (rndY * (h * mouseOffset) <= 1 * (h * mouseOffset))%Q)
    by (apply Qmult_le_compat_r; [now apply Qlt_le_weak | exact Ah0]).
  repeat split; lra.
Qed.

Lemma mouse_target_inside_element_witness :
  (10 <= fst (Step2_More.simulateMouseMovement (3 # 10)
                Step2_More_Inputs.button_rect (9 # 10) (1 # 10)) <= 110)%Q.
Proof.
  pose proof (mouse_target_inside_element (3 # 10)
                Step2_More_Inputs.button_rect (9 # 10) (1 # 10)) as H.
  destruct (Step2_More.simulateMouseMovement (3 # 10)
              Step2_More_Inputs.button_rect (9 # 10) (1 # 10)) as [x y].
  destruct H as [Hx _].
  - vm_compute. discriminate.
  - vm_compute. discriminate.
  - split; vm_compute; discriminate.
  - split; [vm_compute; discriminate | reflexivity].
  - split; [vm_compute; discriminate | reflexivity].
  - exact Hx.
Defined.

(** ** Typing *)

Lemma append_assoc (a b c : string) :
  ((a +:+ b) +:+ c = a +:+ (b +:+ c))%string.
Proof.
  induction a as [|x a IH]; [reflexivity |].
  change (String x ((a +:+ b) +:+ c) = String x (a +:+ (b +:+ c)))%string.
  now rewrite IH.
Qed.

Lemma append_empty (a : string) : (a +:+ "" = a)%string.
Proof.
  induction a as [|x a IH]; [reflexivity |].
  change (String x (a +:+ "") = String x a)%string.
  now rewrite IH.
Qed.

Lemma typing_loop_spec (speed : Step2_More.TypingSpeed)
    (draws : Step2_More.TypingDraws) (rest : string) :
  forall i value,
    fst (Step2_More.typing_loop speed draws i rest value) = (value +:+ rest)%string
    /\ Step2_More.keys_down (snd (Step2_More.typing_loop speed draws i rest value))
       = map Step2_More.KeyChar (list_ascii_of_string rest).
Proof.
  induction rest as [|c rest IH]; intros i value; simpl.
  - split; [| reflexivity]. symmetry. apply append_empty.
  - specialize (IH (S i) (value +:+ String c "")%string).
    destruct (Step2_More.typing_loop speed draws (S i) rest _) as [v evs].
    simpl in IH |- *. destruct IH as [Hv Hk].
    split; [| now rewrite Hk].
    rewrite Hv. apply append_assoc.
Qed.

Lemma keys_down_app (a b : list Step2_More.TypingEvent) :
  Step2_More.keys_down (a ++ b)
  = Step2_More.keys_down a ++ Step2_More.keys_down b.
Proof. apply flat_map_app. Qed.

(** X25. [simulateTyping] leaves the field holding exactly the text,
    whatever it held before, and presses exactly the keys of the text, in
    order: the Backspace loop never runs, because the field has already
    been emptied when its length is read. *)
Theorem simulateTyping_types_the_text (cfg : Config) (st : Pacing)
    (speed : Step2_More.TypingSpeed) (draws : Step2_More.TypingDraws)
    (value text : string) :
  let r := Step2_More.simulateTyping cfg st speed draws value text in
  fst r = text
  /\ Step2_More.keys_down (snd r)
     = map Step2_More.KeyChar (list_ascii_of_string text)
  /\ ~ In Step2_More.KeyBackspace (Step2_More.keys_down (snd r)).
Proof.
  cbv zeta. unfold Step2_More.simulateTyping. cbn [String.length].
  cbn [Step2_More.backspace_loop].
  destruct (typing_loop_spec speed draws text 0%nat ""%string) as [Hv Hk].
  destruct (Step2_More.typing_loop speed draws 0 text "") as [v typed].
  cbn [fst snd] in *.
  assert (Hkeys : Step2_More.keys_down
                    ([Step2_More.TFocus;
                      Step2_More.TSleep (inject_Z (humanWait cfg st 200 100
                                                     (Step2_More.wait1 draws)));
                      Step2_More.TSelect; Step2_More.TSleep 100]
                     ++ []
                     ++ [Step2_More.TInput; Step2_More.TChange;
                         Step2_More.TSleep (inject_Z (humanWait cfg st 300 200
                                                        (Step2_More.wait2 draws)))]
                     ++ typed
                     ++ [Step2_More.TChange; Step2_More.TBlur;
                         Step2_More.TSleep (inject_Z (humanWait cfg st 300 200
                                                        (Step2_More.wait3 draws)))])
                  = map Step2_More.KeyChar (list_ascii_of_string text)).
  { rewrite !keys_down_app, Hk. cbn [Step2_More.keys_down flat_map app].
    now rewrite app_nil_r. }
  split; [exact Hv |]. split; [exact Hkeys |].
  rewrite Hkeys. intros Hin. apply in_map_iff in Hin as (c & Hc & _).
  discriminate Hc.
Qed.

(** ** Addresses *)

Lemma prefix_app (s1 s2 : string) : String.prefix s1 (s1 +:+ s2) = true.
Proof.
  induction s1 as [|a s1 IH]; simpl.
  - now destruct s2.
  - destruct (Ascii.ascii_dec a a); [exact IH | congruence].
Qed.

Lemma prefix_decompose (s1 s2 : string) :
  String.prefix s1 s2 = true -> exists suf, s2 = (s1 +:+ suf)%string.
Proof.
  revert s2. induction s1 as [|a s1 IH]; intros s2 H.
  - now exists s2.
  - destruct s2 as [|b s2]; simpl in H; [discriminate |].
    destruct (Ascii.ascii_dec a b) as [-> | _]; [| discriminate].
    destruct (IH s2 H) as [suf ->]. now exists suf.
Qed.

Lemma index0_cons (sub : string) (b : ascii) (rest : string) :
  index 0 sub (String b rest)
  = if String.prefix sub (String b rest) then Some 0%nat
    else match index 0 sub rest with
         | Some n => Some (S n)
         | None => None
         end.
Proof. reflexivity. Qed.

Lemma includes_middle (pre sub suf : string) :
  Step1.includes (pre +:+ sub +:+ suf) sub = true.
Proof.
  unfold Step1.includes.
  induction pre as [|c pre IH].
  - change ("" +:+ sub +:+ suf)%string with (sub +:+ suf)%string.
    pose proof (prefix_app sub suf) as Hp.
    destruct (sub +:+ suf)%string as [|b rest] eqn:E.
    + destruct sub; [reflexivity | discriminate E].
    + now rewrite index0_cons, Hp.
  - change (String c pre +:+ sub +:+ suf)%string
      with (String c (pre +:+ sub +:+ suf)).
    rewrite index0_cons.
    destruct (String.prefix sub (String c (pre +:+ sub +:+ suf)));
      [reflexivity |].
    destruct (index 0 sub (pre +:+ sub +:+ suf)); [reflexivity | exact IH].
Qed.

Lemma includes_decompose (text sub : string) :
  Step1.includes text sub = true ->
  exists pre suf, text = (pre +:+ sub +:+ suf)%string.
Proof.
  unfold Step1.includes.
  induction text as [|b text IH].
  - simpl. destruct sub; [| discriminate].
    intros _. now exists ""%string, ""%string.
  - rewrite index0_cons.
    destruct (String.prefix sub (String b text)) eqn:Hp.
    + intros _. apply prefix_decompose in Hp as [suf Hs].
      exists ""%string, suf. exact Hs.
    + destruct (index 0 sub text) eqn:Hi; [| discriminate].
      intros _. destruct (IH eq_refl) as (pre & suf & ->).
      now exists (String b pre), suf.
Qed.

Lemma includes_append (text more sub : string) :
  Step1.includes text sub = true ->
  Step1.includes (text +:+ more) sub = true.
Proof.
  intros H. apply includes_decompose in H as (pre & suf & ->).
  replace ((pre +:+ sub +:+ suf) +:+ more)%string
    with (pre +:+ sub +:+ (suf +:+ more))%string.
  - apply includes_middle.
  - now rewrite !append_assoc.
Qed.

(** X26. For every marketplace address that contains [page=35], the
    reload address [autoSellItems] builds is again a marketplace page and
    is recognised as continue mode, so [navigateToMarketplace] stays
    there; and wherever the browser is, after one [navigateToMarketplace]
    a second call does not redirect again. *)
Theorem reload_address_is_recognised (url href : string) :
  Step2_More.isOnMarketplacePage url = true ->
  Step2_More.isOnMarketplacePage (Step2_More.reloadUrl url) = true
  /\ Step2_More.isContinueSellMode (Step2_More.reloadUrl url) = true
  /\ Step2_More.navigateToMarketplace url (Step2_More.reloadUrl url)
     = (false, Step2_More.reloadUrl url)
  /\ Step2_More.navigateToMarketplace url
       (snd (Step2_More.navigateToMarketplace url href))
     = (false, snd (Step2_More.navigateToMarketplace url href)).
Proof.
  intros Hurl.
  assert (H1 : Step2_More.isOnMarketplacePage (Step2_More.reloadUrl url) = true).
  { unfold Step2_More.isOnMarketplacePage, Step2_More.reloadUrl in *.
    now apply includes_append. }
  split; [exact H1 |]. split; [| split].
  - unfold Step2_More.isContinueSellMode, Step2_More.reloadUrl.
    replace (url +:+ "&auto_sell=continue")%string
      with ((url +:+ "&") +:+ "auto_sell=continue" +:+ "")%string
      by (now rewrite append_assoc).
    apply includes_middle.
  - unfold Step2_More.navigateToMarketplace. now rewrite H1.
  - unfold Step2_More.navigateToMarketplace.
    destruct (Step2_More.isOnMarketplacePage href) eqn:Hh; simpl.
    + now rewrite Hh.
    + now rewrite Hurl.
Qed.

Lemma reload_address_is_recognised_witness :
  Step2_More.isContinueSellMode
    (Step2_More.reloadUrl Step2_More.marketplaceUrl) = true.
Proof.
  refine (proj1 (proj2 (reload_address_is_recognised
                          Step2_More.marketplaceUrl ""%string _))).
  reflexivity.
Defined.

End Step2_Extra.


(** * The price filter on doubles *)

Module Step1_Rounded_Theory.

Import Step1 Step1_More Inputs Rounded_Inputs Step1_Rounded.

(** ** Without rounding the functions are those of [Step1] *)

Lemma scan_exact (cfg : Config) (rows : list FakeItem) :
  forall idx, scan exact cfg idx rows = Step1.scan cfg idx rows.
Proof.
  induction rows as [|item rest IH]; intros idx; simpl; [reflexivity |].
  unfold exact at 1 2. now rewrite IH.
Qed.

Lemma analyzeSearchResults_exact (cfg : Config) (doc : Document) :
  analyzeSearchResults exact cfg doc = Step1.analyzeSearchResults cfg doc.
Proof.
  unfold analyzeSearchResults, Step1.analyzeSearchResults.
  now rewrite scan_exact.
Qed.

Lemma executeStep1_exact (cfg : Config) (before after : Document)
    (world : nat -> Page) :
  executeStep1 exact cfg before after world
  = Step1.executeStep1 cfg before after world.
Proof.
  unfold executeStep1, Step1.executeStep1.
  now rewrite analyzeSearchResults_exact.
Qed.

(** ** The rounding of the script *)

Lemma round_half_even_near (num den : Z) :
  0 < den ->
  Z.abs (2 * (JS.round_half_even num den * den) - 2 * num) <= den.
Proof.
  intros Hden. unfold JS.round_half_even.
  pose proof (Z.div_mod num den ltac:(lia)) as Hdm.
  pose proof (Z.mod_pos_bound num den Hden) as Hr.
  set (q := num / den) in *. set (r := num mod den) in *.
  destruct (Z.compare_spec (2 * r) den) as [He | Hl | Hg].
  - destruct (Z.even q); nia.
  - nia.
  - nia.
Qed.

Lemma leading_bit_below (a d : Z) :
  0 < a -> 0 < d ->
  (0 <= JS.leading_bit a d -> d * 2 ^ JS.leading_bit a d <= a)
  /\ (JS.leading_bit a d < 0 -> d <= a * 2 ^ (- JS.leading_bit a d)).
Proof.
  intros Ha Hd. unfold JS.leading_bit.
  destruct (Z.log2_spec a Ha) as [Hal _].
  destruct (Z.log2_spec d Hd) as [_ Hdu].
  pose proof (Z.log2_nonneg a) as Hla. pose proof (Z.log2_nonneg d) as Hld.
  set (la := Z.log2 a) in *. set (ld := Z.log2 d) in *.
  destruct (0 <=? la - ld) eqn:Hl.
  - apply Z.leb_le in Hl.
    destruct (d * 2 ^ (la - ld) <=? a) eqn:Ht.
    + apply Z.leb_le in Ht. split; [intros _; exact Ht | lia].
    + split.
      * intros Hn.
        assert (H2 : 2 ^ la = 2 ^ (ld + 1) * 2 ^ (la - ld - 1)).
        { rewrite <- Z.pow_add_r by lia. f_equal. lia. }
        assert (Hp : 0 < 2 ^ (la - ld - 1)) by (apply Z.pow_pos_nonneg; lia).
        replace (Z.succ ld) with (ld + 1) in Hdu by lia.
        nia.
      * intros Hn. assert (Heq : la = ld) by lia.
        replace (- (la - ld - 1)) with 1 by lia.
        replace (Z.succ ld) with (ld + 1) in Hdu by lia.
        rewrite Z.pow_add_r in Hdu by lia. rewrite Heq in Hal.
        change (2 ^ 1) with 2 in *. lia.
  - apply Z.leb_gt in Hl.
    destruct (d <=? a * 2 ^ (- (la - ld))) eqn:Ht.
    + apply Z.leb_le in Ht. split; [lia | intros _; exact Ht].
    + split; [lia |]. intros _.
      assert (H2 : 2 ^ (ld + 1) = 2 ^ la * 2 ^ (- (la - ld - 1))).
      { rewrite <- Z.pow_add_r by lia. f_equal. lia. }
      replace (Z.succ ld) with (ld + 1) in Hdu by lia.
      assert (Hp : 0 < 2 ^ (- (la - ld - 1))) by (apply Z.pow_pos_nonneg; lia).
      nia.
Qed.

Lemma nearest_accurate (a : Z) (d : positive) :
  0 < a ->
  (Qabs (JS.nearest a (Zpos d) - (a # d)) <= (1 # 2 ^ 53) * (a # d))%Q.
Proof.
  intros Ha.
  destruct (leading_bit_below a (Zpos d) Ha ltac:(lia)) as [Hge Hlt].
  unfold JS.nearest.
  set (lead := JS.leading_bit a (Zpos d)) in *.
  pose proof (Pos2Z.is_pos d) as HD.
  set (D := Zpos d) in *.
  destruct (0 <=? lead - 52) eqn:He.
  - apply Z.leb_le in He.
    specialize (Hge ltac:(lia)).
    pose proof (round_half_even_near a (D * 2 ^ (lead - 52))) as Hm.
    assert (Hp : 0 < 2 ^ (lead - 52)) by (apply Z.pow_pos_nonneg; lia).
    specialize (Hm ltac:(nia)).
    set (m := JS.round_half_even a (D * 2 ^ (lead - 52))) in *.
    assert (H2 : 2 ^ lead = 2 ^ (lead - 52) * 2 ^ 52).
    { rewrite <- Z.pow_add_r by lia. f_equal. lia. }
    set (p := 2 ^ (lead - 52)) in *.
    change (2 ^ 52) with 4503599627370496 in H2.
    assert (Ht : Z.abs (m * p * D - a) * 9007199254740992 <= a).
    { rewrite H2 in Hge.
      replace (2 * (m * (D * p)) - 2 * a) with (2 * (m * p * D - a)) in Hm
        by ring.
      set (t := m * p * D - a) in *. lia. }
    apply Qabs_Qle_condition.
    unfold Qle, Qminus, Qplus, Qopp, Qmult, inject_Z. cbn [Qnum Qden].
    rewrite ?Pos2Z.inj_mul. change (Z.pos (2 ^ 53)) with 9007199254740992.
    fold D. set (t := m * p * D - a) in *.
    replace (m * p * D + - a * 1) with t by (unfold t; ring).
    nia.
  - apply Z.leb_gt in He.
    pose proof (round_half_even_near (a * 2 ^ (- (lead - 52))) D HD) as Hm.
    assert (Hp : 0 < 2 ^ (- (lead - 52))) by (apply Z.pow_pos_nonneg; lia).
    set (m := JS.round_half_even (a * 2 ^ (- (lead - 52))) D) in *.
    set (p := 2 ^ (- (lead - 52))) in *.
    assert (Hlow : D * 4503599627370496 <= a * p).
    { destruct (Z_lt_le_dec lead 0) as [Hneg | Hnn].
      - specialize (Hlt Hneg).
        assert (H2 : p = 2 ^ (- lead) * 2 ^ 52).
        { unfold p. rewrite <- Z.pow_add_r by lia. f_equal. lia. }
        change (2 ^ 52) with 4503599627370496 in H2.
        rewrite H2. nia.
      - specialize (Hge Hnn).
        assert (H2 : 2 ^ lead * p = 2 ^ 52).
        { unfold p. rewrite <- Z.pow_add_r by lia. f_equal. lia. }
        change (2 ^ 52) with 4503599627370496 in H2.
        assert (Hq : 0 < 2 ^ lead) by (apply Z.pow_pos_nonneg; lia).
        nia. }
    assert (Ht : Z.abs (m * D - a * p) * 9007199254740992 <= a * p).
    { replace (2 * (m * D) - 2 * (a * p)) with (2 * (m * D - a * p)) in Hm
        by ring.
      set (t := m * D - a * p) in *. lia. }
    apply Qabs_Qle_condition.
    unfold Qle, Qminus, Qplus, Qopp, Qmult. cbn [Qnum Qden].
    rewrite ?Pos2Z.inj_mul. change (Z.pos (2 ^ 53)) with 9007199254740992.
    rewrite Z2Pos.id by exact Hp.
    fold D. set (t := m * D - a * p) in *.
    replace (m * D + - a * p) with t by (unfold t; ring).
    nia.
Qed.

(** The relative error of [JS.binary64] is at most 2^-53. *)
Lemma binary64_accurate : accurate JS.binary64 unit_roundoff.
Proof.
  intros [n d]. unfold JS.binary64. cbn [Qnum Qden]. unfold unit_roundoff.
  destruct n as [|p|p].
  - cbv zeta. change (Z.abs 0 =? 0) with true. cbv iota.
    unfold Qle, Qabs, Qminus, Qplus, Qopp, Qmult. cbn [Qnum Qden Z.abs].
    change (- 0) with 0. change (Z.abs 0) with 0.
    rewrite !Z.mul_0_l. change (Z.abs (0 + 0)) with 0.
    reflexivity.
  - change (Z.abs (Z.pos p) =? 0) with false.
    change (Z.pos p <? 0) with false. cbv iota zeta.
    change (Z.abs (Z.pos p)) with (Z.pos p).
    change (Qabs (Z.pos p # d)) with (Z.pos p # d).
    apply nearest_accurate. lia.
  - change (Z.abs (Z.neg p) =? 0) with false.
    change (Z.neg p <? 0) with true. cbv iota zeta.
    change (Z.abs (Z.neg p)) with (Z.pos p).
    change (Qabs (Z.neg p # d)) with (Z.pos p # d).
    assert (H : (- JS.nearest (Z.pos p) (Z.pos d) - (Z.neg p # d)
                 == - (JS.nearest (Z.pos p) (Z.pos d) - (Z.pos p # d)))%Q).
    { change (Z.neg p # d) with (- (Z.pos p # d))%Q. ring. }
    rewrite H, Qabs_opp.
    apply nearest_accurate. lia.
Qed.

(** ** The rounding of the script, at the ceiling *)

(** 104.40 / 9 is computed as 11.600000000000001, above the ceiling: the
    scan stops at the first row and selects nothing. *)
Example dear_by_rounding :
  Qle_bool (unit_price JS.binary64 (double_offer (1044 # 10) 9))
           (maxPricePerUnit CONFIG) = false
  /\ items (analyzeSearchResults JS.binary64 CONFIG ceiling_page') = [].
Proof. split; vm_compute; reflexivity. Qed.

(** 81.2 / 7 is computed as 11.6: the row is selected, also by the first
    version of the script, which does not stop at the row before it. *)
Example affordable_by_rounding :
  Qle_bool (unit_price JS.binary64 (double_offer (812 # 10) 7))
           (maxPricePerUnit CONFIG) = true
  /\ map index (items (analyzeSearchResults JS.binary64 CONFIG ceiling_page))
     = [1%nat]
  /\ map index0 (items0 (analyzeSearchResults0 JS.binary64
                           (maxPricePerUnit CONFIG) ceiling_page'))
     = [2%nat].
Proof. repeat split; vm_compute; reflexivity. Qed.

(** ** What is selected *)

Lemma rounded_scan_sound (fl : Q -> Q) (cfg : Config) (rows : list FakeItem) :
  forall idx d,
    In d (scan fl cfg idx rows) ->
    (idx < index d)%nat
    /\ nth_error rows (index d - 1 - idx) = Some (element d)
    /\ price d = price_of (element d)
    /\ quantity d = quantity_of (element d)
    /\ actualPrice d = price_of (element d)
    /\ actualPricePerUnit d = unit_price fl (element d)
    /\ (unit_price fl (element d) <= maxPricePerUnit cfg)%Q.
Proof.
  induction rows as [|item rest IH]; intros idx d Hin; simpl in Hin.
  - contradiction.
  - destruct (Qle_bool _ _) eqn:Hle; simpl in Hin; [| contradiction].
    destruct Hin as [<- | Hin].
    + simpl. replace (idx + 1 - 1 - idx)%nat with 0%nat by lia.
      repeat split; try reflexivity; [lia | now apply Qle_bool_iff].
    + destruct (IH _ _ Hin) as (Hi & Hn & Hrest).
      split; [lia |]. split; [| exact Hrest].
      replace (index d - 1 - idx)%nat with (S (index d - 1 - S idx)) by lia.
      exact Hn.
Qed.

Lemma nth_error_firstn_Some {A} (k n : nat) (l : list A) (x : A) :
  nth_error (firstn k l) n = Some x -> nth_error l n = Some x.
Proof.
  rewrite nth_error_firstn. destruct (n <? k)%nat; [trivial | discriminate].
Qed.

(** C1. Every offer that [analyzeSearchResults] selects is one of the
    result rows, entered with the price and the quantity of that row, and
    its unit price, the price divided by the quantity as the script
    computes it, is at most [CONFIG.maxPricePerUnit]. *)
Theorem selected_within_ceiling (fl : Q -> Q) (cfg : Config) (doc : Document)
    (d : Deal) :
  In d (items (analyzeSearchResults fl cfg doc)) ->
  (1 <= index d)%nat
  /\ nth_error (fakeItems doc) (index d - 1) = Some (element d)
  /\ price d = price_of (element d)
  /\ quantity d = quantity_of (element d)
  /\ actualPrice d = price d
  /\ actualPricePerUnit d = fl (price d / inject_Z (quantity d))%Q
  /\ (actualPricePerUnit d <= maxPricePerUnit cfg)%Q.
Proof.
  unfold analyzeSearchResults.
  destruct (itemDisplay doc) as [n|]; [destruct (n <=? 0)%nat |]; simpl;
    try contradiction.
  intros Hin.
  destruct (rounded_scan_sound fl cfg _ _ _ Hin)
    as (Hi & Hn & Hp & Hq & Ha & Hu & Hle).
  rewrite Nat.sub_0_r in Hn. apply nth_error_firstn_Some in Hn.
  rewrite Hu, Hp, Hq, Ha.
  repeat split; try assumption; try reflexivity; lia.
Qed.

Lemma selected_within_ceiling_witness :
  In ceiling_deal (items (analyzeSearchResults JS.binary64 CONFIG ceiling_page))
  /\ nth_error (fakeItems ceiling_page) 0 = Some (element ceiling_deal)
  /\ (actualPricePerUnit ceiling_deal <= maxPricePerUnit CONFIG)%Q.
Proof.
  assert (H : In ceiling_deal
                (items (analyzeSearchResults JS.binary64 CONFIG ceiling_page))).
  { vm_compute. left. reflexivity. }
  split; [exact H |].
  destruct (selected_within_ceiling JS.binary64 CONFIG ceiling_page
              ceiling_deal H) as (_ & Hn & _ & _ & _ & _ & Hle).
  split; [exact Hn | exact Hle].
Defined.

(** ** The selection is a prefix of the rows *)

Lemma rounded_scan_length (fl : Q -> Q) (cfg : Config) (rows : list FakeItem) :
  forall idx, (length (scan fl cfg idx rows) <= length rows)%nat.
Proof.
  induction rows as [|item rest IH]; intros idx; simpl.
  - lia.
  - destruct (Qle_bool _ _); simpl; [specialize (IH (S idx)) |]; lia.
Qed.

Lemma rounded_scan_elements (fl : Q -> Q) (cfg : Config)
    (rows : list FakeItem) :
  forall idx,
    map element (scan fl cfg idx rows)
    = firstn (length (scan fl cfg idx rows)) rows.
Proof.
  induction rows as [|item rest IH]; intros idx; simpl.
  - reflexivity.
  - destruct (Qle_bool _ _); simpl; [now rewrite <- IH | reflexivity].
Qed.

Lemma rounded_scan_indices (fl : Q -> Q) (cfg : Config)
    (rows : list FakeItem) :
  forall idx,
    map index (scan fl cfg idx rows)
    = seq (idx + 1) (length (scan fl cfg idx rows)).
Proof.
  induction rows as [|item rest IH]; intros idx; simpl.
  - reflexivity.
  - destruct (Qle_bool _ _); simpl; [| reflexivity].
    rewrite IH. now replace (S idx + 1)%nat with (S (idx + 1)) by lia.
Qed.

Lemma rounded_scan_affordable (fl : Q -> Q) (cfg : Config)
    (rows : list FakeItem) :
  forall idx,
    Forall (fun item => (unit_price fl item <= maxPricePerUnit cfg)%Q)
           (map element (scan fl cfg idx rows)).
Proof.
  induction rows as [|item rest IH]; intros idx; simpl.
  - constructor.
  - destruct (Qle_bool _ _) eqn:Hle; simpl; [| constructor].
    constructor; [now apply Qle_bool_iff | apply IH].
Qed.

Lemma rounded_scan_stop (fl : Q -> Q) (cfg : Config) (rows : list FakeItem) :
  forall idx item,
    nth_error rows (length (scan fl cfg idx rows)) = Some item ->
    Qle_bool (unit_price fl item) (maxPricePerUnit cfg) = false.
Proof.
  induction rows as [|item rest IH]; intros idx it Hn; simpl in Hn.
  - discriminate.
  - destruct (Qle_bool _ _) eqn:Hle; simpl in Hn.
    + exact (IH _ _ Hn).
    + injection Hn as <-. exact Hle.
Qed.

(** The scan reads the rows it selects and the one it stops at. *)
Lemma rounded_scan_reads (fl : Q -> Q) (cfg : Config) (rows : list FakeItem) :
  forall idx rows',
    firstn (S (length (scan fl cfg idx rows))) rows'
    = firstn (S (length (scan fl cfg idx rows))) rows ->
    scan fl cfg idx rows' = scan fl cfg idx rows.
Proof.
  induction rows as [|item rest IH]; intros idx rows' H; simpl in H |- *.
  - destruct rows'; [reflexivity | discriminate H].
  - destruct (Qle_bool _ _) eqn:Hle; simpl in H;
      (destruct rows' as [|item' rest']; [discriminate H |]); simpl in H.
    + injection H as -> H. simpl. rewrite Hle. f_equal. now apply IH.
    + injection H as ->. simpl. now rewrite Hle.
Qed.

Lemma rows_to_check (cfg : Config) (rows : list FakeItem) :
  Z.to_nat (Z.min (Z.of_nat (length rows)) (maxRows cfg))
  = Nat.min (length rows) (Z.to_nat (maxRows cfg)).
Proof. lia. Qed.

(** X1. The selection of [analyzeSearchResults] is the longest run of
    affordable rows at the head of the result list: its elements are the
    first [count] rows, numbered 1 to [count]; each of them has a computed
    unit price of at most the ceiling; when the scan stops before the row
    limit, the computed unit price of the next row is above the ceiling;
    and the rows after that one are not looked at: replacing them changes
    nothing. *)
Theorem selection_is_affordable_prefix (fl : Q -> Q) (cfg : Config)
    (doc : Document) :
  let r := analyzeSearchResults fl cfg doc in
  map element (items r) = firstn (count r) (fakeItems doc)
  /\ map index (items r) = seq 1 (count r)
  /\ Forall (fun item => (unit_price fl item <= maxPricePerUnit cfg)%Q)
            (firstn (count r) (fakeItems doc))
  /\ (forall childNodes item,
        itemDisplay doc = Some childNodes -> (0 < childNodes)%nat ->
        Z.of_nat (count r) < maxRows cfg ->
        nth_error (fakeItems doc) (count r) = Some item ->
        (maxPricePerUnit cfg < unit_price fl item)%Q)
  /\ (forall rows',
        firstn (S (count r)) rows' = firstn (S (count r)) (fakeItems doc) ->
        analyzeSearchResults fl cfg (with_rows doc rows') = r).
Proof.
  cbv zeta. unfold analyzeSearchResults. cbn [with_rows itemDisplay fakeItems].
  destruct (itemDisplay doc) as [n|]; [destruct (n <=? 0)%nat eqn:Hn |];
    cbn [items count].
  - repeat split; try constructor.
    intros c item Hc Hpos. injection Hc as <-.
    apply Nat.leb_le in Hn. lia.
  - rewrite rows_to_check.
    set (rows := fakeItems doc).
    set (k := Nat.min (length rows) (Z.to_nat (maxRows cfg))).
    pose proof (rounded_scan_length fl cfg (firstn k rows) 0%nat) as Hlen.
    rewrite length_firstn in Hlen.
    assert (Hel : map element (scan fl cfg 0 (firstn k rows))
                  = firstn (length (scan fl cfg 0 (firstn k rows))) rows).
    { rewrite rounded_scan_elements, firstn_firstn. f_equal. lia. }
    split; [exact Hel |].
    split; [apply (rounded_scan_indices fl cfg _ 0%nat) |].
    split; [rewrite <- Hel; apply rounded_scan_affordable |].
    split.
    + intros _ item _ _ Hrows Hnth.
      apply Step1_Extra.Qle_bool_false.
      apply (rounded_scan_stop fl cfg (firstn k rows) 0%nat).
      rewrite nth_error_firstn.
      assert (Hl : (length (scan fl cfg 0 (firstn k rows)) < length rows)%nat).
      { apply nth_error_Some. congruence. }
      destruct (Nat.ltb_spec (length (scan fl cfg 0 (firstn k rows))) k);
        [exact Hnth | lia].
    + intros rows' H.
      rewrite rows_to_check.
      set (k' := Nat.min (length rows') (Z.to_nat (maxRows cfg))).
      set (n0 := length (scan fl cfg 0 (firstn k rows))) in *.
      assert (Hl : Nat.min (S n0) (length rows') = Nat.min (S n0) (length rows)).
      { rewrite <- !length_firstn. now rewrite H. }
      assert (Hk : Nat.min (S n0) k' = Nat.min (S n0) k) by lia.
      assert (Hs : scan fl cfg 0 (firstn k' rows') = scan fl cfg 0 (firstn k rows)).
      { apply rounded_scan_reads. fold n0.
        rewrite !firstn_firstn, Hk.
        replace (firstn (Nat.min (S n0) k) rows')
          with (firstn (Nat.min (S n0) k) (firstn (S n0) rows'))
          by (rewrite firstn_firstn; f_equal; lia).
        replace (firstn (Nat.min (S n0) k) rows)
          with (firstn (Nat.min (S n0) k) (firstn (S n0) rows))
          by (rewrite firstn_firstn; f_equal; lia).
        now rewrite H. }
      now rewrite Hs.
  - repeat split; try constructor. intros c item Hc. discriminate.
Qed.

Lemma selection_is_affordable_prefix_witness :
  (Z.of_nat (count (analyzeSearchResults JS.binary64 CONFIG ceiling_page))
   < maxRows CONFIG)
  /\ nth_error (fakeItems ceiling_page)
       (count (analyzeSearchResults JS.binary64 CONFIG ceiling_page))
     = Some (double_offer (1044 # 10) 9)
  /\ (maxPricePerUnit CONFIG
      < unit_price JS.binary64 (double_offer (1044 # 10) 9))%Q
  /\ analyzeSearchResults JS.binary64 CONFIG
       (with_rows ceiling_page
          [double_offer (812 # 10) 7; double_offer (1044 # 10) 9;
           double_offer 1 1])
     = analyzeSearchResults JS.binary64 CONFIG ceiling_page.
Proof.
  assert (H1 : Z.of_nat (count (analyzeSearchResults JS.binary64 CONFIG
                                  ceiling_page)) < maxRows CONFIG)
    by (vm_compute; reflexivity).
  assert (H2 : nth_error (fakeItems ceiling_page)
                 (count (analyzeSearchResults JS.binary64 CONFIG ceiling_page))
               = Some (double_offer (1044 # 10) 9))
    by (vm_compute; reflexivity).
  destruct (selection_is_affordable_prefix JS.binary64 CONFIG ceiling_page)
    as (_ & _ & _ & Hstop & Hrest).
  split; [exact H1 |]. split; [exact H2 |]. split.
  - refine (Hstop 2%nat (double_offer (1044 # 10) 9) _ _ H1 H2).
    + reflexivity.
    + simpl. lia.
  - apply Hrest. vm_compute. reflexivity.
Defined.

(** ** The first version of the analysis *)

Lemma rounded_scan0_all_dear (fl : Q -> Q) (ceiling : Q)
    (rows : list FakeItem) :
  forall idx,
    Forall (fun item => Qle_bool (unit_price fl item) ceiling = false) rows ->
    scan0 fl ceiling idx rows = [].
Proof.
  induction rows as [|item rest IH]; intros idx Hall; simpl.
  - reflexivity.
  - inversion Hall as [|? ? Hitem Hrest]; subst.
    unfold unit_price in Hitem. rewrite Hitem. now apply IH.
Qed.

Lemma rounded_scan0_sorted (fl : Q -> Q) (cfg : Config)
    (rows : list FakeItem) :
  forall idx,
    StronglySorted (fun a b => (unit_price fl a <= unit_price fl b)%Q) rows ->
    scan0 fl (maxPricePerUnit cfg) idx rows = map forget (scan fl cfg idx rows).
Proof.
  induction rows as [|item rest IH]; intros idx Hs; simpl.
  - reflexivity.
  - inversion Hs as [|? ? Hrest Hhead]; subst.
    destruct (Qle_bool _ _) eqn:Hle; simpl.
    + now rewrite IH.
    + apply rounded_scan0_all_dear.
      eapply Forall_impl; [exact Hhead |].
      intros b Hb. simpl in Hb.
      destruct (Qle_bool (unit_price fl b) (maxPricePerUnit cfg)) eqn:Hb';
        [| reflexivity].
      apply Qle_bool_iff in Hb'.
      apply Step1_Extra.Qle_bool_false in Hle.
      exfalso. apply (Qlt_not_le _ _ Hle).
      eapply Qle_trans; [exact Hb | exact Hb'].
Qed.

(** X3. When the rows come sorted by the unit price the script computes
    for them, cheapest first, and there are at most [maxRows] of them,
    the early [break] loses nothing: the current version selects exactly
    what the first version selects.  (Sorted as the price texts read is
    not enough: see [break_loses_a_row].) *)
Theorem break_is_harmless_when_sorted (fl : Q -> Q) (cfg : Config)
    (doc : Document) :
  StronglySorted (fun a b => (unit_price fl a <= unit_price fl b)%Q)
                 (fakeItems doc) ->
  Z.of_nat (length (fakeItems doc)) <= maxRows cfg ->
  map forget (items (analyzeSearchResults fl cfg doc))
  = items0 (analyzeSearchResults0 fl (maxPricePerUnit cfg) doc).
Proof.
  intros Hs Hrows.
  unfold analyzeSearchResults, analyzeSearchResults0.
  destruct (itemDisplay doc) as [n|]; [destruct (n <=? 0)%nat |]; simpl;
    try reflexivity.
  rewrite firstn_all2 by lia.
  symmetry. now apply rounded_scan0_sorted.
Qed.

Lemma break_is_harmless_when_sorted_witness :
  map forget (items (analyzeSearchResults JS.binary64 CONFIG ceiling_page))
  = items0 (analyzeSearchResults0 JS.binary64 (maxPricePerUnit CONFIG)
              ceiling_page).
Proof.
  apply break_is_harmless_when_sorted.
  - repeat constructor. vm_compute. discriminate.
  - vm_compute. discriminate.
Defined.

(** As their price texts read, the rows of [ceiling_page'] cost 11.6
    apiece both (104.40 for 9, then 81.2 for 7); computed, the first is
    dearer than the second, and there the two versions differ. *)
Example break_loses_a_row :
  map index (items (analyzeSearchResults JS.binary64 CONFIG ceiling_page')) = []
  /\ map index0 (items0 (analyzeSearchResults0 JS.binary64
                            (maxPricePerUnit CONFIG) ceiling_page'))
     = [2%nat].
Proof. split; vm_compute; reflexivity. Qed.

(** A selected offer is a result row with a computed unit price of at
    most the ceiling. *)
Lemma rounded_selected (fl : Q -> Q) (cfg : Config) (doc : Document)
    (d : Deal) :
  In d (items (analyzeSearchResults fl cfg doc)) ->
  nth_error (fakeItems doc) (index d - 1) = Some (element d)
  /\ (unit_price fl (element d) <= maxPricePerUnit cfg)%Q.
Proof.
  unfold analyzeSearchResults.
  destruct (itemDisplay doc) as [n|]; [destruct (n <=? 0)%nat |]; simpl;
    try contradiction.
  intros Hin.
  destruct (rounded_scan_sound fl cfg _ _ _ Hin)
    as (_ & Hn & _ & _ & _ & _ & Hle).
  rewrite Nat.sub_0_r in Hn. apply nth_error_firstn_Some in Hn.
  split; assumption.
Qed.

(** ** What does not depend on the rounding *)

(** On the pages used as examples for the exact functions the unit
    prices are far from the ceiling, and the script's rounding selects
    the same rows. *)
Example away_from_the_ceiling :
  Forall (fun doc =>
            map element (items (analyzeSearchResults JS.binary64 CONFIG doc))
            = map element (items (Step1.analyzeSearchResults Step1.CONFIG doc)))
         [c2_page; c6_page; c8_search_page].
Proof. repeat constructor. Qed.

Lemma rounded_count_le_maxRows (fl : Q -> Q) (cfg : Config) (doc : Document) :
  Z.of_nat (count (analyzeSearchResults fl cfg doc)) <= Z.max 0 (maxRows cfg).
Proof.
  unfold analyzeSearchResults.
  destruct (itemDisplay doc) as [n|]; [destruct (n <=? 0)%nat |]; simpl;
    try lia.
  pose proof (rounded_scan_length fl cfg
    (firstn (Z.to_nat (Z.min (Z.of_nat (length (fakeItems doc))) (maxRows cfg)))
            (fakeItems doc)) 0%nat) as Hlen.
  rewrite length_firstn in Hlen.
  lia.
Qed.

Lemma rounded_scan_scan0 (fl : Q -> Q) (cfg : Config) (rows : list FakeItem) :
  forall idx,
    map forget (scan fl cfg idx rows)
    = firstn (length (scan fl cfg idx rows))
        (scan0 fl (maxPricePerUnit cfg) idx rows).
Proof.
  induction rows as [|item rest IH]; intros idx; simpl.
  - reflexivity.
  - destruct (Qle_bool _ _); simpl; [now rewrite <- IH | reflexivity].
Qed.

Lemma rounded_scan_firstn (fl : Q -> Q) (cfg : Config) (rows : list FakeItem) :
  forall k idx,
    scan fl cfg idx (firstn k rows) = firstn k (scan fl cfg idx rows).
Proof.
  induction rows as [|item rest IH]; intros k idx.
  - now rewrite !firstn_nil.
  - destruct k as [|k]; simpl; [reflexivity |].
    destruct (Qle_bool _ _); simpl; [now rewrite IH | reflexivity].
Qed.

(** Whatever the rounding, the current version selects an initial part of
    what the first version selects. *)
Lemma rounded_prefix_of_first_version (fl : Q -> Q) (cfg : Config)
    (doc : Document) :
  map forget (items (analyzeSearchResults fl cfg doc))
  = firstn (count (analyzeSearchResults fl cfg doc))
      (items0 (analyzeSearchResults0 fl (maxPricePerUnit cfg) doc)).
Proof.
  unfold analyzeSearchResults, analyzeSearchResults0.
  destruct (itemDisplay doc) as [n|]; [destruct (n <=? 0)%nat |]; simpl;
    try reflexivity.
  set (k := Z.to_nat (Z.min (Z.of_nat (length (fakeItems doc))) (maxRows cfg))).
  rewrite rounded_scan_firstn.
  rewrite <- (firstn_map forget), rounded_scan_scan0, firstn_firstn.
  f_equal. rewrite length_firstn. lia.
Qed.

(** The fields of a selected entry, read from its row. *)
Lemma rounded_entry_fields (fl : Q -> Q) (cfg : Config)
    (doc : Document) (d : Deal) :
  In d (items (analyzeSearchResults fl cfg doc)) ->
  price d = price_of (element d)
  /\ quantity d = quantity_of (element d)
  /\ actualPrice d = price_of (element d)
  /\ (unit_price fl (element d) <= maxPricePerUnit cfg)%Q.
Proof.
  unfold analyzeSearchResults.
  destruct (itemDisplay doc) as [n|]; [destruct (n <=? 0)%nat |]; simpl;
    try contradiction.
  intros Hin.
  destruct (rounded_scan_sound fl cfg _ _ _ Hin)
    as (_ & _ & Hp & Hq & Ha & _ & Hle).
  repeat split; assumption.
Qed.

(** What a selected row costs is at most the ceiling times its quantity,
    up to the rounding of the division. *)
Lemma row_price_le_ceiling (fl : Q -> Q) (u : Q) (cfg : Config)
    (item : FakeItem) :
  accurate fl u ->
  0 < quantity_of item ->
  (unit_price fl item <= maxPricePerUnit cfg)%Q ->
  (price_of item - u * Qabs (price_of item)
   <= maxPricePerUnit cfg * inject_Z (quantity_of item))%Q.
Proof.
  intros Hacc Hq Hle. unfold unit_price in Hle.
  set (p := price_of item) in *.
  set (q := inject_Z (quantity_of item)) in *.
  assert (Hpos : (0 < q)%Q).
  { unfold q. rewrite <- (Zlt_Qlt 0). exact Hq. }
  assert (Hne : ~ (q == 0)%Q).
  { intros H0. rewrite H0 in Hpos. discriminate. }
  set (x := (p / q)%Q) in *.
  assert (Hx : (x * q == p)%Q).
  { unfold x. field. exact Hne. }
  assert (Hax : (Qabs x * q == Qabs p)%Q).
  { rewrite <- Hx, Qabs_Qmult.
    rewrite (Qabs_pos q) by now apply Qlt_le_weak.
    reflexivity. }
  specialize (Hacc x).
  apply Qabs_Qle_condition in Hacc. destruct Hacc as [Hlow _].
  assert (Hb : (x - u * Qabs x <= maxPricePerUnit cfg)%Q) by lra.
  apply (Qmult_le_compat_r _ _ q) in Hb; [| now apply Qlt_le_weak].
  assert (Hu : (u * Qabs x * q == u * Qabs p)%Q).
  { rewrite <- Hax. ring. }
  lra.
Qed.

(** With rounding, the total value [printResults] reports exceeds the
    ceiling times the total quantity by the factor [1 / (1 - u)] at
    most. *)
Lemma rounded_total_within_ceiling (fl : Q -> Q) (u : Q) (cfg : Config)
    (doc : Document) :
  accurate fl u -> (0 <= u)%Q -> (u < 1)%Q ->
  let r := analyzeSearchResults fl cfg doc in
  Forall (fun d => 0 < quantity d /\ (0 <= actualPrice d)%Q) (items r) ->
  (totalValue r * (1 - u) <= maxPricePerUnit cfg * inject_Z (totalQuantity r))%Q.
Proof.
  intros Hacc Hu0 Hu1. cbv zeta. intros Hpos.
  set (r := analyzeSearchResults fl cfg doc) in *.
  set (c := (maxPricePerUnit cfg / (1 - u))%Q).
  assert (Hne : ~ (1 - u == 0)%Q) by (intros H0; lra).
  assert (Hc : (c * (1 - u) == maxPricePerUnit cfg)%Q).
  { unfold c. field. exact Hne. }
  assert (Hall : Forall (fun d => (actualPrice d <= c * inject_Z (quantity d))%Q)
                        (items r)).
  { apply List.Forall_forall. intros d Hd.
    rewrite List.Forall_forall in Hpos. destruct (Hpos d Hd) as [Hq Hp].
    assert (Hin : In d (items (analyzeSearchResults fl cfg doc))) by exact Hd.
    destruct (rounded_entry_fields fl cfg doc d Hin)
      as (Hprice & Hquantity & Hactual & Hle).
    rewrite Hquantity in Hq |- *. rewrite Hactual in Hp |- *.
    pose proof (row_price_le_ceiling fl u cfg _ Hacc Hq Hle) as Hrow.
    rewrite (Qabs_pos _ Hp) in Hrow.
    set (p := price_of (element d)) in *.
    set (q := inject_Z (quantity_of (element d))) in *.
    assert (Hcq : (c * q * (1 - u) == maxPricePerUnit cfg * q)%Q).
    { rewrite <- Hc. ring. }
    assert (H1 : (p * (1 - u) <= c * q * (1 - u))%Q) by lra.
    apply Qmult_lt_0_le_reg_r in H1; [exact H1 | lra]. }
  assert (Htot : (totalValue r <= c * inject_Z (totalQuantity r))%Q).
  { unfold totalValue, totalQuantity.
    apply Step1_Extra.totals_fold; [| exact Hall].
    change (inject_Z 0) with 0%Q. rewrite Qmult_0_r. apply Qle_refl. }
  apply (Qmult_le_compat_r _ _ (1 - u)) in Htot; [| lra].
  assert (Hcq : (c * inject_Z (totalQuantity r) * (1 - u)
                 == maxPricePerUnit cfg * inject_Z (totalQuantity r))%Q).
  { rewrite <- Hc. ring. }
  lra.
Qed.

End Step1_Rounded_Theory.

(** * Buying and selling together *)

Module Trading_Extra.

Import Step1_Rounded.

Lemma exact_is_accurate : accurate exact 0.
Proof.
  intros x. unfold exact.
  assert (H : (x - x == 0)%Q) by ring.
  rewrite H, Qmult_0_l. apply Qle_refl.
Qed.

(** X27. An offer selected by the searcher and then sold by the seller
    is not sold at a loss when the quantity is large enough to cover the
    roundings: if the sell price times the quantity exceeds the buying
    ceiling times the quantity by at least 1, plus the rounding error of
    the division ([u] times the price; nothing without rounding), then
    the listed total is at least the price of the row that was bought.
    As shipped (11.66 against 11.6) this holds from 17 pieces on, see
    [shipped_round_trip]. *)
Theorem round_trip_is_not_a_loss (fl : Q -> Q) (u : Q) (buy : Step1.Config)
    (sell : Step2.Config) (doc : Step1.Document) (d : Step1.Deal) :
  accurate fl u ->
  In d (Step1.items (analyzeSearchResults fl buy doc)) ->
  0 < Step1.quantity_of (Step1.element d) ->
  (Step1.maxPricePerUnit buy * inject_Z (Step1.quantity_of (Step1.element d))
   + u * Qabs (Step1.price_of (Step1.element d)) + 1
   <= Step2.sellPrice sell * inject_Z (Step1.quantity_of (Step1.element d)))%Q ->
  nth_error (Step1.fakeItems doc) (Step1.index d - 1) = Some (Step1.element d)
  /\ (Step1.price_of (Step1.element d)
      <= Step2.totalPrice
           (Step2.calculateSellPrice sell
              (Step1.quantity_of (Step1.element d))))%Q.
Proof.
  intros Hacc Hin Hq Hmargin.
  destruct (Step1_Rounded_Theory.rounded_selected fl buy doc d Hin)
    as (Hn & Hle).
  split; [exact Hn |].
  pose proof (Step1_Rounded_Theory.row_price_le_ceiling fl u buy _ Hacc Hq Hle)
    as Hprice.
  unfold Step2.calculateSellPrice, JS.floor. cbn [Step2.totalPrice].
  destruct (Step2.removeDecimalFromTotal sell).
  - destruct (Step2_Theory.floor_bounds
                (Step2.sellPrice sell
                 * inject_Z (Step1.quantity_of (Step1.element d))))
      as [_ Hfl].
    lra.
  - lra.
Qed.

Lemma round_trip_is_not_a_loss_witness :
  (Step1.price_of (Step1.element Rounded_Inputs.twenty_deal)
   <= Step2.totalPrice
        (Step2.calculateSellPrice Step2.CONFIG
           (Step1.quantity_of (Step1.element Rounded_Inputs.twenty_deal))))%Q.
Proof.
  apply (round_trip_is_not_a_loss JS.binary64 unit_roundoff CONFIG Step2.CONFIG
           Rounded_Inputs.twenty_page).
  - exact Step1_Rounded_Theory.binary64_accurate.
  - vm_compute. left. reflexivity.
  - reflexivity.
  - vm_compute. discriminate.
Defined.

(** As shipped, with the rounding of the script: from 17 pieces on. *)
Corollary shipped_round_trip (doc : Step1.Document) (d : Step1.Deal) :
  In d (Step1.items (analyzeSearchResults JS.binary64 CONFIG doc)) ->
  17 <= Step1.quantity_of (Step1.element d) ->
  (Step1.price_of (Step1.element d)
   <= Step2.totalPrice
        (Step2.calculateSellPrice Step2.CONFIG
           (Step1.quantity_of (Step1.element d))))%Q.
Proof.
  intros Hin Hq.
  destruct (Step1_Rounded_Theory.rounded_selected JS.binary64 CONFIG doc d Hin)
    as (_ & Hle).
  assert (Hpos : 0 < Step1.quantity_of (Step1.element d)) by lia.
  pose proof (Step1_Rounded_Theory.row_price_le_ceiling JS.binary64
                unit_roundoff CONFIG _
                Step1_Rounded_Theory.binary64_accurate Hpos Hle) as Hprice.
  assert (Hq' : (17 <= inject_Z (Step1.quantity_of (Step1.element d)))%Q).
  { change 17%Q with (inject_Z 17). now rewrite <- Zle_Qle. }
  unfold Step2.calculateSellPrice, JS.floor.
  cbn [Step2.totalPrice Step2.removeDecimalFromTotal Step2.CONFIG
       Step2.sellPrice].
  destruct (Step2_Theory.floor_bounds
              ((1166 # 100) * inject_Z (Step1.quantity_of (Step1.element d))))
    as [_ Hfl].
  set (p := Step1.price_of (Step1.element d)) in *.
  set (q := inject_Z (Step1.quantity_of (Step1.element d))) in *.
  assert (Hm : Step1.maxPricePerUnit CONFIG
               = (6530219459687219 # 562949953421312)%Q)
    by (vm_compute; reflexivity).
  rewrite Hm in Hprice. unfold unit_roundoff in Hprice.
  destruct (Qlt_le_dec p 0) as [Hneg | Hnn].
  - lra.
  - rewrite (Qabs_pos p Hnn) in Hprice.
    change (1 # 2 ^ 53)%Q with (1 # 9007199254740992)%Q in Hprice.
    lra.
Qed.

End Trading_Extra.

(** * The purchase run, event by event *)

Module Runs.

Import Step1 Step1_More Inputs Rounded_Inputs Traces.

(** ** What step 8 attempts *)

Lemma attempts_of_step8 (cfg : Config)
    (inventoryStatus : option InventoryStatus) (results : SearchResults)
    (world : nat -> Page) :
  attempts (fst (executeStep1_autoBuy cfg inventoryStatus results world))
  = if autoBuy cfg && (0 <? count results)%nat
       && negb (reported_full inventoryStatus)
    then map index (items results)
    else [].
Proof.
  unfold executeStep1_autoBuy, reported_full.
  destruct (Step1_Theory.autoBuyItems_spec cfg world results)
    as (t & r & Hr & _ & Hatt).
  destruct (autoBuy cfg) eqn:Hauto; simpl; [| reflexivity].
  destruct (0 <? count results)%nat eqn:Hcount; simpl; [| reflexivity].
  assert (Hz : (count results =? 0)%nat = false).
  { apply Nat.eqb_neq. apply Nat.ltb_lt in Hcount. lia. }
  rewrite Hz in Hatt. simpl in Hatt.
  assert (Hrun : attempts (fst (buyResults ← autoBuyItems cfg world results;
                                Step1.ret (Some buyResults)))
                 = map index (items results)).
  { rewrite Hr. cbn. rewrite app_nil_r. exact Hatt. }
  destruct inventoryStatus as [st|]; [| exact Hrun].
  destruct (isFull st); simpl; [reflexivity |].
  destruct (isNearFull st); exact Hrun.
Qed.

Lemma rounded_count_is_length (fl : Q -> Q) (cfg : Config) (doc : Document) :
  count (Step1_Rounded.analyzeSearchResults fl cfg doc)
  = length (items (Step1_Rounded.analyzeSearchResults fl cfg doc)).
Proof.
  unfold Step1_Rounded.analyzeSearchResults.
  destruct (itemDisplay doc) as [n|]; [destruct (n <=? 0)%nat |]; reflexivity.
Qed.

(** C2 (amended). The selection does not look at the inventory: two pages
    with the same result rows give the same selection.  Step 8 of
    [executeStep1] attempts nothing when auto-buy is off or when the
    inventory status, if one was read, says [isFull]; in every other case
    it attempts every selected offer, in order, whatever the quantities. *)
Theorem attempts_of_executeStep1 (fl : Q -> Q) (cfg : Config)
    (before after : Document) (world : nat -> Page) :
  (forall doc doc',
      itemDisplay doc = itemDisplay doc' -> fakeItems doc = fakeItems doc' ->
      Step1_Rounded.analyzeSearchResults fl cfg doc
      = Step1_Rounded.analyzeSearchResults fl cfg doc')
  /\ (forall inventoryStatus results,
        attempts (fst (executeStep1_autoBuy cfg inventoryStatus results world))
        = if autoBuy cfg && (0 <? count results)%nat
             && negb (reported_full inventoryStatus)
          then map index (items results)
          else [])
  /\ attempts (fst (Step1_Rounded.executeStep1 fl cfg before after world))
     = if autoBuy cfg
          && negb (checkInventory cfg && isFull (checkInventoryStatus before))
       then map index (items (Step1_Rounded.analyzeSearchResults fl cfg after))
       else [].
Proof.
  split; [| split].
  - intros doc doc' Hd Hr. unfold Step1_Rounded.analyzeSearchResults.
    now rewrite Hd, Hr.
  - intros inventoryStatus results. apply attempts_of_step8.
  - unfold Step1_Rounded.executeStep1.
    rewrite Step1_Theory.fst_try_catch_ret, attempts_of_step8.
    set (results := Step1_Rounded.analyzeSearchResults fl cfg after).
    assert (Hempty : (0 <? count results)%nat = false ->
                     map index (items results) = []).
    { intros Hc. apply Nat.ltb_ge in Hc.
      unfold results in *. rewrite rounded_count_is_length in Hc.
      destruct (items (Step1_Rounded.analyzeSearchResults fl cfg after));
        [reflexivity |].
      simpl in Hc. lia. }
    destruct (autoBuy cfg); simpl; [| reflexivity].
    destruct (0 <? count results)%nat; simpl.
    + destruct (checkInventory cfg); reflexivity.
    + rewrite Hempty by reflexivity.
      destruct (negb _); reflexivity.
Qed.

Lemma attempts_of_executeStep1_witness :
  Step1_Rounded.analyzeSearchResults JS.binary64 Step1_Rounded.CONFIG
    (market_page "40/40" (fakeItems ceiling_page))
  = Step1_Rounded.analyzeSearchResults JS.binary64 Step1_Rounded.CONFIG
      ceiling_page.
Proof.
  apply (proj1 (attempts_of_executeStep1 JS.binary64 Step1_Rounded.CONFIG
                  ceiling_page ceiling_page c8_world));
    reflexivity.
Defined.

(** ** What an attempt reads and returns *)

Lemma confirm_loop_same (pg pg' : Page) (buttons : list string) :
  (forall op, raises pg op = raises pg' op) ->
  confirm_loop pg buttons = confirm_loop pg' buttons.
Proof.
  intros Hr. induction buttons as [|b rest IH]; simpl; [reflexivity |].
  unfold dom_call. now rewrite Hr, IH.
Qed.

Lemma handleConfirmDialog_same (pg pg' : Page) :
  same_controls pg pg' -> handleConfirmDialog pg = handleConfirmDialog pg'.
Proof.
  intros (Hr & _ & Hy & Hc). unfold handleConfirmDialog, dom_call.
  now rewrite Hy, Hc, Hr, (confirm_loop_same pg pg' _ Hr).
Qed.

Lemma buyItem_same (pg pg' : Page) (item : Deal) :
  same_controls pg pg' -> buyItem pg item = buyItem pg' item.
Proof.
  intros Hs. pose proof (handleConfirmDialog_same pg pg' Hs) as Hh.
  destruct Hs as (Hr & Hb & _ & _).
  unfold buyItem, dom_call. now rewrite Hb, Hh, !Hr.
Qed.

Lemma attempt_ok_false (pg : Page) (item : Deal) :
  attempt_ok pg item = false
  <-> has_click (element item) = false
      \/ raises pg OpItemClick = true
      \/ buyButton (document pg) = false
      \/ raises pg OpBuyClick = true.
Proof.
  unfold attempt_ok.
  destruct (has_click (element item)), (raises pg OpItemClick),
    (buyButton (document pg)), (raises pg OpBuyClick); simpl;
    intuition discriminate.
Qed.

(** C8 (amended). Nothing is re-validated before an attempt: [buyItem]
    reads the buy button, the confirmation buttons and the item element,
    not the inventory (and the script never reads funds).  An attempt
    ends with a boolean, never with an exception: [false] exactly when
    the item element cannot be clicked, the buy button is missing, or the
    click on the item or on the buy button raises; [true] otherwise, also
    when the confirmation fails or its click raises.  [autoBuyItems] ends
    normally, attempts every selected offer in order, and counts the
    [true] results as successes and the [false] results as failures. *)
Theorem attempts_end_in_a_boolean (cfg : Config) (world : nat -> Page)
    (results : SearchResults) (pg pg' : Page) (item : Deal) :
  (same_controls pg pg' -> buyItem pg item = buyItem pg' item)
  /\ (exists t, buyItem pg item = (t, Return (attempt_ok pg item)))
  /\ (attempt_ok pg item = false
      <-> has_click (element item) = false
          \/ raises pg OpItemClick = true
          \/ buyButton (document pg) = false
          \/ raises pg OpBuyClick = true)
  /\ exists t r,
       autoBuyItems cfg world results = (t, Return r)
       /\ attempts t
          = (if negb (autoBuy cfg) || (count results =? 0)%nat
             then [] else map index (items results))
       /\ success r
          = (if negb (autoBuy cfg) || (count results =? 0)%nat
             then 0 else count_ok world 0 (items results))%nat
       /\ failed r
          = (if negb (autoBuy cfg) || (count results =? 0)%nat
             then 0
             else length (items results) - count_ok world 0 (items results))%nat.
Proof.
  split; [apply buyItem_same |].
  split.
  { pose proof (Step1_Extra.buyItem_result pg item) as Hr.
    destruct (buyItem pg item) as [t o]. simpl in Hr. subst o. now exists t. }
  split; [apply attempt_ok_false |].
  destruct (Step1_Theory.autoBuyItems_spec cfg world results)
    as (t & r & Hr & _ & Hatt).
  exists t, r. split; [exact Hr |]. split; [exact Hatt |].
  rewrite Step1_Extra.autoBuyItems_trace in Hr.
  destruct (negb (autoBuy cfg) || (count results =? 0)%nat);
    injection Hr as _ <-; split; reflexivity.
Qed.

Lemma attempts_end_in_a_boolean_witness :
  buyButton (document gone_page) = false
  /\ attempt_ok gone_page gone_deal = false
  /\ buyItem (quiet (market_page "39/40" [])) gone_deal
     = buyItem (quiet (market_page "40/40" [offer 10 1])) gone_deal.
Proof.
  destruct (attempts_end_in_a_boolean CONFIG_autoBuy c8_world
              (analyzeSearchResults CONFIG_autoBuy c8_search_page)
              gone_page gone_page gone_deal) as (_ & _ & Hfalse & _).
  destruct (attempts_end_in_a_boolean CONFIG_autoBuy c8_world
              (analyzeSearchResults CONFIG_autoBuy c8_search_page)
              (quiet (market_page "39/40" []))
              (quiet (market_page "40/40" [offer 10 1])) gone_deal)
    as (Hsame & _).
  split; [reflexivity |].
  split.
  - apply Hfalse. right. right. left. reflexivity.
  - apply Hsame. repeat split.
Defined.

(** A confirmation click that raises is swallowed by
    [handleConfirmDialog]: the attempt still counts as a success. *)
Example raising_confirmation_counts_as_success :
  buyItem (raising_yes (market_page "39/40" [])) gone_deal
  = ([EvAttempt 1; EvClickItem 1; EvSleep 1000; EvClickBuy; EvSleep 1500],
     Return true).
Proof. reflexivity. Qed.

(** ** A stop request during a sleep *)

Lemma after_stop_split {E : Type} (delay : E -> option Q) (t : list E) :
  forall instant rest,
    after_stop delay instant t = Some rest ->
    exists before e ms,
      t = before ++ e :: rest /\ delay e = Some ms.
Proof.
  induction t as [|e t IH]; intros instant rest H; simpl in H.
  - discriminate.
  - destruct (delay e) as [ms|] eqn:Hd.
    + destruct (Qle_bool ms instant).
      * destruct (IH _ _ H) as (before & e' & ms' & -> & Hd').
        now exists (e :: before), e', ms'.
      * injection H as <-. now exists [], e, ms.
    + destruct (IH _ _ H) as (before & e' & ms' & -> & Hd').
      now exists (e :: before), e', ms'.
Qed.

Lemma delay_is_sleep (e : Event) (ms : Q) :
  delay e = Some ms -> exists z, e = EvSleep z.
Proof. destruct e; try discriminate. intros _. now eexists. Qed.

Lemma typing_delay_is_sleep (e : Step2_More.TypingEvent) (ms : Q) :
  typing_delay e = Some ms -> e = Step2_More.TSleep ms.
Proof. destruct e; try discriminate. now intros [= ->]. Qed.

Lemma simulateTyping_keys (cfg : Step2.Config) (st : Step2.Pacing)
    (speed : Step2_More.TypingSpeed) (draws : Step2_More.TypingDraws)
    (value text : string) :
  Step2_More.keys_down
    (snd (Step2_More.simulateTyping cfg st speed draws value text))
  = map Step2_More.KeyChar (list_ascii_of_string text).
Proof.
  unfold Step2_More.simulateTyping. cbn [String.length].
  cbn [Step2_More.backspace_loop].
  destruct (Step2_Extra.typing_loop_spec speed draws text 0%nat ""%string)
    as [_ Hk].
  destruct (Step2_More.typing_loop speed draws 0 text "") as [v typed].
  cbn [fst snd] in *.
  rewrite !Step2_Extra.keys_down_app, Hk.
  cbn [Step2_More.keys_down flat_map app].
  now rewrite app_nil_r.
Qed.

(** C9 (amended). The scripts take no stop request and a sleep cannot be
    cut short: whatever the instant, the run goes on after the sleep that
    is pending then.  In a run of [autoBuyItems] the attempts made before
    that sleep and those made after it are together the selected offers,
    in order, and the clicks on the buy button before and after it are
    together those of all the attempts that get that far; in a run of
    [simulateTyping] the keys pressed before and after it are together
    the whole text. *)
Theorem run_goes_on_after_a_sleep (cfg : Config) (world : nat -> Page)
    (results : SearchResults) (cfg2 : Step2.Config) (st : Step2.Pacing)
    (speed : Step2_More.TypingSpeed) (draws : Step2_More.TypingDraws)
    (value text : string) (instant : Q) :
  (forall rest,
      after_stop delay instant (fst (autoBuyItems cfg world results))
      = Some rest ->
      exists before ms,
        fst (autoBuyItems cfg world results) = before ++ EvSleep ms :: rest
        /\ attempts before ++ attempts rest
           = (if negb (autoBuy cfg) || (count results =? 0)%nat
              then [] else map index (items results))
        /\ (count_ev is_buy_click before + count_ev is_buy_click rest
            = if negb (autoBuy cfg) || (count results =? 0)%nat
              then 0 else count_ok world 0 (items results))%nat)
  /\ (forall rest,
        after_stop typing_delay instant
          (snd (Step2_More.simulateTyping cfg2 st speed draws value text))
        = Some rest ->
        exists before ms,
          snd (Step2_More.simulateTyping cfg2 st speed draws value text)
          = before ++ Step2_More.TSleep ms :: rest
          /\ Step2_More.keys_down before ++ Step2_More.keys_down rest
             = map Step2_More.KeyChar (list_ascii_of_string text)).
Proof.
  split.
  - intros rest H.
    destruct (after_stop_split _ _ _ _ H) as (before & e & ms & Ht & Hd).
    destruct (delay_is_sleep _ _ Hd) as (z & ->).
    exists before, z. split; [exact Ht |].
    destruct (Step1_Theory.autoBuyItems_spec cfg world results)
      as (t & r & Hr & _ & Hatt).
    pose proof (Step1_Extra.autoBuyItems_trace cfg world results) as Htr.
    rewrite Hr in Ht. cbn [fst] in Ht. subst t.
    rewrite Step1_Theory.attempts_app in Hatt. simpl in Hatt.
    split; [exact Hatt |].
    rewrite Hr in Htr.
    destruct (negb (autoBuy cfg) || (count results =? 0)%nat).
    + injection Htr as Htr _.
      destruct before; discriminate Htr.
    + injection Htr as Htr _.
      destruct (Step1_Extra.loop_counts world (items results) 0%nat)
        as (_ & _ & _ & _ & Hok & _).
      cbv zeta in Hok. rewrite <- Htr in Hok.
      rewrite Step1_Extra.count_ev_app in Hok.
      change (EvSleep z :: rest) with ([EvSleep z] ++ rest) in Hok.
      rewrite Step1_Extra.count_ev_app in Hok.
      change (count_ev is_buy_click [EvSleep z]) with 0%nat in Hok.
      lia.
  - intros rest H.
    destruct (after_stop_split _ _ _ _ H) as (before & e & ms & Ht & Hd).
    apply typing_delay_is_sleep in Hd. subst e.
    exists before, ms. split; [exact Ht |].
    pose proof (simulateTyping_keys cfg2 st speed draws value text) as Hk.
    rewrite Ht, Step2_Extra.keys_down_app in Hk. exact Hk.
Qed.

Lemma run_goes_on_after_a_sleep_witness :
  exists before ms,
    fst (autoBuyItems CONFIG_autoBuy c8_world
           (analyzeSearchResults CONFIG_autoBuy c8_search_page))
    = before ++ EvSleep ms
        :: [EvClickBuy; EvSleep 1500; EvClickYes; EvSleep 2000; EvSleep 2000;
            EvAttempt 2; EvClickItem 2; EvSleep 1000; EvClickBuy; EvSleep 1500;
            EvClickYes; EvSleep 2000; EvSleep 2000]
    /\ attempts before ++ [2%nat] = [1; 2]%nat.
Proof.
  destruct (proj1 (run_goes_on_after_a_sleep CONFIG_autoBuy c8_world
                     (analyzeSearchResults CONFIG_autoBuy c8_search_page)
                     Step2.CONFIG Step2.initial Step2_More_Inputs.typingSpeed
                     Step2_More_Inputs.even_draws "" "583" 500)
              [EvClickBuy; EvSleep 1500; EvClickYes; EvSleep 2000; EvSleep 2000;
               EvAttempt 2; EvClickItem 2; EvSleep 1000; EvClickBuy; EvSleep 1500;
               EvClickYes; EvSleep 2000; EvSleep 2000]
              eq_refl) as (before & ms & Ht & Hatt & _).
  exists before, ms. split; [exact Ht | exact Hatt].
Defined.

(** C9, as stated, fails: a stop request 500 ms into a purchase run
    arrives during the sleep that follows the click on the first item;
    that sleep runs its full second, and five more clicks follow it.  In
    the seller, a stop request 50 ms into [simulateTyping] arrives during
    its first sleep, and the whole text is typed after it. *)
Lemma clicks_after_a_stop_during_a_sleep :
  after_stop delay 500
    (fst (autoBuyItems CONFIG_autoBuy c8_world
            (analyzeSearchResults CONFIG_autoBuy c8_search_page)))
  = Some [EvClickBuy; EvSleep 1500; EvClickYes; EvSleep 2000; EvSleep 2000;
          EvAttempt 2; EvClickItem 2; EvSleep 1000; EvClickBuy; EvSleep 1500;
          EvClickYes; EvSleep 2000; EvSleep 2000]
  /\ ~ (forall rest,
          after_stop delay 500
            (fst (autoBuyItems CONFIG_autoBuy c8_world
                    (analyzeSearchResults CONFIG_autoBuy c8_search_page)))
          = Some rest ->
          calls is_click rest = 0%nat)
  /\ ~ (forall rest,
          after_stop typing_delay 50
            (snd (Step2_More.simulateTyping Step2.CONFIG Step2.initial
                    Step2_More_Inputs.typingSpeed Step2_More_Inputs.even_draws
                    "" "583"))
          = Some rest ->
          calls is_call rest = 0%nat).
Proof.
  split; [reflexivity |]. split.
  - intros H. specialize (H _ eq_refl). discriminate H.
  - intros H.
    destruct (after_stop typing_delay 50
                (snd (Step2_More.simulateTyping Step2.CONFIG Step2.initial
                        Step2_More_Inputs.typingSpeed
                        Step2_More_Inputs.even_draws "" "583")))
      as [rest|] eqn:Hs; [| vm_compute in Hs; discriminate Hs].
    specialize (H rest eq_refl).
    vm_compute in Hs. injection Hs as <-. vm_compute in H. discriminate H.
Qed.

(** ** The order of the events *)

Lemma before_each_nil {E : Type} (e : E) (ok : list E -> Prop) :
  before_each e ok [].
Proof. intros pre post H. destruct pre; discriminate H. Qed.

Lemma before_each_cons {E : Type} (e x : E) (ok : list E -> Prop)
    (t : list E) :
  (x = e -> ok []) ->
  before_each e (fun pre => ok (x :: pre)) t ->
  before_each e ok (x :: t).
Proof.
  intros H0 Ht pre post Heq.
  destruct pre as [|y pre]; simpl in Heq; injection Heq as Hx Heq.
  - apply H0. exact Hx.
  - subst y. exact (Ht pre post Heq).
Qed.

Lemma before_each_app {E : Type} (e : E) (ok1 ok2 ok : list E -> Prop)
    (t1 t2 : list E) :
  before_each e ok1 t1 ->
  before_each e ok2 t2 ->
  (forall pre, ok1 pre -> ok pre) ->
  (forall pre, ok2 pre -> ok (t1 ++ pre)) ->
  before_each e ok (t1 ++ t2).
Proof.
  intros H1 H2 Hin Hout pre post Heq.
  apply List.app_eq_app in Heq as (l & [[Ht1 Hpost] | [Hpre Ht2]]).
  - destruct l as [|e' l]; simpl in Hpost.
    + rewrite app_nil_r in Ht1. subst pre.
      rewrite <- (app_nil_r t1). apply Hout.
      apply (H2 [] post). now rewrite <- Hpost.
    + injection Hpost as <- _. apply Hin. exact (H1 pre l Ht1).
  - subst pre. apply Hout. exact (H2 l post Ht2).
Qed.

Lemma ends_with_app {E : Type} (last a b : list E) :
  ends_with last b -> ends_with last (a ++ b).
Proof. intros (pre' & ->). exists (a ++ pre'). apply app_assoc. Qed.

(** Decide [before_each] on a trace that is written out. *)
Ltac ends_here :=
  first [ refine (ex_intro _ [] eq_refl)
        | refine (ex_intro _ [_] eq_refl)
        | refine (ex_intro _ [_; _] eq_refl)
        | refine (ex_intro _ [_; _; _] eq_refl)
        | refine (ex_intro _ [_; _; _; _] eq_refl)
        | refine (ex_intro _ [_; _; _; _; _] eq_refl) ].

Ltac written_out :=
  repeat (apply before_each_cons;
          [ try discriminate;
            let Hx := fresh "Hx" in
            intros Hx; try (injection Hx as Hx; subst);
            first [ ends_here | eexists; ends_here | reflexivity ]
          | cbv beta ]);
  try apply before_each_nil.

Lemma attempt_order (pg : Page) (item : Deal) :
  let t := fst (buyItem pg item) in
  before_each EvClickYes (ends_with [EvClickBuy; EvSleep 1500]) t
  /\ before_each EvClickBuy
       (fun pre => exists i, ends_with [EvClickItem i; EvSleep 1000] pre) t
  /\ (forall i, before_each (EvClickItem i) (ends_with [EvAttempt i]) t)
  /\ (forall i, before_each (EvAttempt i) (fun pre => pre = []) t)
  /\ Forall (fun e => match e with EvSleep ms => 0 <= ms | _ => True end) t.
Proof.
  cbv zeta. rewrite Step1_Extra.buyItem_trace.
  destruct (has_click (element item) && negb (raises pg OpItemClick));
    [destruct (buyButton (document pg) && negb (raises pg OpBuyClick));
       [destruct (Step1_Extra.handleConfirmDialog_trace pg) as [-> | ->] |] |];
    (split; [written_out |]);
    (split; [written_out |]);
    (split; [intros i; written_out |]);
    (split; [intros i; written_out |]);
    repeat constructor; lia.
Qed.

Lemma before_each_weaken {E : Type} (e : E) (ok ok' : list E -> Prop)
    (t : list E) :
  before_each e ok t -> (forall pre, ok pre -> ok' pre) -> before_each e ok' t.
Proof. intros H Hw pre post Heq. apply Hw. exact (H pre post Heq). Qed.

(** A property of what stands before [e] that more events in front do
    not spoil holds in a run when it holds in each of its attempts. *)
Lemma before_each_attempt {E : Type} (e pause : E) (ok : list E -> Prop)
    (seg rest : list E) :
  pause <> e ->
  (forall a b, ok b -> ok (a ++ b)) ->
  before_each e ok seg ->
  before_each e ok rest ->
  before_each e ok (seg ++ pause :: rest).
Proof.
  intros Hne Hmono Hseg Hrest.
  apply (before_each_app e ok ok ok); [exact Hseg | | trivial | ].
  - apply before_each_cons; [intros Hx; now destruct Hne |].
    apply (before_each_weaken e ok); [exact Hrest |].
    intros pre Hp. exact (Hmono [pause] pre Hp).
  - intros pre Hp. now apply Hmono.
Qed.

Lemma loop_order (world : nat -> Page) (rest : list Deal) :
  forall i0,
    let t := loop_trace world i0 rest in
    before_each EvClickYes (ends_with [EvClickBuy; EvSleep 1500]) t
    /\ before_each EvClickBuy
         (fun pre => exists i, ends_with [EvClickItem i; EvSleep 1000] pre) t
    /\ (forall i, before_each (EvClickItem i) (ends_with [EvAttempt i]) t)
    /\ (forall i, before_each (EvAttempt i)
                    (fun pre => pre = [] \/ ends_with [EvSleep 2000] pre) t)
    /\ Forall (fun e => match e with EvSleep ms => 0 <= ms | _ => True end) t.
Proof.
  induction rest as [|item rest IH]; intros i0; cbv zeta.
  - simpl.
    split; [apply before_each_nil |].
    split; [apply before_each_nil |].
    split; [intros i; apply before_each_nil |].
    split; [intros i; apply before_each_nil | constructor].
  - destruct (IH (S i0)) as (Hy & Hb & Hi & Ha & Hs).
    destruct (attempt_order (world i0) item) as (Hy' & Hb' & Hi' & Ha' & Hs').
    cbv zeta in Hy, Hb, Hi, Ha, Hs, Hy', Hb', Hi', Ha', Hs'.
    change (loop_trace world i0 (item :: rest))
      with (fst (buyItem (world i0) item)
            ++ EvSleep 2000 :: loop_trace world (S i0) rest).
    split; [| split; [| split; [| split]]].
    + apply before_each_attempt; try assumption; [discriminate |].
      intros a b. apply ends_with_app.
    + apply before_each_attempt; try assumption; [discriminate |].
      intros a b (i & Hp). exists i. now apply ends_with_app.
    + intros i.
      apply before_each_attempt; [discriminate | | apply Hi' | apply Hi].
      intros a b. apply ends_with_app.
    + intros i.
      apply (before_each_app (EvAttempt i) (fun pre => pre = [])
               (ends_with [EvSleep 2000])).
      * apply Ha'.
      * apply before_each_cons; [discriminate |].
        apply (before_each_weaken _ _ _ _ (Ha i)).
        intros pre [-> | Hp]; [now exists [] |].
        exact (ends_with_app [EvSleep 2000] [EvSleep 2000] pre Hp).
      * intros pre ->. now left.
      * intros pre Hp. right. now apply ends_with_app.
    + apply Forall_app. split; [exact Hs' |].
      constructor; [lia | exact Hs].
Qed.

Lemma sleep_total_nonneg (t : list Event) :
  Forall (fun e => match e with EvSleep ms => 0 <= ms | _ => True end) t ->
  0 <= sleep_total t.
Proof.
  induction 1 as [|e t He _ IH]; simpl; [lia |].
  destruct e; lia.
Qed.

(** Two attempts of a run are at least 2000 ms of sleep apart. *)
Lemma attempts_apart (t : list Event) :
  (forall i, before_each (EvAttempt i)
               (fun pre => pre = [] \/ ends_with [EvSleep 2000] pre) t) ->
  Forall (fun e => match e with EvSleep ms => 0 <= ms | _ => True end) t ->
  forall a i mid j post,
    t = a ++ EvAttempt i :: mid ++ EvAttempt j :: post ->
    2000 <= sleep_total mid.
Proof.
  intros Hbefore Hpos a i mid j post Ht.
  assert (Hpre : (a ++ EvAttempt i :: mid = []
                  \/ ends_with [EvSleep 2000] (a ++ EvAttempt i :: mid))).
  { apply (Hbefore j _ post). rewrite Ht, <- app_assoc. reflexivity. }
  destruct Hpre as [Hnil | (pre' & Hpre)].
  { destruct a; discriminate Hnil. }
  assert (Hmid : Forall (fun e => match e with
                                  | EvSleep ms => 0 <= ms | _ => True end) mid).
  { rewrite Ht in Hpos.
    apply Forall_app in Hpos as [_ Hpos].
    apply Forall_cons_iff in Hpos as [_ Hpos].
    now apply Forall_app in Hpos as [Hpos _]. }
  destruct (List.exists_last (l := mid)) as (mid' & x & ->).
  { intros ->. apply (app_inj_tail a pre') in Hpre as [_ Hx]. discriminate Hx. }
  change (a ++ EvAttempt i :: mid' ++ [x])
    with (a ++ (EvAttempt i :: mid') ++ [x]) in Hpre.
  rewrite app_assoc in Hpre.
  apply app_inj_tail in Hpre as [_ ->].
  apply Forall_app in Hmid as [Hmid' _].
  apply sleep_total_nonneg in Hmid'.
  rewrite Step1_Extra.sleep_total_app. simpl. lia.
Qed.

(** X5. In every run of [autoBuyItems] the clicks come in order: a
    confirmation is clicked only right after a click on the buy button and
    the 1500 ms that follow it, the buy button only right after a click on
    an item and the 1000 ms that follow it, and an item only right after
    the start of the attempt on it; there is one attempt per selected
    offer, or none when auto-buy is off or nothing was selected. *)
Theorem clicks_are_nested (cfg : Config) (world : nat -> Page)
    (results : SearchResults) :
  let t := fst (autoBuyItems cfg world results) in
  before_each EvClickYes (ends_with [EvClickBuy; EvSleep 1500]) t
  /\ before_each EvClickBuy
       (fun pre => exists i, ends_with [EvClickItem i; EvSleep 1000] pre) t
  /\ (forall i, before_each (EvClickItem i) (ends_with [EvAttempt i]) t)
  /\ (count_ev is_yes_click t <= count_ev is_buy_click t)%nat
  /\ (count_ev is_buy_click t <= count_ev is_item_click t)%nat
  /\ (count_ev is_item_click t <= count_ev is_attempt t)%nat
  /\ count_ev is_attempt t
     = if negb (autoBuy cfg) || (count results =? 0)%nat
       then 0%nat else length (items results).
Proof.
  cbv zeta. rewrite Step1_Extra.autoBuyItems_trace.
  destruct (negb (autoBuy cfg) || (count results =? 0)%nat); cbn [fst].
  - split; [apply before_each_nil |].
    split; [apply before_each_nil |].
    split; [intros i; apply before_each_nil |].
    unfold count_ev. simpl. repeat split; lia.
  - destruct (loop_order world (items results) 0%nat) as (Hy & Hb & Hi & _).
    destruct (Step1_Extra.loop_counts world (items results) 0%nat)
      as (Ha & Hy' & Hb' & Hi' & _ & _).
    cbv zeta in Hy, Hb, Hi, Ha, Hy', Hb', Hi'.
    split; [exact Hy |]. split; [exact Hb |]. split; [exact Hi |].
    repeat split; lia.
Qed.

Lemma clicks_are_nested_witness :
  ends_with [EvClickBuy; EvSleep 1500]
    [EvAttempt 1; EvClickItem 1; EvSleep 1000; EvClickBuy; EvSleep 1500;
     EvClickYes; EvSleep 2000; EvSleep 2000;
     EvAttempt 2; EvClickItem 2; EvSleep 1000; EvClickBuy; EvSleep 1500].
Proof.
  apply (proj1 (clicks_are_nested CONFIG_autoBuy c8_world
                  (analyzeSearchResults CONFIG_autoBuy c8_search_page))
           _ [EvSleep 2000; EvSleep 2000]).
  reflexivity.
Defined.

(** X6. In a run of [autoBuyItems] every attempt but the first starts
    right after a sleep of 2000 ms, so that two attempts are at least
    2000 ms of sleep apart; over the whole run the sleeps add up to at
    least 2 s and at most 6.5 s per attempt. *)
Theorem attempts_are_paced (cfg : Config) (world : nat -> Page)
    (results : SearchResults) :
  let t := fst (autoBuyItems cfg world results) in
  (forall i, before_each (EvAttempt i)
               (fun pre => pre = [] \/ ends_with [EvSleep 2000] pre) t)
  /\ (forall a i mid j post,
        t = a ++ EvAttempt i :: mid ++ EvAttempt j :: post ->
        2000 <= sleep_total mid)
  /\ 2000 * Z.of_nat (count_ev is_attempt t) <= sleep_total t
  /\ sleep_total t <= 6500 * Z.of_nat (count_ev is_attempt t).
Proof.
  cbv zeta. rewrite Step1_Extra.autoBuyItems_trace.
  destruct (negb (autoBuy cfg) || (count results =? 0)%nat); cbn [fst].
  - split; [intros i; apply before_each_nil |].
    split; [intros a i mid j post H; destruct a; discriminate H |].
    split; reflexivity.
  - destruct (loop_order world (items results) 0%nat)
      as (_ & _ & _ & Ha & Hs).
    destruct (Step1_Extra.loop_counts world (items results) 0%nat)
      as (Hn & _ & _ & _ & _ & Ht).
    cbv zeta in Ha, Hs, Hn, Ht.
    split; [exact Ha |].
    split; [exact (attempts_apart _ Ha Hs) |].
    rewrite Hn. exact Ht.
Qed.

Lemma attempts_are_paced_witness :
  2000 <= sleep_total [EvClickItem 1; EvSleep 1000; EvClickBuy; EvSleep 1500;
                       EvClickYes; EvSleep 2000; EvSleep 2000].
Proof.
  apply (proj1 (proj2 (attempts_are_paced CONFIG_autoBuy c8_world
                         (analyzeSearchResults CONFIG_autoBuy c8_search_page)))
           [] 1%nat _ 2%nat
           [EvClickItem 2; EvSleep 1000; EvClickBuy; EvSleep 1500;
            EvClickYes; EvSleep 2000; EvSleep 2000]).
  reflexivity.
Defined.

End Runs.
